(** * ceph_key: a shallow embedding of [library/ceph_key.py]

    The Ansible module [ceph_key] translates its parameters into [ceph] and
    [ceph-authtool] command lines, runs them, and post-processes the JSON
    listing of the monitor's keys.  This development embeds the module's
    functions as Rocq definitions (command lines are lists of strings, the
    operating system is an explicit oracle, module exits and Python
    exceptions are an error monad) and states the module's properties as
    theorems about those definitions.

    Conventions.  Python [str] is [string], a sequence of characters below
    256; where the code's behaviour depends on whether a string is a byte
    string (Python 2) or text (Python 3), the embedding carries that type:
    [pystr] for the container prefix, [env_output_is_text] for the
    captured output of a command.  [None] is [option]'s
    [None]; Python truthiness is written out ([truthy_str], [truthy_caps]).
    A dictionary is the list of its items in iteration order. *)

From Stdlib Require Import Bool List String Ascii ZArith NArith Lia.
From Stdlib.Strings Require Import Byte.
Import ListNotations.

Local Open Scope string_scope.
Local Open Scope list_scope.
Local Open Scope Z_scope.

Infix "+++" := String.append (at level 60, right associativity).

(** ** Python string primitives used by the module *)

Module PyStr.

(** Whitespace as recognised by [str.split()] on a byte string (the [str]
    of Python 2): the space and the characters 9 to 13. *)
Definition is_space (c : ascii) : bool :=
  let n := nat_of_ascii c in
  (Nat.eqb n 32 || (Nat.leb 9 n && Nat.leb n 13))%bool.

Definition is_empty (s : string) : bool :=
  match s with EmptyString => true | String _ _ => false end.

(** Whitespace as [str.split()] recognises it on text (the [str] of
    Python 3), among the code points below 256: the byte-string
    whitespace, the separators 28 to 31, the next-line character 133 and
    the no-break space 160. *)
Definition is_text_space (c : ascii) : bool :=
  let n := nat_of_ascii c in
  (is_space c || (Nat.leb 28 n && Nat.leb n 31) || Nat.eqb n 133
   || Nat.eqb n 160)%bool.

(** [s.split()]: the maximal runs of characters that are not whitespace,
    for the whitespace [space] of the string's type. *)
Fixpoint split_ws_from (space : ascii -> bool) (cur : string) (s : string)
  : list string :=
  match s with
  | EmptyString => if is_empty cur then [] else [cur]
  | String c s' =>
      if space c
      then (if is_empty cur then split_ws_from space "" s'
            else cur :: split_ws_from space "" s')
      else split_ws_from space (cur +++ String c "") s'
  end.

Definition split_ws (space : ascii -> bool) (s : string) : list string :=
  split_ws_from space "" s.

(** [s.split(sep)] for a one-character separator: empty fields are kept. *)
Fixpoint split_on_from (sep : ascii) (cur : string) (s : string) : list string :=
  match s with
  | EmptyString => [cur]
  | String c s' =>
      if Ascii.eqb c sep then cur :: split_on_from sep "" s'
      else split_on_from sep (cur +++ String c "") s'
  end.

Definition split_on (sep : ascii) (s : string) : list string :=
  split_on_from sep "" s.

(** [needle in hay] on strings: substring test. *)
Fixpoint contains (needle hay : string) : bool :=
  (String.prefix needle hay ||
   match hay with
   | EmptyString => false
   | String _ hay' => contains needle hay'
   end)%bool.

(** [s.rstrip("\r\n")]: drop every trailing carriage return and line feed. *)
Definition is_crlf (c : ascii) : bool :=
  let n := nat_of_ascii c in (Nat.eqb n 13 || Nat.eqb n 10)%bool.

Fixpoint rstrip_crlf (s : string) : string :=
  match s with
  | EmptyString => EmptyString
  | String c s' =>
      let t := rstrip_crlf s' in
      if (is_crlf c && is_empty t)%bool then EmptyString else String c t
  end.

(** [x in xs] for a list of strings. *)
Definition mem (x : string) (xs : list string) : bool :=
  existsb (String.eqb x) xs.

End PyStr.

(** ** Module parameters and Python truthiness *)

(** A capability dictionary as the list of its items, in iteration order. *)
Definition caps_dict := list (string * string).

Definition truthy_str (o : option string) : bool :=
  match o with
  | Some s => negb (PyStr.is_empty s)
  | None => false
  end.

(** A Python string together with its runtime type, which decides what
    [split()] takes for whitespace: a byte string (the [str] of Python 2)
    or text (the [str] of Python 3, here with code points below 256). *)
Inductive pystr :=
| Bytes (s : string)
| Text (s : string).

Definition pystr_chars (s : pystr) : string :=
  match s with Bytes b => b | Text t => t end.

Definition pystr_space (s : pystr) : ascii -> bool :=
  match s with Bytes _ => PyStr.is_space | Text _ => PyStr.is_text_space end.

(** [s.split()]. *)
Definition pystr_split (s : pystr) : list string :=
  PyStr.split_ws (pystr_space s) (pystr_chars s).

Definition truthy_pystr (o : option pystr) : bool :=
  match o with
  | Some s => negb (PyStr.is_empty (pystr_chars s))
  | None => false
  end.

Definition truthy_caps (o : option caps_dict) : bool :=
  match o with
  | Some (_ :: _) => true
  | _ => false
  end.

Definition caps_items (o : option caps_dict) : caps_dict :=
  match o with Some d => d | None => [] end.

(** A command line: the tokens handed to [module.run_command]. *)
Definition command := list string.

(** ** The capability encoder *)

(** [generate_caps(cmd, _type, caps)]: the loop over [caps.items()], with
    its [continue] on an empty key, extending [cmd] in place. *)
Fixpoint generate_caps (cmd : command) (_type : string) (caps : caps_dict)
  : command :=
  match caps with
  | [] => cmd
  | (k, v) :: caps' =>
      if Nat.eqb (String.length k) 0 then generate_caps cmd _type caps'
      else
        let cmd1 := if String.eqb _type "ceph-authtool"
                    then cmd ++ ["--cap"] else cmd in
        generate_caps (cmd1 ++ [k; v]) _type caps'
  end.

(** The encoder as the specification words it: drop the entries with an
    empty subsystem name, then lay out each remaining entry as its key and
    value, preceded by the flag token in the authoring dialect only. *)
Definition caps_entry_tokens (_type : string) (kv : string * string) : command :=
  (if String.eqb _type "ceph-authtool" then ["--cap"] else [])
    ++ [fst kv; snd kv].

Definition spec_caps_tokens (_type : string) (caps : caps_dict) : command :=
  flat_map (caps_entry_tokens _type)
           (filter (fun kv => negb (PyStr.is_empty (fst kv))) caps).

(** ** Command builders that only compose tokens *)

(** [generate_ceph_cmd(cluster, args, user, user_key, containerized)]. *)
Definition generate_ceph_cmd (cluster : string) (args : command)
    (user user_key : string) (containerized : option pystr) : command :=
  let cmd := [] in
  let base_cmd :=
    ["ceph"; "-n"; user; "-k"; user_key; "--cluster"; cluster; "auth"] in
  let cmd := cmd ++ (base_cmd ++ args) in
  if truthy_pystr containerized
  then (match containerized with Some c => pystr_split c | None => [] end)
         ++ cmd
  else cmd.

Definition admin_keyring (cluster : string) : string :=
  "/etc/ceph/" +++ cluster +++ ".client.admin.keyring".

(** [update_key(cluster, name, caps, containerized)]. *)
Definition update_key (cluster name : string) (caps : caps_dict)
    (containerized : option pystr) : list command :=
  let cmd_list := [] in
  let args := ["caps"; name] in
  let args := generate_caps args "ceph" caps in
  let user := "client.admin" in
  let user_key := admin_keyring cluster in
  cmd_list ++ [generate_ceph_cmd cluster args user user_key containerized].

(** [delete_key(cluster, name, containerized)]. *)
Definition delete_key (cluster name : string) (containerized : option pystr)
  : list command :=
  let cmd_list := [] in
  let args := ["del"; name] in
  let user := "client.admin" in
  let user_key := admin_keyring cluster in
  cmd_list ++ [generate_ceph_cmd cluster args user user_key containerized].

(** [info_key(cluster, name, user, user_key, output_format, containerized)]. *)
Definition info_key (cluster name user user_key output_format : string)
    (containerized : option pystr) : list command :=
  let cmd_list := [] in
  let args := ["get"; name; "-f"; output_format] in
  cmd_list ++ [generate_ceph_cmd cluster args user user_key containerized].

(** [list_keys(cluster, user, user_key, containerized)]. *)
Definition list_keys (cluster user user_key : string)
    (containerized : option pystr) : list command :=
  let cmd_list := [] in
  let args := ["ls"; "-f"; "json"] in
  cmd_list ++ [generate_ceph_cmd cluster args user user_key containerized].

(** ** Byte strings: [base64] and [struct] *)

Definition bval (x : byte) : Z := Z.of_N (Byte.to_N x).

Definition byte_of (z : Z) : byte :=
  match Byte.of_N (Z.to_N z) with
  | Some x => x
  | None => x00
  end.

Module Base64.

Definition alphabet : string :=
  "ABCDEFGHIJKLMNOPQRSTUVWXYZabcdefghijklmnopqrstuvwxyz0123456789+/".

Definition pad : ascii := "="%char.

(** The character of a six-bit group. *)
Definition char_of (i : Z) : ascii :=
  match String.get (Z.to_nat i) alphabet with
  | Some c => c
  | None => pad
  end.

(** The six-bit group of a character of the alphabet. *)
Definition index_of (c : ascii) : option Z :=
  let n := Z.of_nat (nat_of_ascii c) in
  if ((65 <=? n) && (n <=? 90))%bool then Some (n - 65)
  else if ((97 <=? n) && (n <=? 122))%bool then Some (n - 71)
  else if ((48 <=? n) && (n <=? 57))%bool then Some (n + 4)
  else if n =? 43 then Some 62
  else if n =? 47 then Some 63
  else None.

(** [base64.b64encode]: three bytes become four characters; a final
    group of one or two bytes is padded with [=]. *)
Fixpoint b64encode (bs : list byte) : string :=
  match bs with
  | [] => ""
  | [x] =>
      let n := bval x * 65536 in
      String (char_of (n / 262144))
        (String (char_of ((n / 4096) mod 64))
           (String pad (String pad "")))
  | [x; y] =>
      let n := bval x * 65536 + bval y * 256 in
      String (char_of (n / 262144))
        (String (char_of ((n / 4096) mod 64))
           (String (char_of ((n / 64) mod 64))
              (String pad "")))
  | x :: y :: z :: rest =>
      let n := bval x * 65536 + bval y * 256 + bval z in
      String (char_of (n / 262144))
        (String (char_of ((n / 4096) mod 64))
           (String (char_of ((n / 64) mod 64))
              (String (char_of (n mod 64))
                 (b64encode rest))))
  end.

(** [base64.b64decode] on padded input; [None] on malformed input. *)
Fixpoint b64decode (s : string) : option (list byte) :=
  match s with
  | EmptyString => Some []
  | String c1 (String c2 (String c3 (String c4 rest))) =>
      match index_of c1, index_of c2 with
      | Some i1, Some i2 =>
          if Ascii.eqb c3 pad then
            if (Ascii.eqb c4 pad && PyStr.is_empty rest)%bool
            then Some [byte_of ((i1 * 262144 + i2 * 4096) / 65536)]
            else None
          else
            match index_of c3 with
            | Some i3 =>
                let n := i1 * 262144 + i2 * 4096 + i3 * 64 in
                if Ascii.eqb c4 pad then
                  if PyStr.is_empty rest
                  then Some [byte_of (n / 65536); byte_of ((n / 256) mod 256)]
                  else None
                else
                  match index_of c4 with
                  | Some i4 =>
                      let n := n + i4 in
                      match b64decode rest with
                      | Some tl =>
                          Some (byte_of (n / 65536)
                                  :: byte_of ((n / 256) mod 256)
                                  :: byte_of (n mod 256) :: tl)
                      | None => None
                      end
                  | None => None
                  end
            | None => None
            end
      | _, _ => None
      end
  | _ => None
  end.

End Base64.

Module Struct.

(** The [width] low-order bytes of [v], least significant first; on a
    negative [v] floor division yields the two's complement digits. *)
Definition le_bytes (width : nat) (v : Z) : list byte :=
  map (fun i => byte_of ((v / 256 ^ Z.of_nat i) mod 256)) (seq 0 width).

(** The unsigned value of little-endian bytes. *)
Fixpoint le_value (bs : list byte) : Z :=
  match bs with
  | [] => 0
  | x :: bs' => bval x + 256 * le_value bs'
  end.

(** The signed reading of [bits] bits. *)
Definition signed (bits : Z) (u : Z) : Z :=
  if u <? 2 ^ (bits - 1) then u else u - 2 ^ bits.

(** Format code [h] (two bytes, signed) and [i] (four bytes, signed) in
    standard size; out of range values raise [struct.error], here [None]. *)
Definition pack_h (v : Z) : option (list byte) :=
  if ((- 32768 <=? v) && (v <=? 32767))%bool
  then Some (le_bytes 2 v) else None.

Definition pack_i (v : Z) : option (list byte) :=
  if ((- 2147483648 <=? v) && (v <=? 2147483647))%bool
  then Some (le_bytes 4 v) else None.

(** [struct.pack('<hiih', a, b, c, d)]: little-endian, no padding. *)
Definition pack_hiih (a b c d : Z) : option (list byte) :=
  match pack_h a, pack_i b, pack_i c, pack_h d with
  | Some ba, Some bb, Some bc, Some bd => Some (ba ++ bb ++ bc ++ bd)
  | _, _, _, _ => None
  end.

(** [struct.unpack('<hiih', bs)] on exactly twelve bytes. *)
Definition unpack_hiih (bs : list byte) : option (Z * Z * Z * Z) :=
  if Nat.eqb (List.length bs) 12 then
    Some (signed 16 (le_value (firstn 2 bs)),
          signed 32 (le_value (firstn 4 (skipn 2 bs))),
          signed 32 (le_value (firstn 4 (skipn 6 bs))),
          signed 16 (le_value (firstn 2 (skipn 10 bs))))
  else None.

End Struct.

(** ** Python objects, exceptions and module exits *)

(** The values a name of unknown binding may hold. *)
Inductive pyobj :=
| ObjNone
| ObjStr (s : string)
| ObjList (l : list string)
| ObjNamed (name : string).

Definition obj_truthy (o : pyobj) : bool :=
  match o with
  | ObjNone => false
  | ObjStr s => negb (PyStr.is_empty s)
  | ObjList l => match l with [] => false | _ :: _ => true end
  | ObjNamed _ => true
  end.

(** Uncaught Python exceptions. [NameError] carries the unresolved global
    name, [UnboundLocalError] the local read before assignment. *)
Inductive pyexn :=
| NameError (name : string)
| UnboundLocalError (name : string)
| TypeError (what : string)
| AttributeError (what : string)
| IndexError (what : string)
| KeyError (key : string)
| StructError
| PyException (message : string).

(** Both [NameError] and its subclass [UnboundLocalError] report a name
    that has no binding where it is read. *)
Definition is_unbound_name_error (e : pyexn) : bool :=
  match e with
  | NameError _ | UnboundLocalError _ => true
  | _ => false
  end.

(** The [result] dictionary of [run_module]; an entry still holding the
    initial [''] (or absent, for [cmd]) is [None]. *)
Record result := mkResult {
  r_cmd : option command;
  r_start : option Z;
  r_end : option Z;
  r_delta : option Z;
  r_rc : option Z;
  r_stdout : string;
  r_stderr : string;
  r_changed : bool
}.

(** The keyword arguments the module passes to [fail_json] besides [msg]. *)
Inductive fail_kwargs :=
| KwRc (rc : Z)
| KwChangedRc (changed : bool) (rc : Z)
| KwResult (r : result).

(** How an invocation ends other than by a plain [return]. *)
Inductive halt :=
| ExitJson (r : result)
| FailJson (msg : string) (kw : fail_kwargs)
| Raised (e : pyexn).

(** What the module does to the outside world, in order. *)
Inductive event :=
| EvRun (cmd : command)
| EvChown (path : string) (uid gid : Z)
| EvChmod (path : string) (mode : Z)
| EvSetFsAttributes (path : string).

(** ** JSON values, as [json.loads] returns them *)

#[warnings="-register-all"]
Inductive json :=
| JNull
| JBool (b : bool)
| JNum (literal : string)
| JStr (s : string)
| JArr (items : list json)
| JObj (fields : list (string * json)).

(** ** The collaborators the module treats as opaque *)

Record Env (world : Type) := mkEnv {
  env_run_command : command -> world -> (Z * string * string) * world;
  (** Whether [run_command] hands its output back as text (Python 3)
      rather than as byte strings (Python 2). *)
  env_output_is_text : bool;
  env_isfile : string -> world -> bool;
  (** [os.chown] and [os.chmod]: [Some e] is an [OSError] whose text is [e]. *)
  env_chown : string -> Z -> Z -> world -> option string * world;
  env_chmod : string -> Z -> world -> option string * world;
  env_gethostname : world -> string;
  (** [int(time.time())] *)
  env_time : world -> Z;
  env_urandom : nat -> world -> list byte * world;
  (** [datetime.datetime.now()], as a number of microseconds *)
  env_now : world -> Z;
  (** [pwd.getpwnam(n).pw_uid] and [grp.getgrnam(n).gr_gid]; [None] is [KeyError]. *)
  env_getpwnam_uid : string -> world -> option Z;
  env_getgrnam_gid : string -> world -> option Z;
  env_set_fs_attributes_if_different : string -> world -> world;
  (** [json.loads]; [inl e] is a [ValueError] whose text is [e]. *)
  env_json_loads : string -> string + json
}.

Arguments env_run_command {world}.
Arguments env_output_is_text {world}.
Arguments env_isfile {world}.
Arguments env_chown {world}.
Arguments env_chmod {world}.
Arguments env_gethostname {world}.
Arguments env_time {world}.
Arguments env_urandom {world}.
Arguments env_now {world}.
Arguments env_getpwnam_uid {world}.
Arguments env_getgrnam_gid {world}.
Arguments env_set_fs_attributes_if_different {world}.
Arguments env_json_loads {world}.

(** ** The monad of an invocation: world, event log, early exit *)

Record machine (world : Type) := mkMachine {
  m_world : world;
  m_trace : list event
}.

Arguments mkMachine {world}.
Arguments m_world {world}.
Arguments m_trace {world}.

Definition M (world A : Type) : Type :=
  machine world -> (A + halt) * machine world.

Definition ret {world A} (a : A) : M world A := fun m => (inl a, m).

Definition bind {world A B} (c : M world A) (k : A -> M world B) : M world B :=
  fun m =>
    match c m with
    | (inl a, m') => k a m'
    | (inr h, m') => (inr h, m')
    end.

Definition halt_with {world A} (h : halt) : M world A := fun m => (inr h, m).

Definition raise {world A} (e : pyexn) : M world A := halt_with (Raised e).

Definition lift_exn {world A} (r : pyexn + A) : M world A :=
  match r with
  | inl e => raise e
  | inr a => ret a
  end.

Notation "x <- c ;; k" := (bind c (fun x => k))
  (at level 61, c at next level, right associativity).
Notation "c ;;; k" := (bind c (fun _ => k))
  (at level 61, right associativity).

(** [module.exit_json] on a result dictionary and [module.fail_json] on
    a message and further keywords. *)
Definition exit_json {world A} (r : result) : M world A :=
  halt_with (ExitJson r).

Definition fail_json {world A} (msg : string) (kw : fail_kwargs) : M world A :=
  halt_with (FailJson msg kw).

(** [fatal(message, module)]. *)
Definition fatal {world A} (message : string) (module : pyobj) : M world A :=
  if obj_truthy module
  then fail_json message (KwRc 1)
  else raise (PyException message).

(** ** Name resolution *)

Module Scope.

(** The names bound at module level once [ceph_key.py] is loaded. *)
Definition module_globals : list string :=
  [ "__name__"; "__doc__"; "__file__"; "__package__"; "__builtins__";
    "absolute_import"; "division"; "print_function"; "__metaclass__";
    "ANSIBLE_METADATA"; "DOCUMENTATION"; "EXAMPLES"; "RETURN";
    "AnsibleModule"; "datetime"; "grp"; "json"; "os"; "pwd"; "stat";
    "struct"; "time"; "base64"; "socket";
    "CEPH_INITIAL_KEYS";
    "fatal"; "generate_secret"; "generate_caps"; "generate_ceph_cmd";
    "generate_ceph_authtool_cmd"; "create_key"; "update_key";
    "delete_key"; "info_key"; "list_keys"; "exec_commands";
    "lookup_ceph_initial_entities"; "build_key_path"; "run_module";
    "main" ].

(** The interpreter's builtin names (functions, types and exceptions). *)
Definition builtins : list string :=
  [ "abs"; "all"; "any"; "apply"; "ascii"; "basestring"; "bin"; "bool";
    "buffer"; "bytearray"; "bytes"; "callable"; "chr"; "classmethod";
    "cmp"; "coerce"; "compile"; "complex"; "delattr"; "dict"; "dir";
    "divmod"; "enumerate"; "eval"; "exec"; "execfile"; "exit"; "file";
    "filter"; "float"; "format"; "frozenset"; "getattr"; "globals";
    "hasattr"; "hash"; "help"; "hex"; "id"; "input"; "int"; "intern";
    "isinstance"; "issubclass"; "iter"; "len"; "license"; "list";
    "locals"; "long"; "map"; "max"; "memoryview"; "min"; "next";
    "object"; "oct"; "open"; "ord"; "pow"; "print"; "property"; "quit";
    "range"; "raw_input"; "reduce"; "reload"; "repr"; "reversed";
    "round"; "set"; "setattr"; "slice"; "sorted"; "staticmethod"; "str";
    "sum"; "super"; "tuple"; "type"; "unichr"; "unicode"; "vars";
    "xrange"; "zip"; "__import__"; "__debug__";
    "Ellipsis"; "NotImplemented";
    "ArithmeticError"; "AssertionError"; "AttributeError";
    "BaseException"; "BufferError"; "BytesWarning"; "DeprecationWarning";
    "EOFError"; "EnvironmentError"; "Exception"; "FloatingPointError";
    "FutureWarning"; "GeneratorExit"; "IOError"; "ImportError";
    "ImportWarning"; "IndentationError"; "IndexError"; "KeyError";
    "KeyboardInterrupt"; "LookupError"; "MemoryError"; "NameError";
    "NotImplementedError"; "OSError"; "OverflowError";
    "PendingDeprecationWarning"; "ReferenceError"; "RuntimeError";
    "RuntimeWarning"; "StandardError"; "StopIteration"; "SyntaxError";
    "SyntaxWarning"; "SystemError"; "SystemExit"; "TabError";
    "TypeError"; "UnboundLocalError"; "UnicodeDecodeError";
    "UnicodeEncodeError"; "UnicodeError"; "UnicodeTranslateError";
    "UnicodeWarning"; "UserWarning"; "ValueError"; "Warning";
    "ZeroDivisionError" ].

(** The local names of the functions that read a name they do not bind:
    the parameters and every name assigned in the body. *)
Definition function_locals (f : string) : list string :=
  if String.eqb f "generate_ceph_authtool_cmd" then
    [ "cluster"; "name"; "secret"; "caps"; "auid"; "dest"; "containerized";
      "file_destination"; "cmd" ]
  else if String.eqb f "create_key" then
    [ "module"; "result"; "cluster"; "name"; "secret"; "caps"; "import_key";
      "auid"; "dest"; "containerized"; "file_path"; "args"; "cmd_list";
      "user"; "user_key" ]
  else if String.eqb f "lookup_ceph_initial_entities" then
    [ "out"; "out_dict"; "e"; "entities"; "key"; "k"; "v" ]
  else if String.eqb f "run_module" then
    [ "module_args"; "module"; "state"; "name"; "cluster"; "containerized";
      "caps"; "secret"; "import_key"; "dest"; "result"; "startd"; "user";
      "user_key"; "output_format"; "rc"; "cmd"; "out"; "err"; "file_path";
      "file_args"; "hostname"; "entities"; "ceph_uid"; "ceph_grp"; "entity";
      "key_path"; "extra_args"; "info_cmd"; "e"; "endd"; "delta" ]
  else [].

(** A name that is neither a parameter of the enclosing function nor
    assigned in it is looked up among the module's globals, then among
    the builtins. *)
Definition resolve (x : string) : option pyobj :=
  if (PyStr.mem x module_globals || PyStr.mem x builtins)%bool
  then Some (ObjNamed x)
  else None.

Definition is_local (f x : string) : bool := PyStr.mem x (function_locals f).

End Scope.

(** Reading a global name: [NameError] when it resolves nowhere. *)
Definition load_global {world} (x : string) : M world pyobj :=
  match Scope.resolve x with
  | Some o => ret o
  | None => raise (NameError x)
  end.

(** Reading, in function [f], a name the embedding of [f] holds in no
    variable of its own: a local of [f] is then still unassigned, any
    other name is global. *)
Definition load_name {world} (f x : string) : M world pyobj :=
  if Scope.is_local f x then raise (UnboundLocalError x)
  else load_global x.

(** An operand of string concatenation must be a [str]. *)
Definition as_str {world} (o : pyobj) : M world string :=
  match o with
  | ObjStr s => ret s
  | _ => raise (TypeError "cannot concatenate 'str' and non-str objects")
  end.

(** The argument of [list.extend] must be iterable; a list is, and a
    string extends by its characters. *)
Definition as_tokens {world} (o : pyobj) : M world (list string) :=
  match o with
  | ObjList l => ret l
  | ObjStr s => ret (map (fun c => String c "") (list_ascii_of_string s))
  | _ => raise (TypeError "object is not iterable")
  end.

(** ** Module parameters *)

(** [module.params] and [module.check_mode].  [name] is taken as supplied:
    every branch but [list] and [fetch_initial_keys] needs it. *)
Record params := mkParams {
  p_state : string;
  p_name : string;
  p_cluster : string;
  p_containerized : option pystr;
  p_caps : option caps_dict;
  p_secret : option string;
  p_import_key : bool;
  p_dest : string;
  p_check_mode : bool
}.

(** The tuple [rc, cmd, out, err] that [run_module] keeps in four locals. *)
Definition cmd_result : Type := (Z * command * string * string)%type.

Definition CEPH_INITIAL_KEYS : list string :=
  [ "client.admin"; "client.bootstrap-mds"; "client.bootstrap-mgr";
    "client.bootstrap-osd"; "client.bootstrap-rbd";
    "client.bootstrap-rbd-mirror"; "client.bootstrap-rgw" ].

(** The double quote character, for messages that contain it. *)
Definition dq : string := String (ascii_of_nat 34) "".

Definition invalid_state_message : string :=
  "State must either be " +++ dq +++ "present" +++ dq +++ " or " +++ dq
    +++ "absent" +++ dq +++ " or " +++ dq +++ "update" +++ dq +++ " or "
    +++ dq +++ "list" +++ dq +++ " or " +++ dq +++ "info" +++ dq +++ " or "
    +++ dq +++ "fetch_initial_keys" +++ dq +++ ".".

Definition skipped_exists_message (name : string) : string :=
  "skipped, since " +++ name
    +++ " already exists, if you want to update a key use 'state: update'".

Definition skipped_missing_message (name : string) : string :=
  "skipped, since " +++ name +++ " does not exist".

Definition initial_result : result :=
  {| r_cmd := None; r_start := None; r_end := None; r_delta := None;
     r_rc := None; r_stdout := ""; r_stderr := ""; r_changed := false |}.

Definition set_stdout_rc (r : result) (out : string) (rc : Z) : result :=
  {| r_cmd := r_cmd r; r_start := r_start r; r_end := r_end r;
     r_delta := r_delta r; r_rc := Some rc; r_stdout := out;
     r_stderr := r_stderr r; r_changed := r_changed r |}.

(** The [AnsibleModule] instance bound to [module] inside [run_module]. *)
Definition the_module : pyobj := ObjNamed "module".

(** [build_key_path(cluster, entity)]; [inr None] is the [return None]. *)
Definition build_key_path (cluster entity : string) : pyexn + option string :=
  if PyStr.contains "admin" entity then
    let path := "/etc/ceph" in
    inr (Some (path +++ "/" +++ cluster +++ "." +++ entity +++ ".keyring"))
  else if PyStr.contains "bootstrap" entity then
    let path := "/var/lib/ceph" in
    match nth_error (PyStr.split_on "."%char entity) 1 with
    | Some entity_split =>
        inr (Some (path +++ "/" +++ entity_split +++ "/" +++ cluster
                     +++ ".keyring"))
    | None => inl (IndexError "list index out of range")
    end
  else inr None.

(** ** The JSON look-up of the initial entities *)

Module Lookup.

(** [x in container] for a string [x]. *)
Definition py_in (x : string) (container : json) : pyexn + bool :=
  match container with
  | JObj fields => inr (existsb (fun kv => String.eqb (fst kv) x) fields)
  | JArr items =>
      inr (existsb (fun j => match j with
                             | JStr s => String.eqb s x
                             | _ => false
                             end) items)
  | JStr s => inr (PyStr.contains x s)
  | _ => inl (TypeError "argument is not iterable")
  end.

(** [container[x]] for a string [x]. *)
Definition py_getitem (container : json) (x : string) : pyexn + json :=
  match container with
  | JObj fields =>
      match find (fun kv => String.eqb (fst kv) x) fields with
      | Some kv => inr (snd kv)
      | None => inl (KeyError x)
      end
  | _ => inl (TypeError "indices must be integers")
  end.

(** The values [for key in j] ranges over. *)
Definition py_iter (j : json) : pyexn + list json :=
  match j with
  | JArr items => inr items
  | JObj fields => inr (map (fun kv => JStr (fst kv)) fields)
  | JStr s => inr (map (fun c => JStr (String c "")) (list_ascii_of_string s))
  | _ => inl (TypeError "object is not iterable")
  end.

(** [key.items()]. *)
Definition py_items (key : json) : pyexn + list (string * json) :=
  match key with
  | JObj fields => inr fields
  | _ => inl (AttributeError "object has no attribute 'items'")
  end.

(** [v in CEPH_INITIAL_KEYS]: only a string equals a string. *)
Definition initial_entity (v : json) : option string :=
  match v with
  | JStr s => if PyStr.mem s CEPH_INITIAL_KEYS then Some s else None
  | _ => None
  end.

(** The inner loop [for k, v in key.items()], appending to [entities]. *)
Fixpoint scan_items (items : list (string * json)) (entities : list string)
  : list string :=
  match items with
  | [] => entities
  | (k, v) :: items' =>
      if String.eqb k "entity" then
        match initial_entity v with
        | Some s => scan_items items' (entities ++ [s])
        | None => scan_items items' entities
        end
      else scan_items items' entities
  end.

(** The outer loop [for key in out_dict["auth_dump"]]. *)
Fixpoint scan_keys (keys : list json) (entities : list string)
  : pyexn + list string :=
  match keys with
  | [] => inr entities
  | key :: keys' =>
      match py_items key with
      | inl e => inl e
      | inr items => scan_keys keys' (scan_items items entities)
      end
  end.

End Lookup.

(** ** The functions of the module that act on the world *)

Section Module.

Context {world : Type} (env : Env world).

Abbreviation M := (M world).

Definition log (ev : event) : M unit :=
  fun m => (inl tt, mkMachine (m_world m) (m_trace m ++ [ev])).

Definition query {A} (f : world -> A) : M A :=
  fun m => (inl (f (m_world m)), m).

Definition act {A} (f : world -> A * world) : M A :=
  fun m => let '(a, w) := f (m_world m) in (inl a, mkMachine w (m_trace m)).

(** [module.run_command(cmd)]. *)
Definition run_command (cmd : command) : M (Z * string * string) :=
  log (EvRun cmd) ;;; act (env_run_command env cmd).

(** [generate_secret()]. *)
Definition generate_secret : M string :=
  key <- act (env_urandom env 16) ;;
  now <- query (env_time env) ;;
  match Struct.pack_hiih 1 now 0 (Z.of_nat (List.length key)) with
  | Some header => ret (Base64.b64encode (header ++ key))
  | None => raise StructError
  end.

(** [generate_ceph_authtool_cmd(cluster, name, secret, caps, auid, dest,
    containerized)].  [base_cmd] is neither a parameter nor assigned in
    this function. *)
Definition generate_ceph_authtool_cmd (cluster name secret : string)
    (caps : option caps_dict) (auid dest : pyobj)
    (containerized : option pystr) : M command :=
  d <- as_str dest ;;
  let file_destination :=
    d +++ "/" +++ cluster +++ "." +++ name +++ ".keyring" in
  let cmd :=
    ["ceph-authtool"; "--create-keyring"; file_destination;
     "--name"; name; "--add-key"; secret] in
  base_cmd <- load_name "generate_ceph_authtool_cmd" "base_cmd" ;;
  extra <- as_tokens base_cmd ;;
  let cmd := cmd ++ extra in
  match caps with
  | None => raise (AttributeError "object has no attribute 'items'")
  | Some caps =>
      let cmd := generate_caps cmd "ceph-authtool" caps in
      if truthy_pystr containerized
      then ret ((match containerized with
                 | Some c => pystr_split c
                 | None => []
                 end) ++ cmd)
      else ret cmd
  end.

(** [create_key(module, result, cluster, name, secret, caps, import_key,
    auid, dest, containerized)]; the unused [module] and [result] are
    left out.  The inner call passes six positional arguments, so the
    builder's [auid] receives [dest] and its [dest] receives
    [container_image], a name that is neither a parameter nor assigned
    in this function. *)
Definition create_key (cluster name : string) (secret : option string)
    (caps : option caps_dict) (import_key : bool) (auid dest : pyobj)
    (containerized : option pystr) : M (list command) :=
  d <- as_str dest ;;
  let file_path := d +++ "/" +++ cluster +++ "." +++ name +++ ".keyring" in
  let args := ["import"; "-i"; file_path] in
  let cmd_list := [] in
  secret <- (if negb (truthy_str secret) then generate_secret
             else ret (match secret with Some s => s | None => "" end)) ;;
  container_image <- load_name "create_key" "container_image" ;;
  authtool_cmd <- generate_ceph_authtool_cmd cluster name secret caps
                    dest container_image None ;;
  let cmd_list := cmd_list ++ [authtool_cmd] in
  if import_key then
    let user := "client.admin" in
    let user_key := admin_keyring cluster in
    ret (cmd_list
           ++ [generate_ceph_cmd cluster args user user_key containerized])
  else ret cmd_list.

(** [exec_commands(module, cmd_list)]: [last] holds the locals
    [rc, cmd, out, err] once the loop body has run. *)
Fixpoint exec_loop (cmd_list : list command) (last : option cmd_result)
  : M cmd_result :=
  match cmd_list with
  | [] =>
      match last with
      | Some r => ret r
      | None => raise (UnboundLocalError "rc")
      end
  | cmd :: rest =>
      r <- run_command cmd ;;
      let '(rc, out, err) := r in
      if negb (rc =? 0) then ret (rc, cmd, out, err)
      else exec_loop rest (Some (rc, cmd, out, err))
  end.

Definition exec_commands (cmd_list : list command) : M cmd_result :=
  exec_loop cmd_list None.

(** [lookup_ceph_initial_entities(out)].  [module] is neither a
    parameter nor assigned in this function. *)
Definition lookup_ceph_initial_entities (out : string)
  : M (option (list string)) :=
  out_dict <- match env_json_loads env out with
              | inr j => ret j
              | inl e =>
                  module <- load_name "lookup_ceph_initial_entities"
                              "module" ;;
                  fatal ("Could not decode 'ceph auth list' json output: "
                           +++ e) module
              end ;;
  let entities := [] in
  present <- lift_exn (Lookup.py_in "auth_dump" out_dict) ;;
  entities <- (if (present : bool) then
                 dump <- lift_exn (Lookup.py_getitem out_dict "auth_dump") ;;
                 keys <- lift_exn (Lookup.py_iter dump) ;;
                 lift_exn (Lookup.scan_keys keys entities)
               else
                 module <- load_name "lookup_ceph_initial_entities"
                             "module" ;;
                 fatal "'auth_dump' key not present in json output:" module) ;;
  if negb (Nat.eqb (List.length entities) (List.length CEPH_INITIAL_KEYS))
  then ret None
  else ret (Some entities).

(** Reading the local [rc] of [run_module]: bound only once one of the
    assignments [rc, cmd, out, err = exec_commands(...)] has run. *)
Definition read_rc (locals : option cmd_result) : M Z :=
  match locals with
  | Some (rc, _, _, _) => ret rc
  | None => raise (UnboundLocalError "rc")
  end.

(** The loop [for entity in entities] of the [fetch_initial_keys] branch;
    [cur] holds the locals [rc, cmd, out, err]. *)
Fixpoint fetch_loop (cluster user user_key : string)
    (containerized : option pystr) (ceph_uid ceph_grp : Z)
    (entities : list string) (cur : cmd_result) : M cmd_result :=
  match entities with
  | [] => ret cur
  | entity :: rest =>
      key_path <- lift_exn (build_key_path cluster entity) ;;
      match key_path with
      | None => fatal "Failed to build key path, no entity yet?" the_module
      | Some key_path =>
          on_disk <- query (env_isfile env key_path) ;;
          if (on_disk : bool) then
            fetch_loop cluster user user_key containerized ceph_uid ceph_grp
              rest cur
          else
            let extra_args := ["-o"; key_path] in
            let info_cmd :=
              info_key cluster entity user user_key "plain" containerized in
            let info_cmd :=
              match info_cmd with
              | first :: others => (first ++ extra_args) :: others
              | [] => []
              end in
            r <- exec_commands info_cmd ;;
            log (EvChown key_path ceph_uid ceph_grp) ;;;
            failed <- act (env_chown env key_path ceph_uid ceph_grp) ;;
            match failed with
            | Some e =>
                fatal ("Failed to set owner/group/permissions of "
                         +++ key_path +++ ": " +++ e) the_module
            | None =>
                log (EvChmod key_path 256) ;;;
                failed <- act (env_chmod env key_path 256) ;;
                match failed with
                | Some e =>
                    fatal ("Failed to set owner/group/permissions of "
                             +++ key_path +++ ": " +++ e) the_module
                | None =>
                    fetch_loop cluster user user_key containerized
                      ceph_uid ceph_grp rest r
                end
            end
      end
  end.

(** The key-existence pre-check at the head of [run_module]. *)
Definition pre_check (p : params) : M (option cmd_result) :=
  if p_import_key p then
    let user := "client.admin" in
    let user_key := admin_keyring (p_cluster p) in
    let output_format := "json" in
    r <- exec_commands (info_key (p_cluster p) (p_name p) user user_key
                          output_format (p_containerized p)) ;;
    ret (Some r)
  else ret None.

(** The [if]/[elif] chain of [run_module] on [state]; [pre] holds the
    locals [rc, cmd, out, err] as the pre-check left them. *)
Definition dispatch (p : params) (result : result)
    (pre : option cmd_result) : M cmd_result :=
  let state := p_state p in
  let name := p_name p in
  let cluster := p_cluster p in
  let containerized := p_containerized p in
  let caps := p_caps p in
  let secret := p_secret p in
  let import_key := p_import_key p in
  let dest := p_dest p in
  if String.eqb state "present" then
    (if negb (truthy_caps caps)
     then fatal "Capabilities must be provided when state is 'present'"
            the_module
     else ret tt) ;;;
    (if import_key then
       rc <- read_rc pre ;;
       if ((rc =? 0) && negb (truthy_str secret))%bool
       then exit_json (set_stdout_rc result (skipped_exists_message name) rc)
       else ret tt
     else ret tt) ;;;
    container_image <- load_name "run_module" "container_image" ;;
    cmd_list <- create_key cluster name secret caps import_key
                  (ObjStr dest) container_image None ;;
    r <- exec_commands cmd_list ;;
    let file_path := dest +++ "/" +++ cluster +++ "." +++ name +++ ".keyring" in
    log (EvSetFsAttributes file_path) ;;;
    act (fun w => (tt, env_set_fs_attributes_if_different env file_path w)) ;;;
    ret r
  else if String.eqb state "update" then
    (if negb (truthy_caps caps)
     then fatal "Capabilities must be provided when state is 'update'"
            the_module
     else ret tt) ;;;
    rc <- read_rc pre ;;
    (if negb (rc =? 0)
     then exit_json (set_stdout_rc result (skipped_missing_message name) 0)
     else ret tt) ;;;
    exec_commands (update_key cluster name (caps_items caps) containerized)
  else if String.eqb state "absent" then
    exec_commands (delete_key cluster name containerized)
  else if String.eqb state "info" then
    rc <- read_rc pre ;;
    (if negb (rc =? 0)
     then exit_json (set_stdout_rc result (skipped_missing_message name) 0)
     else ret tt) ;;;
    let user := "client.admin" in
    let user_key := admin_keyring cluster in
    let output_format := "json" in
    exec_commands (info_key cluster name user user_key output_format
                     containerized)
  else if String.eqb state "list" then
    let user := "client.admin" in
    let user_key := admin_keyring cluster in
    exec_commands (list_keys cluster user user_key containerized)
  else if String.eqb state "fetch_initial_keys" then
    hostname <- query (env_gethostname env) ;;
    let user := "mon." in
    let user_key :=
      "/var/lib/ceph/mon/" +++ cluster +++ "-" +++ hostname +++ "/keyring" in
    r <- exec_commands (list_keys cluster user user_key containerized) ;;
    let '(rc, cmd, out, err) := r in
    (if negb (rc =? 0)
     then exit_json (set_stdout_rc result "failed to retrieve ceph keys" 0)
     else ret tt) ;;;
    entities <- lookup_ceph_initial_entities out ;;
    match entities with
    | None => fatal "Failed to find some of the initial entities" the_module
    | Some entities =>
        uid <- query (env_getpwnam_uid env "ceph") ;;
        match uid with
        | None => raise (KeyError "getpwnam(): name not found: ceph")
        | Some ceph_uid =>
            gid <- query (env_getgrnam_gid env "ceph") ;;
            match gid with
            | None => raise (KeyError "getgrnam(): name not found: ceph")
            | Some ceph_grp =>
                fetch_loop cluster user user_key containerized
                  ceph_uid ceph_grp entities r
            end
        end
    end
  else
    fail_json invalid_state_message (KwChangedRc false 1).

(** [out.rstrip(b"\r\n")] on the output of a command: the argument is a
    byte string, which the [rstrip] of text refuses with [TypeError]. *)
Definition rstrip_line_ends (out : string) : M string :=
  if env_output_is_text env
  then raise (TypeError "rstrip arg must be None or str")
  else ret (PyStr.rstrip_crlf out).

(** [run_module()], on the parameters Ansible has parsed. *)
Definition run_module (p : params) : M result :=
  let result := initial_result in
  if p_check_mode p then ret result
  else
    startd <- query (env_now env) ;;
    pre <- pre_check p ;;
    r <- dispatch p result pre ;;
    let '(rc, cmd, out, err) := r in
    endd <- query (env_now env) ;;
    let delta := endd - startd in
    stdout <- rstrip_line_ends out ;;
    stderr <- rstrip_line_ends err ;;
    let result :=
      {| r_cmd := Some cmd; r_start := Some startd; r_end := Some endd;
         r_delta := Some delta; r_rc := Some rc;
         r_stdout := stdout;
         r_stderr := stderr;
         r_changed := true |} in
    (if negb (rc =? 0)
     then fail_json "non-zero return code" (KwResult result)
     else ret tt) ;;;
    exit_json result.

(** Running an invocation from a world with an empty event log. *)
Definition invoke (p : params) (w : world)
  : (result + halt) * machine world :=
  run_module p (mkMachine w []).

End Module.

(** ** Reading an invocation *)

(** The command of the key-existence pre-check, as [run_module] builds it. *)
Definition pre_check_cmd (p : params) : command :=
  hd [] (info_key (p_cluster p) (p_name p) "client.admin"
           (admin_keyring (p_cluster p)) "json" (p_containerized p)).

(** The exit code the pre-check command gets in world [w]. *)
Definition pre_check_rc {world} (env : Env world) (p : params) (w : world) : Z :=
  fst (fst (fst (env_run_command env (pre_check_cmd p) w))).

(** The world once the pre-check command has run. *)
Definition after_pre_check {world} (env : Env world) (p : params) (w : world)
  : world :=
  snd (env_run_command env (pre_check_cmd p) w).

(** What the pre-check leaves in the locals [rc, cmd, out, err], and the
    machine it leaves, when the invocation starts in world [w]. *)
Definition pre_check_locals {world} (env : Env world) (p : params) (w : world)
  : option cmd_result :=
  if p_import_key p then
    let r := env_run_command env (pre_check_cmd p) w in
    Some (fst (fst (fst r)), pre_check_cmd p, snd (fst (fst r)), snd (fst r))
  else None.

Definition pre_check_machine {world} (env : Env world) (p : params) (w : world)
  : machine world :=
  if p_import_key p
  then mkMachine (after_pre_check env p w) [EvRun (pre_check_cmd p)]
  else mkMachine w [].

(** The commands of an event log, in order. *)
Definition commands_run (t : list event) : list command :=
  flat_map (fun ev => match ev with EvRun c => [c] | _ => [] end) t.

(** The events that create or alter files on their own account. *)
Definition touches_files (ev : event) : bool :=
  match ev with
  | EvRun c => PyStr.mem "-o" c
  | EvChown _ _ _ | EvChmod _ _ | EvSetFsAttributes _ => true
  end.

Definition is_authtool (c : command) : bool := PyStr.mem "ceph-authtool" c.

Definition outcome_of {world A} (r : (A + halt) * machine world) : A + halt :=
  fst r.

Definition trace_of {world A} (r : (A + halt) * machine world) : list event :=
  m_trace (snd r).

(** States [update] (once capabilities are given) and [info] read the
    local [rc] first. *)
Definition reads_rc_first (p : params) : Prop :=
  (p_state p = "update" /\ truthy_caps (p_caps p) = true)
  \/ p_state p = "info".

(** A state outside the six the dispatcher knows. *)
Definition unknown_state (state : string) : Prop :=
  ~ In state ["present"; "update"; "absent"; "info"; "list";
              "fetch_initial_keys"].

(** The one command the branches [update], [absent], [info] and [list]
    hand to [exec_commands]. *)
Definition state_command (p : params) : command :=
  let cluster := p_cluster p in
  let name := p_name p in
  let containerized := p_containerized p in
  if String.eqb (p_state p) "update" then
    hd [] (update_key cluster name (caps_items (p_caps p)) containerized)
  else if String.eqb (p_state p) "absent" then
    hd [] (delete_key cluster name containerized)
  else if String.eqb (p_state p) "info" then
    hd [] (info_key cluster name "client.admin" (admin_keyring cluster)
             "json" containerized)
  else
    hd [] (list_keys cluster "client.admin" (admin_keyring cluster)
             containerized).

(** The invocations that reach that command: [absent] and [list] always,
    [update] and [info] once the pre-check has found the key. *)
Definition runs_state_command {world} (env : Env world) (p : params)
    (w : world) : Prop :=
  p_state p = "absent" \/ p_state p = "list"
  \/ (reads_rc_first p /\ p_import_key p = true /\ pre_check_rc env p w = 0).

(** Running a list of commands that all exit with code 0: the world they
    leave, or [None] once one of them exits non-zero. *)
Fixpoint all_succeed {world} (env : Env world) (cmds : list command)
    (w : world) : option world :=
  match cmds with
  | [] => Some w
  | c :: cmds' =>
      let r := env_run_command env c w in
      if fst (fst (fst r)) =? 0 then all_succeed env cmds' (snd r) else None
  end.

(** The key blob as the specification words it: a little-endian header
    (format version 1 on two bytes, the timestamp on four, a reserved zero
    on four, the length of the key material on two) followed by the key
    material. *)
Definition spec_secret_blob (ts : Z) (key : list byte) : list byte :=
  Struct.le_bytes 2 1 ++ Struct.le_bytes 4 ts ++ Struct.le_bytes 4 0
    ++ Struct.le_bytes 2 (Z.of_nat (List.length key)) ++ key.

(** The entity names the look-up collects from the entries of
    [auth_dump]: for each entry, in order, the value of each [entity] field
    that is one of the initial names. *)
Definition entry_entities (key : json) : list string :=
  match key with
  | JObj fields =>
      flat_map (fun kv =>
                  if String.eqb (fst kv) "entity" then
                    match Lookup.initial_entity (snd kv) with
                    | Some s => [s]
                    | None => []
                    end
                  else []) fields
  | _ => []
  end.

Definition listed_entities (keys : list json) : list string :=
  flat_map entry_entities keys.

(** The listing command of the [fetch_initial_keys] branch. *)
Definition fetch_list_cmd {world} (env : Env world) (p : params) (w : world)
  : command :=
  hd [] (list_keys (p_cluster p) "mon."
           ("/var/lib/ceph/mon/" +++ p_cluster p +++ "-"
              +++ env_gethostname env (m_world (pre_check_machine env p w))
              +++ "/keyring")
           (p_containerized p)).

(** An invocation that ends in failure: [fail_json] or an uncaught
    exception. *)
Definition halt_is_failure (h : halt) : bool :=
  match h with
  | ExitJson _ => false
  | FailJson _ _ | Raised _ => true
  end.

(** A listing entry naming one entity. *)
Definition auth_entry (entity : string) : json :=
  JObj [("entity", JStr entity); ("key", JStr "AQBSdFIVAAAAABAAgx8ZLnc2b2CqCCl0Oqx2Ow==")].

Definition auth_listing (entities : list string) : json :=
  JObj [("auth_dump", JArr (map auth_entry entities))].

Definition is_obj (j : json) : bool :=
  match j with JObj _ => true | _ => false end.

(** ** A concrete environment *)

(** A host whose [ceph auth get] exits with [get_rc], whose [ceph auth ls]
    prints a listing that parses to [listing], with no key file on disk,
    a clock reading [clock], all-zero random bytes, and command output
    handed back as byte strings. *)
Definition demo_env (get_rc : Z) (listing : string + json) (clock : Z)
  : Env unit :=
  {| env_run_command := fun cmd w =>
       if PyStr.mem "get" cmd then ((get_rc, "", ""), w)
       else ((0, "", ""), w);
     env_output_is_text := false;
     env_isfile := fun _ _ => false;
     env_chown := fun _ _ _ w => (None, w);
     env_chmod := fun _ _ w => (None, w);
     env_gethostname := fun _ => "mon0";
     env_time := fun _ => clock;
     env_urandom := fun n w => (repeat x00 n, w);
     env_now := fun _ => 0;
     env_getpwnam_uid := fun _ _ => Some 167;
     env_getgrnam_gid := fun _ _ => Some 167;
     env_set_fs_attributes_if_different := fun _ w => w;
     env_json_loads := fun _ => listing |}.

Definition demo_params (state : string) (caps : option caps_dict)
    (secret : option string) (import_key : bool) : params :=
  {| p_state := state; p_name := "client.rgw"; p_cluster := "ceph";
     p_containerized := None; p_caps := caps; p_secret := secret;
     p_import_key := import_key; p_dest := "/etc/ceph/";
     p_check_mode := false |}.

Definition demo_caps : caps_dict := [("mon", "allow rwx"); ("mds", "allow *")].

(** The host of [demo_env] under Python 3: command output is text. *)
Definition demo_text_env (get_rc : Z) (listing : string + json) (clock : Z)
  : Env unit :=
  {| env_run_command := env_run_command (demo_env get_rc listing clock);
     env_output_is_text := true;
     env_isfile := env_isfile (demo_env get_rc listing clock);
     env_chown := env_chown (demo_env get_rc listing clock);
     env_chmod := env_chmod (demo_env get_rc listing clock);
     env_gethostname := env_gethostname (demo_env get_rc listing clock);
     env_time := env_time (demo_env get_rc listing clock);
     env_urandom := env_urandom (demo_env get_rc listing clock);
     env_now := env_now (demo_env get_rc listing clock);
     env_getpwnam_uid := env_getpwnam_uid (demo_env get_rc listing clock);
     env_getgrnam_gid := env_getgrnam_gid (demo_env get_rc listing clock);
     env_set_fs_attributes_if_different :=
       env_set_fs_attributes_if_different (demo_env get_rc listing clock);
     env_json_loads := env_json_loads (demo_env get_rc listing clock) |}.

(** A host that counts the commands it has run: the first one exits 0,
    every later one exits 22 with a message on standard error. *)
Definition flaky_env : Env nat :=
  {| env_run_command := fun cmd n =>
       if Nat.eqb n 0 then ((0, "", ""), S n)
       else ((22, "", String.append "Error EINVAL" (String (ascii_of_nat 10) "")),
             S n);
     env_output_is_text := false;
     env_isfile := fun _ _ => false;
     env_chown := fun _ _ _ n => (None, n);
     env_chmod := fun _ _ n => (None, n);
     env_gethostname := fun _ => "mon0";
     env_time := fun _ => 0;
     env_urandom := fun k n => (repeat x00 k, n);
     env_now := fun n => Z.of_nat n;
     env_getpwnam_uid := fun _ _ => Some 167;
     env_getgrnam_gid := fun _ _ => Some 167;
     env_set_fs_attributes_if_different := fun _ n => n;
     env_json_loads := fun _ => inr JNull |}.

(** ** Reading results and command lines *)

(** The tokens a container prefix contributes to a command line. *)
Definition container_prefix (containerized : option pystr) : list string :=
  if truthy_pystr containerized
  then match containerized with Some c => pystr_split c | None => [] end
  else [].

(** The fixed head of every [ceph] command line. *)
Definition ceph_base (cluster user user_key : string) : command :=
  ["ceph"; "-n"; user; "-k"; user_key; "--cluster"; cluster; "auth"].

(** A string whose last character is a carriage return or a line feed. *)
Fixpoint ends_with_line_end (s : string) : bool :=
  match s with
  | EmptyString => false
  | String c s' =>
      match s' with
      | EmptyString => PyStr.is_crlf c
      | String _ _ => ends_with_line_end s'
      end
  end.

(** The result dictionary of a skip: the initial one with a message and
    return code 0. *)
Definition skip_result (r : result) : Prop :=
  r_cmd r = None /\ r_changed r = false /\ r_rc r = Some 0
  /\ r_stderr r = "" /\ r_start r = None /\ r_end r = None.

(** The result dictionary built once the state's commands have run. *)
Definition run_result (r : result) (rc : Z) : Prop :=
  r_cmd r <> None /\ r_changed r = true /\ r_rc r = Some rc
  /\ ends_with_line_end (r_stdout r) = false
  /\ ends_with_line_end (r_stderr r) = false
  /\ r_start r <> None /\ r_end r <> None.

(** The ways the dispatch on [state] may end an invocation early. *)
Definition early_halt (h : halt) : Prop :=
  match h with
  | ExitJson r => skip_result r
  | FailJson _ (KwRc rc) => rc = 1
  | FailJson _ (KwChangedRc changed rc) => changed = false /\ rc = 1
  | FailJson _ (KwResult _) => False
  | Raised _ => True
  end.

(** The ways an invocation outside check mode may end. *)
Definition final_halt (h : halt) : Prop :=
  match h with
  | ExitJson r => skip_result r \/ run_result r 0
  | FailJson msg (KwResult r) =>
      msg = "non-zero return code" /\ exists rc, rc <> 0 /\ run_result r rc
  | _ => early_halt h
  end.

(** A computation that, when it ends the invocation, does so in a way
    [P] admits. *)
Definition halts_only {world A} (P : halt -> Prop) (c : M world A) : Prop :=
  forall m h m', c m = (inr h, m') -> P h.





(** The demonstration parameters, run through a container. *)
Definition demo_container_params (state : string) (caps : option caps_dict)
  : params :=
  {| p_state := state; p_name := "client.rgw"; p_cluster := "ceph";
     p_containerized := Some (Bytes "docker exec ceph-mon-a"); p_caps := caps;
     p_secret := None; p_import_key := true; p_dest := "/etc/ceph/";
     p_check_mode := false |}.

(** Where the key of an initial entity belongs: the admin key under
    [/etc/ceph], a bootstrap key under the directory of [/var/lib/ceph]
    named after the entity without its [client.] prefix. *)
Definition initial_key_path (cluster entity : string) : string :=
  if String.eqb entity "client.admin"
  then "/etc/ceph/" +++ cluster +++ ".client.admin.keyring"
  else "/var/lib/ceph/"
         +++ String.substring 7 (String.length entity - 7) entity
         +++ "/" +++ cluster +++ ".keyring".

(** The concrete host of [demo_env], with every key file already on disk. *)
Definition on_disk_env (listing : string + json) : Env unit :=
  {| env_run_command := env_run_command (demo_env 0 listing 0);
     env_output_is_text := env_output_is_text (demo_env 0 listing 0);
     env_isfile := fun _ _ => true;
     env_chown := env_chown (demo_env 0 listing 0);
     env_chmod := env_chmod (demo_env 0 listing 0);
     env_gethostname := env_gethostname (demo_env 0 listing 0);
     env_time := env_time (demo_env 0 listing 0);
     env_urandom := env_urandom (demo_env 0 listing 0);
     env_now := env_now (demo_env 0 listing 0);
     env_getpwnam_uid := env_getpwnam_uid (demo_env 0 listing 0);
     env_getgrnam_gid := env_getgrnam_gid (demo_env 0 listing 0);
     env_set_fs_attributes_if_different :=
       env_set_fs_attributes_if_different (demo_env 0 listing 0);
     env_json_loads := env_json_loads (demo_env 0 listing 0) |}.

(** The string holds the character. *)
Definition has_char (a : ascii) (s : string) : bool :=
  existsb (Ascii.eqb a) (list_ascii_of_string s).

(** What an invocation with parameters [p] may do to the outside world:
    run a [ceph ... auth] command line behind the container prefix, and,
    in state [fetch_initial_keys] only, change the owner of a file or set
    its mode to owner-read-only. *)
Definition admissible_event (p : params) (ev : event) : Prop :=
  match ev with
  | EvRun c =>
      exists user user_key args,
        c = container_prefix (p_containerized p)
              ++ ceph_base (p_cluster p) user user_key ++ args
  | EvChown _ _ _ => p_state p = "fetch_initial_keys"
  | EvChmod _ mode => p_state p = "fetch_initial_keys" /\ mode = 256
  | EvSetFsAttributes _ => False
  end.

(** A computation whose every event, however it ends, satisfies [Q]. *)
Definition runs_only {world A} (Q : event -> Prop) (c : M world A) : Prop :=
  forall m r m',
    c m = (r, m') -> exists t, m_trace m' = m_trace m ++ t /\ Forall Q t.

(** The command that fetches the key of an initial entity into its file,
    and what the loop of [fetch_initial_keys] does for one entity. *)
Definition fetch_cmd (cluster user user_key : string)
    (containerized : option pystr) (entity : string) : command :=
  hd [] (info_key cluster entity user user_key "plain" containerized)
    ++ ["-o"; initial_key_path cluster entity].

Definition fetch_events (cluster user user_key : string)
    (containerized : option pystr) (uid gid : Z) (entity : string)
  : list event :=
  [ EvRun (fetch_cmd cluster user user_key containerized entity);
    EvChown (initial_key_path cluster entity) uid gid;
    EvChmod (initial_key_path cluster entity) 256 ].

(** Following the loop of [fetch_initial_keys] over the host, from the
    world [w]: the entities whose key file is missing at their turn, and
    the world the loop leaves, as long as changing the owner and the mode
    of the file succeeds at each of them; [None] once either raises. *)
Fixpoint fetch_pass {world} (env : Env world) (cluster user user_key : string)
    (containerized : option pystr) (uid gid : Z) (entities : list string)
    (w : world) : option (list string * world) :=
  match entities with
  | [] => Some ([], w)
  | e :: rest =>
      let path := initial_key_path cluster e in
      if env_isfile env path w
      then fetch_pass env cluster user user_key containerized uid gid rest w
      else
        let w1 :=
          snd (env_run_command env
                 (fetch_cmd cluster user user_key containerized e) w) in
        match env_chown env path uid gid w1 with
        | (Some _, _) => None
        | (None, w2) =>
            match env_chmod env path 256 w2 with
            | (Some _, _) => None
            | (None, w3) =>
                match fetch_pass env cluster user user_key containerized
                        uid gid rest w3 with
                | Some (fetched, w') => Some (e :: fetched, w')
                | None => None
                end
            end
        end
  end.

(** The file a command line is told to write with [-o], if any. *)
Definition output_file (cmd : command) : option string :=
  if PyStr.mem "-o" cmd then Some (List.last cmd "") else None.

(** A host with a disk: the world is the list of the files on it.  A
    command given [-o path] exits 0 and writes that file when [fetch_ok]
    holds, and exits 2 without writing it otherwise; changing the owner or
    the mode of a file that is not there is an [OSError]. *)
Definition disk_env (fetch_ok : bool) : Env (list string) :=
  {| env_run_command := fun cmd disk =>
       match output_file cmd with
       | Some path =>
           if fetch_ok then ((0, "", ""), path :: disk)
           else ((2, "", "Error ENOENT"), disk)
       | None => ((0, "", ""), disk)
       end;
     env_output_is_text := false;
     env_isfile := fun path disk => PyStr.mem path disk;
     env_chown := fun path _ _ disk =>
       if PyStr.mem path disk then (None, disk)
       else (Some ("[Errno 2] No such file or directory: '" +++ path +++ "'"),
             disk);
     env_chmod := fun path _ disk =>
       if PyStr.mem path disk then (None, disk)
       else (Some ("[Errno 2] No such file or directory: '" +++ path +++ "'"),
             disk);
     env_gethostname := fun _ => "mon0";
     env_time := fun _ => 0;
     env_urandom := fun k disk => (repeat x00 k, disk);
     env_now := fun _ => 0;
     env_getpwnam_uid := fun _ _ => Some 167;
     env_getgrnam_gid := fun _ _ => Some 167;
     env_set_fs_attributes_if_different := fun _ disk => disk;
     env_json_loads := fun _ => inr JNull |}.

(** * Properties *)

(** ** The capability encoder *)

Lemma is_empty_length (k : string) :
  Nat.eqb (String.length k) 0 = PyStr.is_empty k.
Proof. destruct k; reflexivity. Qed.

Lemma generate_caps_spec (caps : caps_dict) :
  forall (cmd : command) (_type : string),
    generate_caps cmd _type caps = cmd ++ spec_caps_tokens _type caps.
Proof.
  unfold spec_caps_tokens.
  induction caps as [| [k v] caps IH]; intros cmd _type; simpl.
  - now rewrite app_nil_r.
  - rewrite is_empty_length.
    destruct (PyStr.is_empty k); simpl.
    + apply IH.
    + rewrite IH. unfold caps_entry_tokens; simpl.
      destruct (String.eqb _type "ceph-authtool"); simpl;
        now rewrite <- ?app_assoc.
Qed.

(** C8.  For every capability mapping and every command prefix, the
    encoder appends to the prefix exactly the tokens of the entries with a
    non-empty subsystem name, in the mapping's iteration order, each entry
    as its key followed by its value, preceded by [--cap] exactly when the
    dialect is [ceph-authtool]; the two dialects of the specification's
    example come out as written there. *)
Theorem C8_generate_caps_encoding :
  (forall (cmd : command) (_type : string) (caps : caps_dict),
      generate_caps cmd _type caps
      = cmd ++ flat_map
                 (fun kv =>
                    (if String.eqb _type "ceph-authtool" then ["--cap"] else [])
                      ++ [fst kv; snd kv])
                 (filter (fun kv => negb (String.eqb (fst kv) "")) caps))
  /\ generate_caps [] "ceph-authtool" [("mon", "allow rwx"); ("mds", "allow *")]
     = ["--cap"; "mon"; "allow rwx"; "--cap"; "mds"; "allow *"]
  /\ generate_caps [] "ceph" [("mon", "allow rwx"); ("mds", "allow *")]
     = ["mon"; "allow rwx"; "mds"; "allow *"].
Proof.
  split; [| split; reflexivity].
  intros cmd _type caps. rewrite generate_caps_spec.
  unfold spec_caps_tokens, caps_entry_tokens. f_equal. f_equal.
  apply filter_ext. intros [k v]; simpl. now destruct k.
Qed.

(** ** The monad *)

Section MonadFacts.

Context {world : Type} (env : Env world).

Lemma bind_ret_l {A B} (a : A) (k : A -> M world B) (m : machine world) :
  bind (ret a) k m = k a m.
Proof. reflexivity. Qed.

Lemma bind_query {A B} (f : world -> A) (k : A -> M world B)
    (m : machine world) :
  bind (query f) k m = k (f (m_world m)) m.
Proof. reflexivity. Qed.

Lemma bind_assoc {A B C} (c : M world A) (k1 : A -> M world B)
    (k2 : B -> M world C) (m : machine world) :
  bind (bind c k1) k2 m = bind c (fun a => bind (k1 a) k2) m.
Proof. unfold bind. destruct (c m) as [[a | h] m']; reflexivity. Qed.

Lemma bind_halt {A B} (h : halt) (k : A -> M world B) (m : machine world) :
  bind (halt_with h) k m = (inr h, m).
Proof. reflexivity. Qed.

Lemma bind_inl {A B} (c : M world A) (k : A -> M world B) m a m' :
  c m = (inl a, m') -> bind c k m = k a m'.
Proof. unfold bind; intros ->; reflexivity. Qed.

Lemma bind_inr {A B} (c : M world A) (k : A -> M world B) m h m' :
  c m = (inr h, m') -> bind c k m = (inr h, m').
Proof. unfold bind; intros ->; reflexivity. Qed.

Lemma run_command_eq (cmd : command) (m : machine world) :
  run_command env cmd m
  = (inl (fst (env_run_command env cmd (m_world m))),
     mkMachine (snd (env_run_command env cmd (m_world m)))
               (m_trace m ++ [EvRun cmd])).
Proof.
  unfold run_command, bind, log, act; simpl.
  destruct (env_run_command env cmd (m_world m)); reflexivity.
Qed.

(** A one-command list: the command runs, and its result is returned
    whatever its exit code. *)
Lemma exec_commands_single (cmd : command) (m : machine world) :
  exec_commands env [cmd] m
  = (let r := env_run_command env cmd (m_world m) in
     (inl (fst (fst (fst r)), cmd, snd (fst (fst r)), snd (fst r)),
      mkMachine (snd r) (m_trace m ++ [EvRun cmd]))).
Proof.
  unfold exec_commands; simpl.
  erewrite bind_inl by apply run_command_eq.
  destruct (env_run_command env cmd (m_world m)) as [[[rc out] err] w']; simpl.
  destruct (rc =? 0); reflexivity.
Qed.

Lemma info_key_single cluster name user user_key fmt containerized :
  info_key cluster name user user_key fmt containerized
  = [hd [] (info_key cluster name user user_key fmt containerized)].
Proof. reflexivity. Qed.

Lemma pre_check_eq (p : params) (w : world) :
  pre_check env p (mkMachine w [])
  = (inl (pre_check_locals env p w), pre_check_machine env p w).
Proof.
  unfold pre_check, pre_check_locals, pre_check_machine.
  destruct (p_import_key p); [| reflexivity].
  rewrite info_key_single. fold (pre_check_cmd p).
  erewrite bind_inl by apply exec_commands_single. reflexivity.
Qed.

End MonadFacts.

Ltac monad_simpl :=
  repeat (rewrite bind_assoc || rewrite bind_ret_l || rewrite bind_query).

(** ** The dispatcher *)

Section DispatcherFacts.

Context {world : Type} (env : Env world).

(** An invocation outside check mode ends the way its dispatch ends,
    whenever the dispatch exits early. *)
Lemma run_module_early_exit (p : params) (m m1 m2 : machine world)
    (pre : option cmd_result) (h : halt) :
  p_check_mode p = false ->
  pre_check env p m = (inl pre, m1) ->
  dispatch env p initial_result pre m1 = (inr h, m2) ->
  run_module env p m = (inr h, m2).
Proof.
  intros Hcm Hpre Hd. unfold run_module. rewrite Hcm.
  rewrite bind_query.
  erewrite bind_inl by exact Hpre.
  erewrite bind_inr by exact Hd. reflexivity.
Qed.

(** An invocation whose dispatch returns reports the returned command. *)
Lemma run_module_completes (p : params) (m m1 m2 : machine world)
    (pre : option cmd_result) rc cmd out err :
  p_check_mode p = false ->
  pre_check env p m = (inl pre, m1) ->
  dispatch env p initial_result pre m1 = (inl (rc, cmd, out, err), m2) ->
  run_module env p m
  = (let result :=
       {| r_cmd := Some cmd;
          r_start := Some (env_now env (m_world m));
          r_end := Some (env_now env (m_world m2));
          r_delta := Some (env_now env (m_world m2) - env_now env (m_world m));
          r_rc := Some rc;
          r_stdout := PyStr.rstrip_crlf out;
          r_stderr := PyStr.rstrip_crlf err;
          r_changed := true |} in
     (inr (if env_output_is_text env
           then Raised (TypeError "rstrip arg must be None or str")
           else if rc =? 0 then ExitJson result
           else FailJson "non-zero return code" (KwResult result)), m2)).
Proof.
  intros Hcm Hpre Hd. unfold run_module. rewrite Hcm.
  rewrite bind_query.
  erewrite bind_inl by exact Hpre.
  erewrite bind_inl by exact Hd.
  cbv beta iota. rewrite bind_query. unfold rstrip_line_ends.
  destruct (env_output_is_text env); [reflexivity |].
  rewrite !bind_ret_l. simpl.
  destruct (rc =? 0); reflexivity.
Qed.

Lemma invoke_early_exit (p : params) (w : world) (m2 : machine world)
    (h : halt) :
  p_check_mode p = false ->
  dispatch env p initial_result (pre_check_locals env p w)
    (pre_check_machine env p w) = (inr h, m2) ->
  invoke env p w = (inr h, m2).
Proof.
  intros Hcm Hd. unfold invoke.
  eapply run_module_early_exit; eauto using pre_check_eq.
Qed.

Lemma invoke_completes (p : params) (w : world) (m2 : machine world)
    rc cmd out err :
  p_check_mode p = false ->
  dispatch env p initial_result (pre_check_locals env p w)
    (pre_check_machine env p w) = (inl (rc, cmd, out, err), m2) ->
  invoke env p w
  = (let result :=
       {| r_cmd := Some cmd;
          r_start := Some (env_now env w);
          r_end := Some (env_now env (m_world m2));
          r_delta := Some (env_now env (m_world m2) - env_now env w);
          r_rc := Some rc;
          r_stdout := PyStr.rstrip_crlf out;
          r_stderr := PyStr.rstrip_crlf err;
          r_changed := true |} in
     (inr (if env_output_is_text env
           then Raised (TypeError "rstrip arg must be None or str")
           else if rc =? 0 then ExitJson result
           else FailJson "non-zero return code" (KwResult result)), m2)).
Proof.
  intros Hcm Hd. unfold invoke.
  erewrite run_module_completes; eauto using pre_check_eq.
Qed.

(** The authoring-command builder never returns a command. *)
Lemma generate_ceph_authtool_cmd_raises cluster name secret caps auid d
    containerized (m : machine world) :
  generate_ceph_authtool_cmd cluster name secret caps auid (ObjStr d)
    containerized m
  = (inr (Raised (NameError "base_cmd")), m).
Proof. reflexivity. Qed.

(** Nor does [create_key]: past the optional secret generation it reads
    [container_image]. *)
Lemma create_key_raises cluster name secret caps import_key auid d
    containerized (m : machine world) :
  exists e m',
    create_key env cluster name secret caps import_key auid (ObjStr d)
      containerized m = (inr (Raised e), m')
    /\ (e = NameError "container_image"
        \/ (truthy_str secret = false /\ e = StructError))
    /\ m_trace m' = m_trace m.
Proof.
  unfold create_key. unfold as_str. rewrite bind_ret_l.
  destruct (truthy_str secret) eqn:Hs; simpl.
  - rewrite bind_ret_l. eexists _, _; split; [reflexivity |]. auto.
  - unfold generate_secret, bind, act, query; simpl.
    destruct (env_urandom env 16 (m_world m)) as [key w'].
    destruct (Struct.pack_hiih _ _ _ _); simpl;
      eexists _, _; (split; [reflexivity |]); auto.
Qed.

(** Past the capability check and the existence short-circuit, the
    [present] branch stops at its read of [container_image]. *)
Lemma dispatch_present_creation (p : params) (pre : option cmd_result)
    (m : machine world) :
  p_state p = "present" ->
  truthy_caps (p_caps p) = true ->
  (p_import_key p = true ->
   exists rc cmd out err,
     pre = Some (rc, cmd, out, err)
     /\ ((rc =? 0) && negb (truthy_str (p_secret p)))%bool = false) ->
  dispatch env p initial_result pre m
  = (inr (Raised (NameError "container_image")), m).
Proof.
  intros Hst Hcaps Hpre. unfold dispatch. rewrite Hst, Hcaps. simpl.
  rewrite bind_ret_l.
  destruct (p_import_key p).
  - destruct (Hpre eq_refl) as (rc & cmd & out & err & -> & Hskip).
    simpl. monad_simpl. rewrite Hskip. monad_simpl. reflexivity.
  - monad_simpl. reflexivity.
Qed.

End DispatcherFacts.

(** ** State [present] *)

(** C1.  An invocation with state [present] outside check mode, with
    capabilities, that is not stopped by the existence short-circuit (the
    key is not imported, or the pre-check exits non-zero, or a secret is
    given) ends in [NameError] on [container_image], raised by the
    dispatcher before [create_key] is entered; the only command run is the
    pre-check, so no command list is ever produced.  The builders fail on
    their own too: [generate_ceph_authtool_cmd] always raises [NameError]
    on [base_cmd], and [create_key] never returns (it raises [NameError] on
    [container_image], unless its own secret generation fails first).
    Neither name is a local of the function that reads it, and neither
    resolves at module level. *)
Theorem C1_creation_path_raises_unbound_name :
  forall (world : Type) (env : Env world) (p : params) (w : world),
    p_state p = "present" ->
    p_check_mode p = false ->
    truthy_caps (p_caps p) = true ->
    (p_import_key p = true ->
     pre_check_rc env p w = 0 -> truthy_str (p_secret p) = true) ->
    (outcome_of (invoke env p w) = inr (Raised (NameError "container_image"))
     /\ trace_of (invoke env p w)
        = (if p_import_key p then [EvRun (pre_check_cmd p)] else []))
    /\ (forall cluster name secret caps auid d containerized m,
           generate_ceph_authtool_cmd (world := world) cluster name secret
             caps auid (ObjStr d) containerized m
           = (inr (Raised (NameError "base_cmd")), m))
    /\ (forall cluster name secret caps import_key auid d containerized m,
           exists e m',
             create_key env cluster name secret caps import_key auid
               (ObjStr d) containerized m = (inr (Raised e), m')
             /\ (e = NameError "container_image"
                 \/ (truthy_str secret = false /\ e = StructError)))
    /\ Scope.is_local "generate_ceph_authtool_cmd" "base_cmd" = false
    /\ Scope.is_local "create_key" "container_image" = false
    /\ Scope.is_local "run_module" "container_image" = false
    /\ Scope.resolve "base_cmd" = None
    /\ Scope.resolve "container_image" = None.
Proof.
  intros world env p w Hst Hcm Hcaps Hskip.
  split; [| split; [| split; [| repeat split]]].
  - unfold outcome_of, trace_of.
    erewrite invoke_early_exit; [| exact Hcm |].
    2:{ apply dispatch_present_creation; auto.
        intros Himp. unfold pre_check_locals. rewrite Himp.
        do 4 eexists. split; [reflexivity |].
        fold (pre_check_rc env p w).
        destruct (pre_check_rc env p w =? 0) eqn:Hrc; [| reflexivity].
        apply Z.eqb_eq in Hrc. rewrite (Hskip Himp Hrc). reflexivity. }
    unfold pre_check_machine. destruct (p_import_key p); split; reflexivity.
  - intros. apply generate_ceph_authtool_cmd_raises.
  - intros.
    destruct (create_key_raises env cluster name secret caps import_key auid d
                containerized m) as (e & m' & He & Hor & _).
    exists e, m'. split; [exact He | exact Hor].
Qed.

Lemma C1_witness :
  p_state (demo_params "present" (Some demo_caps) (Some "AQAAAA==") true)
    = "present"
  /\ outcome_of (invoke (demo_env 0 (inr JNull) 0)
                   (demo_params "present" (Some demo_caps) (Some "AQAAAA==") true)
                   tt)
     = inr (Raised (NameError "container_image"))
  /\ trace_of (invoke (demo_env 0 (inr JNull) 0)
                 (demo_params "present" (Some demo_caps) (Some "AQAAAA==") true)
                 tt)
     = [EvRun ["ceph"; "-n"; "client.admin"; "-k";
               "/etc/ceph/ceph.client.admin.keyring"; "--cluster"; "ceph";
               "auth"; "get"; "client.rgw"; "-f"; "json"]].
Proof.
  split; [reflexivity |].
  exact (proj1 (C1_creation_path_raises_unbound_name unit
                  (demo_env 0 (inr JNull) 0)
                  (demo_params "present" (Some demo_caps) (Some "AQAAAA==") true)
                  tt eq_refl eq_refl eq_refl (fun _ _ => eq_refl))).
Defined.

Section DispatchBranches.

Context {world : Type} (env : Env world).

Lemma dispatch_present_skip (p : params) rc cmd out err (m : machine world) :
  p_state p = "present" ->
  truthy_caps (p_caps p) = true ->
  p_import_key p = true ->
  rc = 0 ->
  truthy_str (p_secret p) = false ->
  dispatch env p initial_result (Some (rc, cmd, out, err)) m
  = (inr (ExitJson (set_stdout_rc initial_result
                      (skipped_exists_message (p_name p)) 0)), m).
Proof.
  intros Hst Hcaps Himp -> Hsec. unfold dispatch.
  rewrite Hst, Hcaps, Himp, Hsec. reflexivity.
Qed.

Lemma dispatch_present_no_caps (p : params) pre (m : machine world) :
  p_state p = "present" ->
  truthy_caps (p_caps p) = false ->
  dispatch env p initial_result pre m
  = (inr (FailJson "Capabilities must be provided when state is 'present'"
            (KwRc 1)), m).
Proof.
  intros Hst Hcaps. unfold dispatch. rewrite Hst, Hcaps. reflexivity.
Qed.

Lemma dispatch_update_no_caps (p : params) pre (m : machine world) :
  p_state p = "update" ->
  truthy_caps (p_caps p) = false ->
  dispatch env p initial_result pre m
  = (inr (FailJson "Capabilities must be provided when state is 'update'"
            (KwRc 1)), m).
Proof.
  intros Hst Hcaps. unfold dispatch. rewrite Hst, Hcaps. reflexivity.
Qed.

Lemma dispatch_missing_key_skip (p : params) rc cmd out err
    (m : machine world) :
  reads_rc_first p ->
  rc <> 0 ->
  dispatch env p initial_result (Some (rc, cmd, out, err)) m
  = (inr (ExitJson (set_stdout_rc initial_result
                      (skipped_missing_message (p_name p)) 0)), m).
Proof.
  intros [[Hst Hcaps] | Hst] Hrc; apply Z.eqb_neq in Hrc;
    unfold dispatch; rewrite Hst; simpl; rewrite ?Hcaps; simpl;
    monad_simpl; rewrite Hrc; reflexivity.
Qed.

Lemma dispatch_rc_unbound (p : params) (m : machine world) :
  reads_rc_first p ->
  dispatch env p initial_result None m
  = (inr (Raised (UnboundLocalError "rc")), m).
Proof.
  intros [[Hst Hcaps] | Hst];
    unfold dispatch; rewrite Hst; simpl; rewrite ?Hcaps; reflexivity.
Qed.

Lemma dispatch_unknown_state (p : params) pre (m : machine world) :
  unknown_state (p_state p) ->
  dispatch env p initial_result pre m
  = (inr (FailJson invalid_state_message (KwChangedRc false 1)), m).
Proof.
  unfold unknown_state; simpl; intros Hst. unfold dispatch.
  repeat match goal with
         | |- context [String.eqb (p_state p) ?s] =>
             destruct (String.eqb_spec (p_state p) s) as [Heq | _];
             [exfalso; apply Hst; rewrite Heq; tauto |]
         end.
  reflexivity.
Qed.

End DispatchBranches.

(** C2 (amended).  For every invocation with state [present] and a
    non-empty capability mapping whose pre-check ran (no check mode,
    [import_key] set) and exited with code 0, and with no secret, the
    module exits through [exit_json] with the "skipped" message, return
    code 0 and [changed] false; the pre-check is the only command run.
    This holds for every such capability mapping. *)
Theorem C2_present_existing_key_without_secret_is_skipped :
  forall (world : Type) (env : Env world) (p : params) (w : world),
    p_state p = "present" ->
    p_check_mode p = false ->
    p_import_key p = true ->
    pre_check_rc env p w = 0 ->
    truthy_str (p_secret p) = false ->
    truthy_caps (p_caps p) = true ->
    outcome_of (invoke env p w)
    = inr (ExitJson
             {| r_cmd := None; r_start := None; r_end := None;
                r_delta := None; r_rc := Some 0;
                r_stdout := skipped_exists_message (p_name p);
                r_stderr := ""; r_changed := false |})
    /\ trace_of (invoke env p w) = [EvRun (pre_check_cmd p)].
Proof.
  intros world env p w Hst Hcm Himp Hrc Hsec Hcaps.
  unfold outcome_of, trace_of.
  erewrite invoke_early_exit; [| exact Hcm |].
  2:{ unfold pre_check_locals. rewrite Himp.
      apply dispatch_present_skip; auto. }
  unfold pre_check_machine. rewrite Himp. split; reflexivity.
Qed.

Lemma C2_witness :
  pre_check_rc (demo_env 0 (inr JNull) 0)
    (demo_params "present" (Some demo_caps) None true) tt = 0
  /\ outcome_of (invoke (demo_env 0 (inr JNull) 0)
                   (demo_params "present" (Some demo_caps) None true) tt)
     = inr (ExitJson
              {| r_cmd := None; r_start := None; r_end := None;
                 r_delta := None; r_rc := Some 0;
                 r_stdout := "skipped, since client.rgw already exists, if you want to update a key use 'state: update'";
                 r_stderr := ""; r_changed := false |}).
Proof.
  split; [reflexivity |].
  exact (proj1 (C2_present_existing_key_without_secret_is_skipped unit
                  (demo_env 0 (inr JNull) 0)
                  (demo_params "present" (Some demo_caps) None true) tt
                  eq_refl eq_refl eq_refl eq_refl eq_refl eq_refl)).
Defined.

(** C2 as stated fails when no capability is supplied: the key exists
    (the pre-check exits 0) and no secret is given, yet the invocation
    ends in [fail_json] instead of the skip. *)
Lemma C2_counterexample :
  p_state (demo_params "present" None None true) = "present"
  /\ pre_check_rc (demo_env 0 (inr JNull) 0)
       (demo_params "present" None None true) tt = 0
  /\ p_secret (demo_params "present" None None true) = None
  /\ invoke (demo_env 0 (inr JNull) 0) (demo_params "present" None None true) tt
     = (inr (FailJson "Capabilities must be provided when state is 'present'"
               (KwRc 1)),
        mkMachine tt
          [EvRun ["ceph"; "-n"; "client.admin"; "-k";
                  "/etc/ceph/ceph.client.admin.keyring"; "--cluster"; "ceph";
                  "auth"; "get"; "client.rgw"; "-f"; "json"]]).
Proof. repeat split. Qed.

(** C3 at a concrete input: a secret is supplied, the key exists, and the
    invocation ends in [NameError] with no [ceph-authtool] command built
    or run. *)
Lemma C3_secret_given_creation_raises :
  invoke (demo_env 0 (inr JNull) 0)
    (demo_params "present" (Some demo_caps) (Some "AQAAAA==") true) tt
  = (inr (Raised (NameError "container_image")),
     mkMachine tt
       [EvRun ["ceph"; "-n"; "client.admin"; "-k";
               "/etc/ceph/ceph.client.admin.keyring"; "--cluster"; "ceph";
               "auth"; "get"; "client.rgw"; "-f"; "json"]])
  /\ existsb is_authtool
       (commands_run
          (trace_of (invoke (demo_env 0 (inr JNull) 0)
                       (demo_params "present" (Some demo_caps)
                          (Some "AQAAAA==") true) tt))) = false.
Proof. split; reflexivity. Qed.

(** ** States [update] and [info] *)

(** C7 (amended).  For every invocation with state [info], or with state
    [update] and a non-empty capability mapping, whose pre-check ran (no
    check mode, [import_key] set) and exited non-zero, the module exits
    through [exit_json] with the "skipped" message and return code 0; the
    pre-check is the only command run. *)
Theorem C7_update_info_on_missing_key_is_skipped :
  forall (world : Type) (env : Env world) (p : params) (w : world),
    reads_rc_first p ->
    p_check_mode p = false ->
    p_import_key p = true ->
    pre_check_rc env p w <> 0 ->
    outcome_of (invoke env p w)
    = inr (ExitJson
             {| r_cmd := None; r_start := None; r_end := None;
                r_delta := None; r_rc := Some 0;
                r_stdout := skipped_missing_message (p_name p);
                r_stderr := ""; r_changed := false |})
    /\ trace_of (invoke env p w) = [EvRun (pre_check_cmd p)].
Proof.
  intros world env p w Hst Hcm Himp Hrc.
  unfold outcome_of, trace_of.
  erewrite invoke_early_exit; [| exact Hcm |].
  2:{ unfold pre_check_locals. rewrite Himp.
      apply dispatch_missing_key_skip; auto. }
  unfold pre_check_machine. rewrite Himp. split; reflexivity.
Qed.

Lemma C7_witness :
  pre_check_rc (demo_env 2 (inr JNull) 0)
    (demo_params "update" (Some demo_caps) None true) tt = 2
  /\ outcome_of (invoke (demo_env 2 (inr JNull) 0)
                   (demo_params "update" (Some demo_caps) None true) tt)
     = inr (ExitJson
              {| r_cmd := None; r_start := None; r_end := None;
                 r_delta := None; r_rc := Some 0;
                 r_stdout := "skipped, since client.rgw does not exist";
                 r_stderr := ""; r_changed := false |}).
Proof.
  split; [reflexivity |].
  refine (proj1 (C7_update_info_on_missing_key_is_skipped unit
                   (demo_env 2 (inr JNull) 0)
                   (demo_params "update" (Some demo_caps) None true) tt
                   (or_introl (conj eq_refl eq_refl)) eq_refl eq_refl _)).
  discriminate.
Defined.

(** C7 as stated fails for [update] without capabilities: the key does
    not exist (the pre-check exits 2), yet the invocation ends in
    [fail_json] instead of the skip. *)
Lemma C7_counterexample :
  p_state (demo_params "update" None None true) = "update"
  /\ pre_check_rc (demo_env 2 (inr JNull) 0)
       (demo_params "update" None None true) tt = 2
  /\ outcome_of (invoke (demo_env 2 (inr JNull) 0)
                   (demo_params "update" None None true) tt)
     = inr (FailJson "Capabilities must be provided when state is 'update'"
              (KwRc 1)).
Proof. repeat split. Qed.

(** C10 (amended).  For every invocation outside check mode with
    [import_key] false and state [info], or state [update] with a
    non-empty capability mapping, no pre-check runs, and the dispatcher's
    first read of [rc] raises [UnboundLocalError]: no command is run, and
    neither the skip nor the update or info command happens. *)
Theorem C10_update_info_without_import_key_raises :
  forall (world : Type) (env : Env world) (p : params) (w : world),
    reads_rc_first p ->
    p_check_mode p = false ->
    p_import_key p = false ->
    invoke env p w = (inr (Raised (UnboundLocalError "rc")), mkMachine w [])
    /\ is_unbound_name_error (UnboundLocalError "rc") = true.
Proof.
  intros world env p w Hst Hcm Himp. split; [| reflexivity].
  erewrite invoke_early_exit; [| exact Hcm |].
  2:{ unfold pre_check_locals. rewrite Himp.
      apply dispatch_rc_unbound; auto. }
  unfold pre_check_machine. rewrite Himp. reflexivity.
Qed.

Lemma C10_witness :
  invoke (demo_env 0 (inr JNull) 0) (demo_params "info" None None false) tt
  = (inr (Raised (UnboundLocalError "rc")), mkMachine tt []).
Proof.
  exact (proj1 (C10_update_info_without_import_key_raises unit
                  (demo_env 0 (inr JNull) 0)
                  (demo_params "info" None None false) tt
                  (or_intror eq_refl) eq_refl eq_refl)).
Defined.

(** C10 as stated fails for [update] without capabilities: with
    [import_key] false the invocation ends in the capability error, not in
    an unbound-name error. *)
Lemma C10_counterexample :
  p_import_key (demo_params "update" None None false) = false
  /\ p_state (demo_params "update" None None false) = "update"
  /\ invoke (demo_env 0 (inr JNull) 0) (demo_params "update" None None false) tt
     = (inr (FailJson "Capabilities must be provided when state is 'update'"
               (KwRc 1)),
        mkMachine tt []).
Proof. repeat split. Qed.

(** ** User input errors *)

(** C4 (amended).  Outside check mode, an invocation whose state is none
    of the six, and a [present] or [update] invocation with an empty or
    absent capability mapping, ends in [fail_json] with the user-input
    message.  Before that error the key-existence pre-check has run exactly
    when [import_key] is set, and nothing else; so no command at all
    precedes the error exactly when [import_key] is false. *)
Theorem C4_user_input_errors :
  forall (world : Type) (env : Env world) (p : params) (w : world),
    p_check_mode p = false ->
    (unknown_state (p_state p) ->
     outcome_of (invoke env p w)
     = inr (FailJson invalid_state_message (KwChangedRc false 1))
     /\ trace_of (invoke env p w)
        = (if p_import_key p then [EvRun (pre_check_cmd p)] else []))
    /\ (p_state p = "present" -> truthy_caps (p_caps p) = false ->
        outcome_of (invoke env p w)
        = inr (FailJson
                 "Capabilities must be provided when state is 'present'"
                 (KwRc 1))
        /\ trace_of (invoke env p w)
           = (if p_import_key p then [EvRun (pre_check_cmd p)] else []))
    /\ (p_state p = "update" -> truthy_caps (p_caps p) = false ->
        outcome_of (invoke env p w)
        = inr (FailJson
                 "Capabilities must be provided when state is 'update'"
                 (KwRc 1))
        /\ trace_of (invoke env p w)
           = (if p_import_key p then [EvRun (pre_check_cmd p)] else [])).
Proof.
  intros world env p w Hcm.
  assert (Htr : m_trace (pre_check_machine env p w)
                = if p_import_key p then [EvRun (pre_check_cmd p)] else []).
  { unfold pre_check_machine. destruct (p_import_key p); reflexivity. }
  unfold outcome_of, trace_of.
  split; [| split].
  - intros Hst.
    erewrite invoke_early_exit;
      [| exact Hcm | apply dispatch_unknown_state; exact Hst].
    split; [reflexivity | exact Htr].
  - intros Hst Hcaps.
    erewrite invoke_early_exit;
      [| exact Hcm | apply dispatch_present_no_caps; assumption].
    split; [reflexivity | exact Htr].
  - intros Hst Hcaps.
    erewrite invoke_early_exit;
      [| exact Hcm | apply dispatch_update_no_caps; assumption].
    split; [reflexivity | exact Htr].
Qed.

Lemma C4_witness :
  outcome_of (invoke (demo_env 0 (inr JNull) 0)
                (demo_params "present" (Some []) None false) tt)
  = inr (FailJson "Capabilities must be provided when state is 'present'"
           (KwRc 1))
  /\ trace_of (invoke (demo_env 0 (inr JNull) 0)
                 (demo_params "present" (Some []) None false) tt)
     = [].
Proof.
  exact (proj1 (proj2 (C4_user_input_errors unit (demo_env 0 (inr JNull) 0)
                         (demo_params "present" (Some []) None false) tt
                         eq_refl))
           eq_refl eq_refl).
Defined.

(** C4 as stated fails with the default [import_key]: for an unknown state
    the pre-check command is run before the error is reported. *)
Lemma C4_counterexample :
  unknown_state (p_state (demo_params "restart" None None true))
  /\ invoke (demo_env 0 (inr JNull) 0) (demo_params "restart" None None true) tt
     = (inr (FailJson invalid_state_message (KwChangedRc false 1)),
        mkMachine tt
          [EvRun ["ceph"; "-n"; "client.admin"; "-k";
                  "/etc/ceph/ceph.client.admin.keyring"; "--cluster"; "ceph";
                  "auth"; "get"; "client.rgw"; "-f"; "json"]]).
Proof.
  split; [| reflexivity].
  unfold unknown_state; simpl.
  intros [H | [H | [H | [H | [H | [H | []]]]]]]; discriminate H.
Qed.

(** ** Command failures *)

Section ExecFacts.

Context {world : Type} (env : Env world).

Lemma exec_loop_stops_at_failure (l1 : list command) :
  forall (last : option cmd_result) (m : machine world) (w1 : world),
    all_succeed env l1 (m_world m) = Some w1 ->
    forall cmd l2 rc out err w2,
      env_run_command env cmd w1 = ((rc, out, err), w2) ->
      rc <> 0 ->
      exec_loop env (l1 ++ cmd :: l2) last m
      = (inl (rc, cmd, out, err),
         mkMachine w2 (m_trace m ++ map EvRun (l1 ++ [cmd]))).
Proof.
  induction l1 as [| c l1 IH]; intros last m w1 Hall cmd l2 rc out err w2 Hrun Hrc.
  - simpl in Hall. injection Hall as <-. simpl.
    erewrite bind_inl by apply run_command_eq.
    rewrite Hrun. simpl. apply Z.eqb_neq in Hrc. rewrite Hrc. reflexivity.
  - simpl in Hall. simpl.
    erewrite bind_inl by apply run_command_eq.
    destruct (env_run_command env c (m_world m)) as [[[rc0 out0] err0] w0] eqn:Hc.
    simpl in Hall |- *.
    destruct (rc0 =? 0) eqn:Hz; [| discriminate]. simpl.
    erewrite IH; eauto. simpl. now rewrite <- app_assoc.
Qed.

Lemma exec_loop_all_succeed (l : list command) :
  forall (last : option cmd_result) (m : machine world) (w' : world),
    all_succeed env l (m_world m) = Some w' ->
    l <> [] ->
    exists out err,
      exec_loop env l last m
      = (inl (0, List.last l [], out, err),
         mkMachine w' (m_trace m ++ map EvRun l)).
Proof.
  induction l as [| c l IH]; intros last m w' Hall Hne; [congruence |].
  simpl in Hall. cbn [exec_loop].
  erewrite bind_inl by apply run_command_eq.
  destruct (env_run_command env c (m_world m)) as [[[rc0 out0] err0] w0] eqn:Hc.
  simpl in Hall. cbv beta iota. cbn [fst snd].
  destruct (rc0 =? 0) eqn:Hz; [| discriminate]. apply Z.eqb_eq in Hz. subst rc0.
  cbn [negb].
  destruct l as [| c' l'].
  - simpl in Hall. injection Hall as <-. exists out0, err0. reflexivity.
  - destruct (IH (Some (0, c, out0, err0))
                (mkMachine w0 (m_trace m ++ [EvRun c])) w' Hall ltac:(discriminate))
      as (out & err & Heq).
    exists out, err. rewrite Heq. cbn [m_trace].
    rewrite <- app_assoc. reflexivity.
Qed.

Lemma state_command_dispatch (p : params) (w : world) (m : machine world) :
  runs_state_command env p w ->
  dispatch env p initial_result (pre_check_locals env p w) m
  = exec_commands env [state_command p] m.
Proof.
  unfold runs_state_command, reads_rc_first, state_command, dispatch.
  intros [Hst | [Hst | [[[Hst Hcaps] | Hst] [Himp Hrc]]]];
    rewrite Hst; cbn [String.eqb Ascii.eqb Bool.eqb andb];
    try reflexivity.
  - rewrite Hcaps. unfold pre_check_locals. rewrite Himp.
    fold (pre_check_rc env p w). rewrite Hrc. reflexivity.
  - unfold pre_check_locals. rewrite Himp.
    fold (pre_check_rc env p w). rewrite Hrc. reflexivity.
Qed.

End ExecFacts.

(** C6 (amended).  [exec_commands] stops at the first command that exits
    non-zero and returns that command with its exit code and captured
    output; no later command of the list is run.  In [run_module] the
    exit code of the key-existence pre-check is only an existence test;
    for the states [absent] and [list], and for [update] and [info] once
    the pre-check has found the key, a non-zero exit of the state's own
    command ends the invocation in a failure, with no command run after
    it.  Where the captured output is a byte string, that failure is
    [fail_json] with message "non-zero return code", carrying the command,
    its exit code and its captured output stripped of trailing line
    ends. *)
Theorem C6_nonzero_exit_is_a_failure :
  forall (world : Type) (env : Env world),
    (forall (l1 : list command) (m : machine world) (w1 : world)
            (cmd : command) (l2 : list command) rc out err w2,
        all_succeed env l1 (m_world m) = Some w1 ->
        env_run_command env cmd w1 = ((rc, out, err), w2) ->
        rc <> 0 ->
        exec_commands env (l1 ++ cmd :: l2) m
        = (inl (rc, cmd, out, err),
           mkMachine w2 (m_trace m ++ map EvRun (l1 ++ [cmd]))))
    /\ (forall (p : params) (w : world) rc out err w2,
           p_check_mode p = false ->
           runs_state_command env p w ->
           env_run_command env (state_command p)
             (m_world (pre_check_machine env p w)) = ((rc, out, err), w2) ->
           rc <> 0 ->
           (exists h,
               invoke env p w
               = (inr h,
                  mkMachine w2
                    (m_trace (pre_check_machine env p w)
                       ++ [EvRun (state_command p)]))
               /\ halt_is_failure h = true)
           /\ (env_output_is_text env = false ->
               invoke env p w
               = (inr (FailJson "non-zero return code"
                         (KwResult
                            {| r_cmd := Some (state_command p);
                               r_start := Some (env_now env w);
                               r_end := Some (env_now env w2);
                               r_delta :=
                                 Some (env_now env w2 - env_now env w);
                               r_rc := Some rc;
                               r_stdout := PyStr.rstrip_crlf out;
                               r_stderr := PyStr.rstrip_crlf err;
                               r_changed := true |})),
                  mkMachine w2
                    (m_trace (pre_check_machine env p w)
                       ++ [EvRun (state_command p)])))).
Proof.
  intros world env. split.
  - intros. unfold exec_commands. eapply exec_loop_stops_at_failure; eauto.
  - intros p w rc out err w2 Hcm Hruns Hrun Hrc.
    assert (Hd : dispatch env p initial_result (pre_check_locals env p w)
                   (pre_check_machine env p w)
                 = (inl (rc, state_command p, out, err),
                    mkMachine w2 (m_trace (pre_check_machine env p w)
                                    ++ [EvRun (state_command p)]))).
    { rewrite state_command_dispatch by exact Hruns.
      rewrite exec_commands_single, Hrun. reflexivity. }
    rewrite (invoke_completes env p w _ _ _ _ _ Hcm Hd).
    apply Z.eqb_neq in Hrc. cbv zeta. cbn [m_world]. rewrite Hrc.
    split.
    + eexists. split; [reflexivity |].
      destruct (env_output_is_text env); reflexivity.
    + intros ->. reflexivity.
Qed.

Lemma C6_witness :
  runs_state_command flaky_env
    (demo_params "update" (Some demo_caps) None true) 0%nat
  /\ invoke flaky_env (demo_params "update" (Some demo_caps) None true) 0%nat
     = (inr (FailJson "non-zero return code"
               (KwResult
                  {| r_cmd := Some ["ceph"; "-n"; "client.admin"; "-k";
                                    "/etc/ceph/ceph.client.admin.keyring";
                                    "--cluster"; "ceph"; "auth"; "caps";
                                    "client.rgw"; "mon"; "allow rwx";
                                    "mds"; "allow *"];
                     r_start := Some 0; r_end := Some 2; r_delta := Some 2;
                     r_rc := Some 22; r_stdout := "";
                     r_stderr := "Error EINVAL"; r_changed := true |})),
        mkMachine 2%nat
          [EvRun ["ceph"; "-n"; "client.admin"; "-k";
                  "/etc/ceph/ceph.client.admin.keyring"; "--cluster"; "ceph";
                  "auth"; "get"; "client.rgw"; "-f"; "json"];
           EvRun ["ceph"; "-n"; "client.admin"; "-k";
                  "/etc/ceph/ceph.client.admin.keyring"; "--cluster"; "ceph";
                  "auth"; "caps"; "client.rgw"; "mon"; "allow rwx";
                  "mds"; "allow *"]]).
Proof.
  assert (Hruns : runs_state_command flaky_env
                    (demo_params "update" (Some demo_caps) None true) 0%nat).
  { right; right. split; [left; split; reflexivity | split; reflexivity]. }
  split; [exact Hruns |].
  refine (proj2 (proj2 (C6_nonzero_exit_is_a_failure nat flaky_env)
                   (demo_params "update" (Some demo_caps) None true) 0%nat
                   22 "" _ 2%nat eq_refl Hruns eq_refl _) eq_refl).
  discriminate.
Defined.

(** C6 as stated fails on the pre-check: it is a constructed command, it
    exits with code 2, and the invocation ends in [exit_json] with return
    code 0 (state [info]); for state [absent] the delete command is run
    after it all the same. *)
Lemma C6_counterexample :
  invoke (demo_env 2 (inr JNull) 0) (demo_params "info" None None true) tt
  = (inr (ExitJson
            {| r_cmd := None; r_start := None; r_end := None;
               r_delta := None; r_rc := Some 0;
               r_stdout := "skipped, since client.rgw does not exist";
               r_stderr := ""; r_changed := false |}),
     mkMachine tt
       [EvRun ["ceph"; "-n"; "client.admin"; "-k";
               "/etc/ceph/ceph.client.admin.keyring"; "--cluster"; "ceph";
               "auth"; "get"; "client.rgw"; "-f"; "json"]])
  /\ pre_check_rc (demo_env 2 (inr JNull) 0)
       (demo_params "absent" None None true) tt = 2
  /\ commands_run
       (trace_of (invoke (demo_env 2 (inr JNull) 0)
                    (demo_params "absent" None None true) tt))
     = [["ceph"; "-n"; "client.admin"; "-k";
         "/etc/ceph/ceph.client.admin.keyring"; "--cluster"; "ceph";
         "auth"; "get"; "client.rgw"; "-f"; "json"];
        ["ceph"; "-n"; "client.admin"; "-k";
         "/etc/ceph/ceph.client.admin.keyring"; "--cluster"; "ceph";
         "auth"; "del"; "client.rgw"]].
Proof. repeat split. Qed.

(** ** Secret generation *)

Lemma bval_range (x : byte) : 0 <= bval x < 256.
Proof.
  unfold bval. pose proof (Byte.to_N_bounded x). lia.
Qed.

Lemma byte_of_bval (x : byte) : byte_of (bval x) = x.
Proof.
  unfold byte_of, bval. rewrite N2Z.id, Byte.of_to_N. reflexivity.
Qed.

Lemma bval_byte_of (z : Z) : 0 <= z < 256 -> bval (byte_of z) = z.
Proof.
  intros Hz. unfold byte_of, bval.
  destruct (Byte.of_N (Z.to_N z)) as [x |] eqn:Hx.
  - apply Byte.to_of_N in Hx. rewrite Hx. lia.
  - apply Byte.of_N_None_iff in Hx. lia.
Qed.

Lemma list_ind3 {A} (P : list A -> Prop) :
  P [] -> (forall x, P [x]) -> (forall x y, P [x; y]) ->
  (forall x y z l, P l -> P (x :: y :: z :: l)) ->
  forall l, P l.
Proof.
  intros H0 H1 H2 H3 l.
  enough (P l /\ (forall x, P (x :: l)) /\ (forall x y, P (x :: y :: l)))
    by tauto.
  induction l as [| a l (IH0 & IH1 & IH2)]; auto.
Qed.

Module Base64Facts.

Import Base64.

Lemma index_of_char_of (i : Z) :
  0 <= i < 64 ->
  index_of (char_of i) = Some i /\ Ascii.eqb (char_of i) pad = false.
Proof.
  intros Hi.
  assert (Hn : i = Z.of_nat (Z.to_nat i)) by lia.
  assert (Hlt : (Z.to_nat i < 64)%nat) by lia.
  revert Hn Hlt. generalize (Z.to_nat i). intros n -> Hlt. clear Hi.
  do 64 (destruct n as [| n]; [split; reflexivity |]).
  lia.
Qed.

Ltac sextet_bound :=
  first [ apply Z.mod_pos_bound; lia
        | split; [apply Z.div_pos; lia | apply Z.div_lt_upper_bound; lia] ].

Lemma decode_chunk (c1 c2 c3 c4 : Z) (rest : string) :
  0 <= c1 < 64 -> 0 <= c2 < 64 -> 0 <= c3 < 64 -> 0 <= c4 < 64 ->
  b64decode (String (char_of c1) (String (char_of c2)
               (String (char_of c3) (String (char_of c4) rest))))
  = match b64decode rest with
    | Some tl =>
        let n := c1 * 262144 + c2 * 4096 + c3 * 64 + c4 in
        Some (byte_of (n / 65536) :: byte_of ((n / 256) mod 256)
                :: byte_of (n mod 256) :: tl)
    | None => None
    end.
Proof.
  intros H1 H2 H3 H4.
  destruct (index_of_char_of c1 H1) as [E1 _].
  destruct (index_of_char_of c2 H2) as [E2 _].
  destruct (index_of_char_of c3 H3) as [E3 P3].
  destruct (index_of_char_of c4 H4) as [E4 P4].
  cbn [b64decode]. rewrite E1, E2, P3, E3, P4, E4. reflexivity.
Qed.

Lemma decode_tail1 (c1 c2 : Z) :
  0 <= c1 < 64 -> 0 <= c2 < 64 ->
  b64decode (String (char_of c1) (String (char_of c2)
               (String pad (String pad ""))))
  = Some [byte_of ((c1 * 262144 + c2 * 4096) / 65536)].
Proof.
  intros H1 H2.
  destruct (index_of_char_of c1 H1) as [E1 _].
  destruct (index_of_char_of c2 H2) as [E2 _].
  cbn [b64decode]. rewrite E1, E2. reflexivity.
Qed.

Lemma decode_tail2 (c1 c2 c3 : Z) :
  0 <= c1 < 64 -> 0 <= c2 < 64 -> 0 <= c3 < 64 ->
  b64decode (String (char_of c1) (String (char_of c2)
               (String (char_of c3) (String pad ""))))
  = let n := c1 * 262144 + c2 * 4096 + c3 * 64 in
    Some [byte_of (n / 65536); byte_of ((n / 256) mod 256)].
Proof.
  intros H1 H2 H3.
  destruct (index_of_char_of c1 H1) as [E1 _].
  destruct (index_of_char_of c2 H2) as [E2 _].
  destruct (index_of_char_of c3 H3) as [E3 P3].
  cbn [b64decode]. rewrite E1, E2, P3, E3. reflexivity.
Qed.

(** Decoding undoes encoding, on every byte string. *)
Lemma b64decode_b64encode (bs : list byte) :
  b64decode (b64encode bs) = Some bs.
Proof.
  induction bs as [| x | x y | x y z l IH] using list_ind3.
  - reflexivity.
  - pose proof (bval_range x) as Hx.
    cbn [b64encode]. cbv zeta.
    rewrite decode_tail1
      by sextet_bound.
    replace ((bval x * 65536 / 262144 * 262144
              + (bval x * 65536 / 4096) mod 64 * 4096) / 65536)
      with (bval x) by (Z.div_mod_to_equations; lia).
    now rewrite byte_of_bval.
  - pose proof (bval_range x) as Hx. pose proof (bval_range y) as Hy.
    cbn [b64encode]. cbv zeta.
    rewrite decode_tail2
      by sextet_bound.
    cbv zeta.
    set (n := bval x * 65536 + bval y * 256).
    replace (n / 262144 * 262144 + (n / 4096) mod 64 * 4096
             + (n / 64) mod 64 * 64)
      with n by (subst n; Z.div_mod_to_equations; lia).
    replace (n / 65536) with (bval x) by (subst n; Z.div_mod_to_equations; lia).
    replace ((n / 256) mod 256) with (bval y)
      by (subst n; Z.div_mod_to_equations; lia).
    now rewrite !byte_of_bval.
  - pose proof (bval_range x) as Hx. pose proof (bval_range y) as Hy.
    pose proof (bval_range z) as Hz.
    cbn [b64encode]. cbv zeta.
    rewrite decode_chunk
      by sextet_bound.
    rewrite IH. cbv zeta.
    set (n := bval x * 65536 + bval y * 256 + bval z).
    replace (n / 262144 * 262144 + (n / 4096) mod 64 * 4096
             + (n / 64) mod 64 * 64 + n mod 64)
      with n by (subst n; Z.div_mod_to_equations; lia).
    replace (n / 65536) with (bval x) by (subst n; Z.div_mod_to_equations; lia).
    replace ((n / 256) mod 256) with (bval y)
      by (subst n; Z.div_mod_to_equations; lia).
    replace (n mod 256) with (bval z) by (subst n; Z.div_mod_to_equations; lia).
    now rewrite !byte_of_bval.
Qed.

End Base64Facts.

Module StructFacts.

Import Struct.

Lemma le_bytes_2 (v : Z) :
  le_bytes 2 v = [byte_of (v mod 256); byte_of ((v / 256) mod 256)].
Proof.
  unfold le_bytes. cbn [seq map Z.of_nat Pos.of_succ_nat Pos.succ].
  change (256 ^ 0) with 1. change (256 ^ 1) with 256.
  now rewrite Z.div_1_r.
Qed.

Lemma le_bytes_4 (v : Z) :
  le_bytes 4 v
  = [byte_of (v mod 256); byte_of ((v / 256) mod 256);
     byte_of ((v / 65536) mod 256); byte_of ((v / 16777216) mod 256)].
Proof.
  unfold le_bytes. cbn [seq map Z.of_nat Pos.of_succ_nat Pos.succ].
  change (256 ^ 0) with 1. change (256 ^ 1) with 256.
  change (256 ^ 2) with 65536. change (256 ^ 3) with 16777216.
  now rewrite Z.div_1_r.
Qed.

Lemma le_value_le_bytes_2 (v : Z) : le_value (le_bytes 2 v) = v mod 65536.
Proof.
  rewrite le_bytes_2. cbn [le_value].
  rewrite !bval_byte_of by (apply Z.mod_pos_bound; lia).
  Z.div_mod_to_equations; lia.
Qed.

Lemma le_value_le_bytes_4 (v : Z) :
  le_value (le_bytes 4 v) = v mod 4294967296.
Proof.
  rewrite le_bytes_4. cbn [le_value].
  rewrite !bval_byte_of by (apply Z.mod_pos_bound; lia).
  Z.div_mod_to_equations; lia.
Qed.

Lemma signed_16 (v : Z) :
  - 32768 <= v <= 32767 -> signed 16 (v mod 65536) = v.
Proof.
  intros Hv. unfold signed.
  change (2 ^ (16 - 1)) with 32768. change (2 ^ 16) with 65536.
  destruct (Z.ltb_spec (v mod 65536) 32768);
    Z.div_mod_to_equations; lia.
Qed.

Lemma signed_32 (v : Z) :
  - 2147483648 <= v <= 2147483647 -> signed 32 (v mod 4294967296) = v.
Proof.
  intros Hv. unfold signed.
  change (2 ^ (32 - 1)) with 2147483648. change (2 ^ 32) with 4294967296.
  destruct (Z.ltb_spec (v mod 4294967296) 2147483648);
    Z.div_mod_to_equations; lia.
Qed.

Lemma pack_hiih_in_range (a b c d : Z) :
  - 32768 <= a <= 32767 -> - 2147483648 <= b <= 2147483647 ->
  - 2147483648 <= c <= 2147483647 -> - 32768 <= d <= 32767 ->
  pack_hiih a b c d
  = Some (le_bytes 2 a ++ le_bytes 4 b ++ le_bytes 4 c ++ le_bytes 2 d).
Proof.
  intros Ha Hb Hc Hd. unfold pack_hiih, pack_h, pack_i.
  repeat match goal with
         | |- context [(?x <=? ?y)] =>
             let H := fresh in
             destruct (Z.leb_spec x y) as [H | H]; [clear H | exfalso; lia]
         end.
  reflexivity.
Qed.

(** Unpacking undoes packing, on the values the format admits. *)
Lemma unpack_hiih_pack (a b c d : Z) :
  - 32768 <= a <= 32767 -> - 2147483648 <= b <= 2147483647 ->
  - 2147483648 <= c <= 2147483647 -> - 32768 <= d <= 32767 ->
  unpack_hiih (le_bytes 2 a ++ le_bytes 4 b ++ le_bytes 4 c ++ le_bytes 2 d)
  = Some (a, b, c, d).
Proof.
  intros Ha Hb Hc Hd.
  pose proof (le_value_le_bytes_2 a) as Va.
  pose proof (le_value_le_bytes_4 b) as Vb.
  pose proof (le_value_le_bytes_4 c) as Vc.
  pose proof (le_value_le_bytes_2 d) as Vd.
  rewrite !le_bytes_2, !le_bytes_4 in *.
  unfold unpack_hiih. cbn [List.length app Nat.eqb firstn skipn].
  rewrite Va, Vb, Vc, Vd.
  now rewrite !signed_16, !signed_32 by assumption.
Qed.

End StructFacts.

(** C9 (amended).  For every sixteen bytes of random material and every
    timestamp that fits a signed 32-bit field, [generate_secret] returns
    the base64 encoding of the blob made of the little-endian header
    (version 1 on two bytes, the timestamp on four, zero on four, the
    length 16 on two) followed by the sixteen bytes.  Decoding the secret
    gives the blob back, whose first twelve bytes unpack to
    [(1, timestamp, 0, 16)] and whose remainder is the key material: every
    generated secret declares sixteen bytes of key material. *)
Theorem C9_generate_secret_layout :
  forall (world : Type) (env : Env world) (m : machine world)
         (key : list byte) (w' : world) (ts : Z),
    env_urandom env 16 (m_world m) = (key, w') ->
    List.length key = 16%nat ->
    env_time env w' = ts ->
    - 2147483648 <= ts <= 2147483647 ->
    generate_secret env m
    = (inl (Base64.b64encode (spec_secret_blob ts key)),
       mkMachine w' (m_trace m))
    /\ Base64.b64decode (Base64.b64encode (spec_secret_blob ts key))
       = Some (spec_secret_blob ts key)
    /\ Struct.unpack_hiih (firstn 12 (spec_secret_blob ts key))
       = Some (1, ts, 0, 16)
    /\ skipn 12 (spec_secret_blob ts key) = key
    /\ List.length (spec_secret_blob ts key) = 28%nat.
Proof.
  intros world env m key w' ts Hrand Hlen Htime Hts.
  assert (Hhdr : List.length
                   (Struct.le_bytes 2 1 ++ Struct.le_bytes 4 ts
                      ++ Struct.le_bytes 4 0 ++ Struct.le_bytes 2 16) = 12%nat)
    by (rewrite !StructFacts.le_bytes_2, !StructFacts.le_bytes_4; reflexivity).
  assert (Hblob : spec_secret_blob ts key
                  = (Struct.le_bytes 2 1 ++ Struct.le_bytes 4 ts
                       ++ Struct.le_bytes 4 0 ++ Struct.le_bytes 2 16) ++ key).
  { unfold spec_secret_blob. rewrite Hlen.
    change (Z.of_nat 16) with 16. now rewrite <- !app_assoc. }
  split; [| split; [| split; [| split]]].
  - unfold generate_secret, bind, act, query. cbn [m_world m_trace].
    rewrite Hrand. cbn [m_world m_trace]. rewrite Htime, Hlen.
    change (Z.of_nat 16) with 16.
    rewrite StructFacts.pack_hiih_in_range by lia.
    rewrite Hblob. unfold ret. now rewrite <- !app_assoc.
  - apply Base64Facts.b64decode_b64encode.
  - rewrite Hblob. rewrite firstn_app, Hhdr, Nat.sub_diag.
    rewrite firstn_O, app_nil_r.
    rewrite firstn_all2 by (rewrite Hhdr; lia).
    apply StructFacts.unpack_hiih_pack; lia.
  - rewrite Hblob. rewrite skipn_app, Hhdr, Nat.sub_diag.
    rewrite skipn_all2 by (rewrite Hhdr; lia). reflexivity.
  - rewrite Hblob, length_app, Hhdr, Hlen. reflexivity.
Qed.

Lemma C9_witness :
  generate_secret (demo_env 0 (inr JNull) 1541203200) (mkMachine tt [])
  = (inl "AQAA5dxbAAAAABAAAAAAAAAAAAAAAAAAAAAAAA==", mkMachine tt [])
  /\ Struct.unpack_hiih
       (firstn 12 (spec_secret_blob 1541203200 (repeat x00 16)))
     = Some (1, 1541203200, 0, 16).
Proof.
  pose proof (C9_generate_secret_layout unit (demo_env 0 (inr JNull) 1541203200)
                (mkMachine tt []) (repeat x00 16) tt 1541203200
                eq_refl eq_refl eq_refl) as H.
  destruct H as (H1 & _ & H3 & _).
  - split; discriminate.
  - split; [exact H1 | exact H3].
Defined.

(** C9 as stated fails on a timestamp past the signed 32-bit range: at
    2147483648 (19 January 2038) packing the header raises [struct.error]
    and no secret is returned. *)
Lemma C9_counterexample :
  List.length (fst (env_urandom (demo_env 0 (inr JNull) 2147483648) 16 tt))
    = 16%nat
  /\ env_time (demo_env 0 (inr JNull) 2147483648) tt = 2147483648
  /\ generate_secret (demo_env 0 (inr JNull) 2147483648) (mkMachine tt [])
     = (inr (Raised StructError), mkMachine tt []).
Proof. repeat split. Qed.

(** ** The look-up of the initial entities *)

Module LookupFacts.

Import Lookup.

Lemma scan_items_spec (items : list (string * json)) :
  forall entities,
    scan_items items entities = entities ++ entry_entities (JObj items).
Proof.
  induction items as [| [k v] items IH]; intros entities; simpl.
  - now rewrite app_nil_r.
  - destruct (String.eqb k "entity").
    + destruct (initial_entity v) as [s |]; rewrite IH; simpl.
      * now rewrite <- app_assoc.
      * reflexivity.
    + rewrite IH. reflexivity.
Qed.

Lemma scan_keys_spec (keys : list json) :
  forall entities entities',
    scan_keys keys entities = inr entities' ->
    entities' = entities ++ listed_entities keys.
Proof.
  induction keys as [| key keys IH]; intros entities entities' H; simpl in H.
  - injection H as <-. simpl. now rewrite app_nil_r.
  - destruct key; simpl in H; try discriminate.
    rewrite scan_items_spec in H. apply IH in H. subst entities'.
    unfold listed_entities. simpl. now rewrite <- app_assoc.
Qed.

Lemma initial_entity_in (v : json) (s : string) :
  initial_entity v = Some s -> In s CEPH_INITIAL_KEYS.
Proof.
  destruct v; unfold initial_entity; try discriminate.
  destruct (PyStr.mem s0 CEPH_INITIAL_KEYS) eqn:Hm; [| discriminate].
  intros [= <-]. unfold PyStr.mem in Hm.
  apply existsb_exists in Hm as (x & Hin & Heq).
  apply String.eqb_eq in Heq. now subst.
Qed.

Lemma listed_entities_initial (keys : list json) :
  Forall (fun s => In s CEPH_INITIAL_KEYS) (listed_entities keys).
Proof.
  apply Forall_forall. intros s Hs.
  unfold listed_entities in Hs. apply in_flat_map in Hs as (key & _ & Hs).
  destruct key; simpl in Hs; try contradiction.
  apply in_flat_map in Hs as ([k v] & _ & Hs). simpl in Hs.
  destruct (String.eqb k "entity"); [| contradiction].
  destruct (initial_entity v) as [s' |] eqn:Hv; [| contradiction].
  destruct Hs as [<- | []]. eapply initial_entity_in; eauto.
Qed.

Lemma initial_keys_distinct : NoDup CEPH_INITIAL_KEYS.
Proof.
  unfold CEPH_INITIAL_KEYS.
  repeat (constructor;
          [simpl; intros H;
           repeat (destruct H as [H | H]; [discriminate H |]); exact H |]).
  constructor.
Qed.

(** Among pairwise distinct initial names, there are seven of them
    exactly when every initial name is among them. *)
Lemma distinct_initial_entities (es : list string) :
  Forall (fun s => In s CEPH_INITIAL_KEYS) es ->
  NoDup es ->
  List.length es = 7%nat <-> (forall s, In s CEPH_INITIAL_KEYS -> In s es).
Proof.
  intros Hall Hnd.
  assert (Hsub : incl es CEPH_INITIAL_KEYS)
    by (intros x Hx; rewrite Forall_forall in Hall; auto).
  split.
  - intros Hlen. apply NoDup_length_incl; auto.
    rewrite Hlen. apply Nat.le_refl.
  - intros Hsup. apply Nat.le_antisymm.
    + apply (NoDup_incl_length Hnd Hsub).
    + apply (NoDup_incl_length initial_keys_distinct Hsup).
Qed.

End LookupFacts.

Section FetchFacts.

Context {world : Type} (env : Env world).

(** The machine once the listing command has run and left world [w2]. *)
Let listed (p : params) (w w2 : world) : machine world :=
  mkMachine w2 (m_trace (pre_check_machine env p w)
                  ++ [EvRun (fetch_list_cmd env p w)]).

Lemma scan_keys_objects (keys : list json) :
  forallb is_obj keys = true ->
  forall entities,
    Lookup.scan_keys keys entities = inr (entities ++ listed_entities keys).
Proof.
  induction keys as [| key keys IH]; intros Hobj entities; simpl.
  - now rewrite app_nil_r.
  - simpl in Hobj. apply andb_true_iff in Hobj as [Hk Hks].
    destruct key; try discriminate. simpl.
    rewrite LookupFacts.scan_items_spec, IH by assumption.
    unfold listed_entities. simpl. now rewrite <- app_assoc.
Qed.

(** The look-up touches neither the world nor the event log, and what it
    returns is the list of the collected names when there are seven. *)
Lemma lookup_cases (out : string) (m : machine world) :
  exists x,
    lookup_ceph_initial_entities env out m = (x, m)
    /\ match x with
       | inl (Some es) =>
           exists j dumpv keys,
             env_json_loads env out = inr j
             /\ Lookup.py_getitem j "auth_dump" = inr dumpv
             /\ Lookup.py_iter dumpv = inr keys
             /\ es = listed_entities keys
             /\ List.length es = 7%nat
       | inl None =>
           exists j dumpv keys,
             env_json_loads env out = inr j
             /\ Lookup.py_getitem j "auth_dump" = inr dumpv
             /\ Lookup.py_iter dumpv = inr keys
             /\ List.length (listed_entities keys) <> 7%nat
       | inr h => halt_is_failure h = true
       end.
Proof.
  unfold lookup_ceph_initial_entities.
  destruct (env_json_loads env out) as [e | j] eqn:Hj.
  { eexists. split; [reflexivity | reflexivity]. }
  rewrite bind_ret_l.
  destruct (Lookup.py_in "auth_dump" j) as [e | [|]] eqn:Hin;
    unfold lift_exn at 1.
  { eexists. split; [reflexivity | reflexivity]. }
  2:{ eexists. split; [reflexivity | reflexivity]. }
  rewrite bind_ret_l.
  destruct (Lookup.py_getitem j "auth_dump") as [e | dumpv] eqn:Hget;
    unfold lift_exn at 1.
  { eexists. split; [reflexivity | reflexivity]. }
  rewrite bind_assoc, bind_ret_l.
  destruct (Lookup.py_iter dumpv) as [e | keys] eqn:Hit;
    unfold lift_exn at 1.
  { eexists. split; [reflexivity | reflexivity]. }
  rewrite bind_assoc, bind_ret_l.
  destruct (Lookup.scan_keys keys []) as [e | es] eqn:Hscan;
    unfold lift_exn at 1.
  { eexists. split; [reflexivity | reflexivity]. }
  rewrite bind_ret_l.
  apply LookupFacts.scan_keys_spec in Hscan. simpl in Hscan. subst es.
  destruct (Nat.eqb_spec (List.length (listed_entities keys))
              (List.length CEPH_INITIAL_KEYS)) as [Hlen | Hlen]; cbn [negb].
  - eexists. split; [reflexivity |].
    exists j, dumpv, keys. auto.
  - eexists. split; [reflexivity |].
    exists j, dumpv, keys. auto.
Qed.

(** On a listing that does not parse, and on one without [auth_dump], the
    look-up stops at its read of [module], before [fatal] is entered. *)
Lemma lookup_unparsable (out e : string) (m : machine world) :
  env_json_loads env out = inl e ->
  lookup_ceph_initial_entities env out m
  = (inr (Raised (NameError "module")), m).
Proof.
  intros He. unfold lookup_ceph_initial_entities. rewrite He. reflexivity.
Qed.

Lemma lookup_no_auth_dump (out : string) (fields : list (string * json))
    (m : machine world) :
  env_json_loads env out = inr (JObj fields) ->
  existsb (fun kv => String.eqb (fst kv) "auth_dump") fields = false ->
  lookup_ceph_initial_entities env out m
  = (inr (Raised (NameError "module")), m).
Proof.
  intros Hj Hno. unfold lookup_ceph_initial_entities.
  rewrite Hj, bind_ret_l. cbn [Lookup.py_in lift_exn]. rewrite Hno.
  reflexivity.
Qed.

Lemma dispatch_fetch (p : params) (w w2 : world) out err
    (x : option (list string) + halt) :
  p_state p = "fetch_initial_keys" ->
  env_run_command env (fetch_list_cmd env p w)
    (m_world (pre_check_machine env p w)) = ((0, out, err), w2) ->
  lookup_ceph_initial_entities env out (listed p w w2) = (x, listed p w w2) ->
  match x with
  | inl (Some _) => True
  | inl None =>
      dispatch env p initial_result (pre_check_locals env p w)
        (pre_check_machine env p w)
      = (inr (FailJson "Failed to find some of the initial entities"
                (KwRc 1)), listed p w w2)
  | inr h =>
      dispatch env p initial_result (pre_check_locals env p w)
        (pre_check_machine env p w)
      = (inr h, listed p w w2)
  end.
Proof.
  intros Hst Hrun Hlook.
  destruct x as [[es |] | h]; [exact I | |];
    unfold dispatch; rewrite Hst;
    cbn [String.eqb Ascii.eqb Bool.eqb andb];
    rewrite bind_query;
    (erewrite bind_inl;
     [| change (list_keys (p_cluster p) "mon." ?k (p_containerized p))
          with [fetch_list_cmd env p w];
        rewrite exec_commands_single; rewrite Hrun; reflexivity]);
    cbv beta iota; cbn [fst snd Z.eqb negb];
    rewrite bind_ret_l.
  - erewrite bind_inl by exact Hlook. reflexivity.
  - erewrite bind_inr by exact Hlook. reflexivity.
Qed.

End FetchFacts.

(** C5 (amended).  In a [fetch_initial_keys] invocation whose listing
    command has exited with code 0, the look-up reads the listing without
    touching the world.  It hands a list of entities to the file-writing
    loop only when the listing parses, has an [auth_dump] field, and the
    [entity] values among its entries that are initial names number
    exactly seven, counted with repetition; that list is then those
    values, in order.  When the count differs the invocation ends in
    [fail_json] with "Failed to find some of the initial entities"; when
    the listing does not parse, lacks [auth_dump] or is otherwise
    malformed, the invocation ends in a failure.  In each of these
    failures nothing is run or written after the listing command.  When the collected values are pairwise distinct,
    seven of them are exactly the seven initial names. *)
Theorem C5_fetch_initial_keys_lookup :
  forall (world : Type) (env : Env world) (p : params) (w w2 : world)
         (out err : string),
    p_state p = "fetch_initial_keys" ->
    p_check_mode p = false ->
    env_run_command env (fetch_list_cmd env p w)
      (m_world (pre_check_machine env p w)) = ((0, out, err), w2) ->
    let listed :=
      mkMachine w2 (m_trace (pre_check_machine env p w)
                      ++ [EvRun (fetch_list_cmd env p w)]) in
    (exists x,
        lookup_ceph_initial_entities env out listed = (x, listed)
        /\ match x with
           | inl (Some es) =>
               exists j dumpv keys,
                 env_json_loads env out = inr j
                 /\ Lookup.py_getitem j "auth_dump" = inr dumpv
                 /\ Lookup.py_iter dumpv = inr keys
                 /\ es = listed_entities keys
                 /\ List.length es = 7%nat
           | inl None =>
               invoke env p w
               = (inr (FailJson "Failed to find some of the initial entities"
                         (KwRc 1)), listed)
           | inr h =>
               invoke env p w = (inr h, listed) /\ halt_is_failure h = true
           end)
    /\ (forall e, env_json_loads env out = inl e ->
                  exists h, invoke env p w = (inr h, listed)
                            /\ halt_is_failure h = true)
    /\ (forall fields,
           env_json_loads env out = inr (JObj fields) ->
           existsb (fun kv => String.eqb (fst kv) "auth_dump") fields = false ->
           exists h, invoke env p w = (inr h, listed)
                     /\ halt_is_failure h = true)
    /\ (forall fields dump,
           env_json_loads env out = inr (JObj fields) ->
           find (fun kv => String.eqb (fst kv) "auth_dump") fields
             = Some ("auth_dump", JArr dump) ->
           forallb is_obj dump = true ->
           List.length (listed_entities dump) <> 7%nat ->
           invoke env p w
           = (inr (FailJson "Failed to find some of the initial entities"
                     (KwRc 1)), listed))
    /\ (forall keys,
           NoDup (listed_entities keys) ->
           (List.length (listed_entities keys) = 7%nat
            <-> forall s, In s CEPH_INITIAL_KEYS -> In s (listed_entities keys))).
Proof.
  intros world env p w w2 out err Hst Hcm Hrun listed.
  assert (Hfail : forall h,
             lookup_ceph_initial_entities env out listed = (inr h, listed) ->
             invoke env p w = (inr h, listed)).
  { intros h Hl. apply invoke_early_exit; [exact Hcm |].
    exact (dispatch_fetch env p w w2 out err (inr h) Hst Hrun Hl). }
  assert (Hnone :
            lookup_ceph_initial_entities env out listed = (inl None, listed) ->
            invoke env p w
            = (inr (FailJson "Failed to find some of the initial entities"
                      (KwRc 1)), listed)).
  { intros Hl. apply invoke_early_exit; [exact Hcm |].
    exact (dispatch_fetch env p w w2 out err (inl None) Hst Hrun Hl). }
  split; [| split; [| split; [| split]]].
  - destruct (lookup_cases env out listed) as (x & Hx & Hcase).
    exists x. split; [exact Hx |].
    destruct x as [[es |] | h]; auto.
  - intros e He. exists (Raised (NameError "module")).
    split; [apply Hfail | reflexivity].
    apply (lookup_unparsable env out e listed He).
  - intros fields Hj Hno. exists (Raised (NameError "module")).
    split; [apply Hfail | reflexivity].
    apply (lookup_no_auth_dump env out fields listed Hj Hno).
  - intros fields dump Hj Hfind Hobj Hlen. apply Hnone.
    unfold lookup_ceph_initial_entities. rewrite Hj, bind_ret_l.
    cbn [Lookup.py_in lift_exn].
    assert (Hex : existsb (fun kv => String.eqb (fst kv) "auth_dump") fields
                  = true).
    { apply find_some in Hfind as [Hin Heq]. apply existsb_exists.
      eexists; split; [exact Hin | exact Heq]. }
    rewrite Hex, bind_ret_l.
    cbn [Lookup.py_getitem]. rewrite Hfind.
    cbn [snd lift_exn]. rewrite bind_assoc, bind_ret_l.
    cbn [lift_exn Lookup.py_iter]. rewrite bind_assoc, bind_ret_l.
    rewrite (scan_keys_objects dump Hobj []). cbn [app lift_exn].
    rewrite bind_ret_l.
    destruct (Nat.eqb_spec (List.length (listed_entities dump))
                (List.length CEPH_INITIAL_KEYS)) as [Heq | Hne];
      [exfalso; apply Hlen; exact Heq | reflexivity].
  - intros keys Hnd.
    apply LookupFacts.distinct_initial_entities; auto.
    apply LookupFacts.listed_entities_initial.
Qed.

Lemma C5_witness :
  invoke (demo_env 0 (inr (auth_listing ["client.admin"; "client.bootstrap-osd"])) 0)
    (demo_params "fetch_initial_keys" None None true) tt
  = (inr (FailJson "Failed to find some of the initial entities" (KwRc 1)),
     mkMachine tt
       [EvRun ["ceph"; "-n"; "client.admin"; "-k";
               "/etc/ceph/ceph.client.admin.keyring"; "--cluster"; "ceph";
               "auth"; "get"; "client.rgw"; "-f"; "json"];
        EvRun ["ceph"; "-n"; "mon."; "-k";
               "/var/lib/ceph/mon/ceph-mon0/keyring"; "--cluster"; "ceph";
               "auth"; "ls"; "-f"; "json"]]).
Proof.
  refine (proj1 (proj2 (proj2 (proj2
            (C5_fetch_initial_keys_lookup unit
               (demo_env 0 (inr (auth_listing
                                   ["client.admin"; "client.bootstrap-osd"])) 0)
               (demo_params "fetch_initial_keys" None None true) tt tt "" ""
               eq_refl eq_refl eq_refl))))
            _ _ eq_refl eq_refl eq_refl _).
  discriminate.
Defined.

(** C5 as stated fails on a listing that names [client.admin] seven
    times: only one of the seven initial names is found, yet the look-up
    returns seven entities and the invocation goes on to fetch the key
    into a file and to change its owner and mode. *)
Lemma C5_counterexample :
  lookup_ceph_initial_entities
    (demo_env 0 (inr (auth_listing (repeat "client.admin" 7))) 0) ""
    (mkMachine tt [])
  = (inl (Some (repeat "client.admin" 7)), mkMachine tt [])
  /\ PyStr.mem "client.bootstrap-osd" (repeat "client.admin" 7) = false
  /\ existsb touches_files
       (trace_of (invoke (demo_env 0 (inr (auth_listing
                                             (repeat "client.admin" 7))) 0)
                    (demo_params "fetch_initial_keys" None None true) tt))
     = true
  /\ In (EvRun ["ceph"; "-n"; "mon."; "-k";
                "/var/lib/ceph/mon/ceph-mon0/keyring"; "--cluster"; "ceph";
                "auth"; "get"; "client.admin"; "-f"; "plain"; "-o";
                "/etc/ceph/ceph.client.admin.keyring"])
       (trace_of (invoke (demo_env 0 (inr (auth_listing
                                             (repeat "client.admin" 7))) 0)
                    (demo_params "fetch_initial_keys" None None true) tt)).
Proof.
  split; [reflexivity | split; [reflexivity | split; [reflexivity |]]].
  vm_compute. tauto.
Qed.

(** ** Worked examples *)

Example split_ws_container_prefix :
  pystr_split (Bytes "docker exec  ceph-mon-a ")
  = ["docker"; "exec"; "ceph-mon-a"].
Proof. reflexivity. Qed.

(** The unit separator (31) splits text, not a byte string. *)
Example split_depends_on_the_string_type :
  pystr_split (Text ("podman" +++ String (ascii_of_nat 31) "exec"))
  = ["podman"; "exec"]
  /\ pystr_split (Bytes ("podman" +++ String (ascii_of_nat 31) "exec"))
     = ["podman" +++ String (ascii_of_nat 31) "exec"].
Proof. split; reflexivity. Qed.

Example rstrip_crlf_trailing_line_ends :
  PyStr.rstrip_crlf
    ("a" +++ String (ascii_of_nat 10) "b"
         +++ String (ascii_of_nat 13) (String (ascii_of_nat 10) ""))
  = "a" +++ String (ascii_of_nat 10) "b".
Proof. reflexivity. Qed.

Example build_key_path_admin :
  build_key_path "ceph" "client.admin"
  = inr (Some "/etc/ceph/ceph.client.admin.keyring").
Proof. reflexivity. Qed.

Example build_key_path_bootstrap :
  build_key_path "ceph" "client.bootstrap-osd"
  = inr (Some "/var/lib/ceph/bootstrap-osd/ceph.keyring").
Proof. reflexivity. Qed.

Example build_key_path_other :
  build_key_path "ceph" "client.rgw" = inr None.
Proof. reflexivity. Qed.

Example update_key_in_container :
  update_key "ceph" "client.rgw" [("mon", "allow r"); ("", "x"); ("osd", "allow rw")]
    (Some (Bytes "docker exec ceph-mon-a"))
  = [["docker"; "exec"; "ceph-mon-a"; "ceph"; "-n"; "client.admin"; "-k";
      "/etc/ceph/ceph.client.admin.keyring"; "--cluster"; "ceph"; "auth";
      "caps"; "client.rgw"; "mon"; "allow r"; "osd"; "allow rw"]].
Proof. reflexivity. Qed.

Example b64encode_rfc4648 :
  Base64.b64encode [x66; x6f; x6f; x62; x61] = "Zm9vYmE="
  /\ Base64.b64decode "Zm9vYmE=" = Some [x66; x6f; x6f; x62; x61].
Proof. split; reflexivity. Qed.

Example pack_hiih_negative_timestamp :
  Struct.pack_hiih 1 (- 2) 0 16
  = Some [x01; x00; xfe; xff; xff; xff; x00; x00; x00; x00; x10; x00].
Proof. reflexivity. Qed.

Example lookup_full_listing :
  lookup_ceph_initial_entities
    (demo_env 0 (inr (auth_listing ("mon." :: CEPH_INITIAL_KEYS))) 0) ""
    (mkMachine tt [])
  = (inl (Some CEPH_INITIAL_KEYS), mkMachine tt []).
Proof. reflexivity. Qed.

(** A complete [fetch_initial_keys] run on a full listing: after the
    pre-check and the listing, each of the seven keys is fetched into its
    file, then given its owner and mode. *)
Example fetch_initial_keys_full_run :
  List.length
    (trace_of (invoke (demo_env 0 (inr (auth_listing CEPH_INITIAL_KEYS)) 0)
                 (demo_params "fetch_initial_keys" None None true) tt))
  = 23%nat
  /\ outcome_of (invoke (demo_env 0 (inr (auth_listing CEPH_INITIAL_KEYS)) 0)
                   (demo_params "fetch_initial_keys" None None true) tt)
     = inr (ExitJson
              {| r_cmd := Some ["ceph"; "-n"; "mon."; "-k";
                                "/var/lib/ceph/mon/ceph-mon0/keyring";
                                "--cluster"; "ceph"; "auth"; "get";
                                "client.bootstrap-rgw"; "-f"; "plain"; "-o";
                                "/var/lib/ceph/bootstrap-rgw/ceph.keyring"];
                 r_start := Some 0; r_end := Some 0; r_delta := Some 0;
                 r_rc := Some 0; r_stdout := ""; r_stderr := "";
                 r_changed := true |}).
Proof. split; reflexivity. Qed.

(** In check mode nothing runs and the initial result is returned. *)
Example check_mode_returns :
  invoke (demo_env 0 (inr JNull) 0)
    {| p_state := "absent"; p_name := "client.rgw"; p_cluster := "ceph";
       p_containerized := None; p_caps := None; p_secret := None;
       p_import_key := true; p_dest := "/etc/ceph/"; p_check_mode := true |}
    tt
  = (inl initial_result, mkMachine tt []).
Proof. reflexivity. Qed.

(** Where command output is text, a state whose command has run ends in
    the [TypeError] of stripping it with a byte-string argument, whatever
    the exit code; a skip, which returns before that line, is unaffected. *)
Example text_output_ends_in_type_error :
  invoke (demo_text_env 0 (inr JNull) 0) (demo_params "list" None None true)
    tt
  = (inr (Raised (TypeError "rstrip arg must be None or str")),
     mkMachine tt
       [EvRun ["ceph"; "-n"; "client.admin"; "-k";
               "/etc/ceph/ceph.client.admin.keyring"; "--cluster"; "ceph";
               "auth"; "get"; "client.rgw"; "-f"; "json"];
        EvRun ["ceph"; "-n"; "client.admin"; "-k";
               "/etc/ceph/ceph.client.admin.keyring"; "--cluster"; "ceph";
               "auth"; "ls"; "-f"; "json"]])
  /\ outcome_of (invoke (demo_text_env 2 (inr JNull) 0)
                   (demo_params "info" None None true) tt)
     = inr (ExitJson
              {| r_cmd := None; r_start := None; r_end := None;
                 r_delta := None; r_rc := Some 0;
                 r_stdout := "skipped, since client.rgw does not exist";
                 r_stderr := ""; r_changed := false |}).
Proof. split; reflexivity. Qed.

(** * Further properties of the module *)

(** ** States that run one command *)

Section StateCommandRuns.

Context {world : Type} (env : Env world).

Lemma generate_ceph_cmd_shape cluster args user user_key containerized :
  generate_ceph_cmd cluster args user user_key containerized
  = container_prefix containerized ++ ceph_base cluster user user_key ++ args.
Proof.
  unfold generate_ceph_cmd, container_prefix.
  destruct (truthy_pystr containerized); reflexivity.
Qed.

(** What an invocation that reaches its state's command does: the command
    runs after the pre-check; then, where the captured output is text,
    stripping it raises [TypeError], and where it is a byte string the
    exit code decides between [exit_json] and [fail_json]. *)
Lemma invoke_state_command (p : params) (w : world) :
  p_check_mode p = false ->
  runs_state_command env p w ->
  invoke env p w
  = (let r := env_run_command env (state_command p)
                (m_world (pre_check_machine env p w)) in
     let rc := fst (fst (fst r)) in
     let result :=
       {| r_cmd := Some (state_command p);
          r_start := Some (env_now env w);
          r_end := Some (env_now env (snd r));
          r_delta := Some (env_now env (snd r) - env_now env w);
          r_rc := Some rc;
          r_stdout := PyStr.rstrip_crlf (snd (fst (fst r)));
          r_stderr := PyStr.rstrip_crlf (snd (fst r));
          r_changed := true |} in
     (inr (if env_output_is_text env
           then Raised (TypeError "rstrip arg must be None or str")
           else if rc =? 0 then ExitJson result
           else FailJson "non-zero return code" (KwResult result)),
      mkMachine (snd r)
        (m_trace (pre_check_machine env p w) ++ [EvRun (state_command p)]))).
Proof.
  intros Hcm Hruns. cbv zeta.
  destruct (env_run_command env (state_command p)
              (m_world (pre_check_machine env p w)))
    as [[[rc out] err] w2] eqn:Hrun.
  cbn [fst snd].
  assert (Hd : dispatch env p initial_result (pre_check_locals env p w)
                 (pre_check_machine env p w)
               = (inl (rc, state_command p, out, err),
                  mkMachine w2 (m_trace (pre_check_machine env p w)
                                  ++ [EvRun (state_command p)]))).
  { rewrite state_command_dispatch by exact Hruns.
    rewrite exec_commands_single, Hrun. reflexivity. }
  rewrite (invoke_completes env p w _ _ _ _ _ Hcm Hd). reflexivity.
Qed.

End StateCommandRuns.

(** X1.  Outside check mode, states [absent] and [list] run their one
    command whatever the pre-check found: after the pre-check (run exactly
    when [import_key] is set) the delete command, resp. the listing
    command, is the next and last command run.  Where the captured output
    is a byte string (Python 2), its exit code alone then decides between
    [exit_json] (with [changed] true, also for the read-only [list]) and
    [fail_json]; where it is text (Python 3), stripping the output raises
    [TypeError] and the invocation ends in that exception whatever the
    exit code. *)
Theorem X1_absent_and_list_run_unconditionally :
  forall (world : Type) (env : Env world) (p : params) (w : world),
    p_check_mode p = false ->
    p_state p = "absent" \/ p_state p = "list" ->
    let cmd :=
      container_prefix (p_containerized p)
        ++ ceph_base (p_cluster p) "client.admin" (admin_keyring (p_cluster p))
        ++ (if String.eqb (p_state p) "absent" then ["del"; p_name p]
            else ["ls"; "-f"; "json"]) in
    let w1 := if p_import_key p then after_pre_check env p w else w in
    let r := env_run_command env cmd w1 in
    let rc := fst (fst (fst r)) in
    let result :=
      {| r_cmd := Some cmd;
         r_start := Some (env_now env w);
         r_end := Some (env_now env (snd r));
         r_delta := Some (env_now env (snd r) - env_now env w);
         r_rc := Some rc;
         r_stdout := PyStr.rstrip_crlf (snd (fst (fst r)));
         r_stderr := PyStr.rstrip_crlf (snd (fst r));
         r_changed := true |} in
    outcome_of (invoke env p w)
    = inr (if env_output_is_text env
           then Raised (TypeError "rstrip arg must be None or str")
           else if rc =? 0 then ExitJson result
           else FailJson "non-zero return code" (KwResult result))
    /\ trace_of (invoke env p w)
       = (if p_import_key p then [EvRun (pre_check_cmd p)] else [])
           ++ [EvRun cmd].
Proof.
  intros world env p w Hcm Hst cmd w1 r rc result.
  assert (Hruns : runs_state_command env p w).
  { destruct Hst; [left | right; left]; assumption. }
  assert (Hcmd : state_command p = cmd).
  { unfold state_command, cmd, delete_key, list_keys.
    destruct Hst as [Hst | Hst]; rewrite Hst;
      cbn [String.eqb Ascii.eqb Bool.eqb andb app hd];
      apply generate_ceph_cmd_shape. }
  assert (Hw : m_world (pre_check_machine env p w) = w1).
  { unfold pre_check_machine, w1. destruct (p_import_key p); reflexivity. }
  rewrite (invoke_state_command env p w Hcm Hruns).
  unfold outcome_of, trace_of. cbv zeta. rewrite Hcmd, Hw.
  cbn [fst snd m_trace]. split; [reflexivity |].
  unfold pre_check_machine. destruct (p_import_key p); reflexivity.
Qed.

Lemma X1_witness :
  pre_check_rc (demo_env 2 (inr JNull) 0)
    (demo_container_params "absent" None) tt = 2
  /\ trace_of
       (invoke (demo_env 2 (inr JNull) 0)
          (demo_container_params "absent" None) tt)
     = [EvRun ["docker"; "exec"; "ceph-mon-a"; "ceph"; "-n"; "client.admin";
               "-k"; "/etc/ceph/ceph.client.admin.keyring"; "--cluster";
               "ceph"; "auth"; "get"; "client.rgw"; "-f"; "json"];
        EvRun ["docker"; "exec"; "ceph-mon-a"; "ceph"; "-n"; "client.admin";
               "-k"; "/etc/ceph/ceph.client.admin.keyring"; "--cluster";
               "ceph"; "auth"; "del"; "client.rgw"]].
Proof.
  split; [reflexivity |].
  exact (proj2 (X1_absent_and_list_run_unconditionally unit
                  (demo_env 2 (inr JNull) 0)
                  (demo_container_params "absent" None) tt eq_refl
                  (or_introl eq_refl))).
Defined.

(** X2.  For state [info] on an existing key the module runs the very
    same [auth get] command line twice, once as the pre-check and once as
    the state's command.  Where the captured output is a byte string
    (Python 2), what it reports (exit code, output) comes from the second
    run; where it is text (Python 3), stripping the output raises
    [TypeError] after the second run. *)
Theorem X2_info_runs_the_pre_check_command_again :
  forall (world : Type) (env : Env world) (p : params) (w : world),
    p_check_mode p = false ->
    p_state p = "info" ->
    p_import_key p = true ->
    pre_check_rc env p w = 0 ->
    let cmd := pre_check_cmd p in
    let r := env_run_command env cmd (after_pre_check env p w) in
    let rc := fst (fst (fst r)) in
    let result :=
      {| r_cmd := Some cmd;
         r_start := Some (env_now env w);
         r_end := Some (env_now env (snd r));
         r_delta := Some (env_now env (snd r) - env_now env w);
         r_rc := Some rc;
         r_stdout := PyStr.rstrip_crlf (snd (fst (fst r)));
         r_stderr := PyStr.rstrip_crlf (snd (fst r));
         r_changed := true |} in
    invoke env p w
    = (inr (if env_output_is_text env
            then Raised (TypeError "rstrip arg must be None or str")
            else if rc =? 0 then ExitJson result
            else FailJson "non-zero return code" (KwResult result)),
       mkMachine (snd r) [EvRun cmd; EvRun cmd]).
Proof.
  intros world env p w Hcm Hst Himp Hrc cmd r rc result.
  assert (Hruns : runs_state_command env p w).
  { right; right. split; [right; exact Hst | split; assumption]. }
  assert (Hcmd : state_command p = cmd).
  { unfold state_command, cmd, pre_check_cmd. rewrite Hst. reflexivity. }
  rewrite (invoke_state_command env p w Hcm Hruns). cbv zeta.
  rewrite Hcmd. unfold pre_check_machine. rewrite Himp. reflexivity.
Qed.

Lemma X2_witness :
  trace_of (invoke (demo_env 0 (inr JNull) 0)
              (demo_params "info" None None true) tt)
  = [EvRun ["ceph"; "-n"; "client.admin"; "-k";
            "/etc/ceph/ceph.client.admin.keyring"; "--cluster"; "ceph";
            "auth"; "get"; "client.rgw"; "-f"; "json"];
     EvRun ["ceph"; "-n"; "client.admin"; "-k";
            "/etc/ceph/ceph.client.admin.keyring"; "--cluster"; "ceph";
            "auth"; "get"; "client.rgw"; "-f"; "json"]].
Proof.
  exact (f_equal (fun r => m_trace (snd r))
           (X2_info_runs_the_pre_check_command_again unit
              (demo_env 0 (inr JNull) 0)
              (demo_params "info" None None true) tt
              eq_refl eq_refl eq_refl eq_refl)).
Defined.

(** X3.  For state [update] on an existing key the one command run after
    the pre-check is [ceph ... auth caps <name>] followed by the key and
    value of every capability with a non-empty key, in order and without
    any [--cap] flag.  A mapping whose keys are all empty passes the
    capability guard and gives a command that names no capability. *)
Theorem X3_update_command_line :
  forall (world : Type) (env : Env world) (p : params) (w : world)
         (caps : caps_dict),
    p_check_mode p = false ->
    p_state p = "update" ->
    p_caps p = Some caps ->
    caps <> [] ->
    p_import_key p = true ->
    pre_check_rc env p w = 0 ->
    commands_run (trace_of (invoke env p w))
    = [pre_check_cmd p;
       container_prefix (p_containerized p)
         ++ ceph_base (p_cluster p) "client.admin"
              (admin_keyring (p_cluster p))
         ++ ["caps"; p_name p]
         ++ flat_map (fun kv => [fst kv; snd kv])
              (filter (fun kv => negb (String.eqb (fst kv) "")) caps)].
Proof.
  intros world env p w caps Hcm Hst Hcaps Hne Himp Hrc.
  assert (Htr : truthy_caps (p_caps p) = true).
  { rewrite Hcaps. destruct caps; [contradiction | reflexivity]. }
  assert (Hruns : runs_state_command env p w).
  { right; right. split; [left; split; assumption | split; assumption]. }
  rewrite (invoke_state_command env p w Hcm Hruns).
  unfold trace_of. cbv zeta. cbn [snd m_trace].
  unfold pre_check_machine. rewrite Himp. cbn [m_trace app commands_run flat_map].
  f_equal. f_equal.
  unfold state_command. rewrite Hst, Hcaps.
  cbn [String.eqb Ascii.eqb Bool.eqb andb caps_items update_key app hd].
  rewrite generate_ceph_cmd_shape. f_equal. f_equal.
  rewrite generate_caps_spec. cbn [app]. f_equal. f_equal.
  unfold spec_caps_tokens, caps_entry_tokens.
  cbn [String.eqb Ascii.eqb Bool.eqb andb app].
  f_equal. apply filter_ext. intros [k v]. destruct k; reflexivity.
Qed.

Lemma X3_witness :
  commands_run
    (trace_of (invoke (demo_env 0 (inr JNull) 0)
                 (demo_params "update" (Some [("", "allow *")]) None true) tt))
  = [["ceph"; "-n"; "client.admin"; "-k";
      "/etc/ceph/ceph.client.admin.keyring"; "--cluster"; "ceph";
      "auth"; "get"; "client.rgw"; "-f"; "json"];
     ["ceph"; "-n"; "client.admin"; "-k";
      "/etc/ceph/ceph.client.admin.keyring"; "--cluster"; "ceph";
      "auth"; "caps"; "client.rgw"]].
Proof.
  refine (X3_update_command_line unit (demo_env 0 (inr JNull) 0)
            (demo_params "update" (Some [("", "allow *")]) None true) tt
            [("", "allow *")] eq_refl eq_refl eq_refl _ eq_refl eq_refl).
  discriminate.
Defined.

(** X4.  In a [fetch_initial_keys] invocation a listing command that
    exits non-zero does not fail the module: it ends in [exit_json] with
    return code 0, [changed] false and the message "failed to retrieve
    ceph keys", and nothing is run after the listing command. *)
Theorem X4_failed_listing_exits_with_rc_zero :
  forall (world : Type) (env : Env world) (p : params) (w w2 : world)
         (rc : Z) (out err : string),
    p_check_mode p = false ->
    p_state p = "fetch_initial_keys" ->
    env_run_command env (fetch_list_cmd env p w)
      (m_world (pre_check_machine env p w)) = ((rc, out, err), w2) ->
    rc <> 0 ->
    invoke env p w
    = (inr (ExitJson
              {| r_cmd := None; r_start := None; r_end := None;
                 r_delta := None; r_rc := Some 0;
                 r_stdout := "failed to retrieve ceph keys";
                 r_stderr := ""; r_changed := false |}),
       mkMachine w2 (m_trace (pre_check_machine env p w)
                       ++ [EvRun (fetch_list_cmd env p w)])).
Proof.
  intros world env p w w2 rc out err Hcm Hst Hrun Hrc.
  apply invoke_early_exit; [exact Hcm |].
  unfold dispatch. rewrite Hst.
  cbn [String.eqb Ascii.eqb Bool.eqb andb].
  rewrite bind_query.
  erewrite bind_inl.
  2:{ change (list_keys (p_cluster p) "mon." ?k (p_containerized p))
        with [fetch_list_cmd env p w].
      rewrite exec_commands_single, Hrun. reflexivity. }
  cbv beta iota. cbn [fst snd].
  apply Z.eqb_neq in Hrc. rewrite Hrc. reflexivity.
Qed.

Lemma X4_witness :
  invoke flaky_env (demo_params "fetch_initial_keys" None None true) 0%nat
  = (inr (ExitJson
            {| r_cmd := None; r_start := None; r_end := None;
               r_delta := None; r_rc := Some 0;
               r_stdout := "failed to retrieve ceph keys";
               r_stderr := ""; r_changed := false |}),
     mkMachine 2%nat
       [EvRun ["ceph"; "-n"; "client.admin"; "-k";
               "/etc/ceph/ceph.client.admin.keyring"; "--cluster"; "ceph";
               "auth"; "get"; "client.rgw"; "-f"; "json"];
        EvRun ["ceph"; "-n"; "mon."; "-k";
               "/var/lib/ceph/mon/ceph-mon0/keyring"; "--cluster"; "ceph";
               "auth"; "ls"; "-f"; "json"]]).
Proof.
  refine (X4_failed_listing_exits_with_rc_zero nat flaky_env
            (demo_params "fetch_initial_keys" None None true) 0%nat 2%nat
            22 "" _ eq_refl eq_refl eq_refl _).
  discriminate.
Defined.

(** ** The command executor *)

Section ExecPrefix.

Context {world : Type} (env : Env world).

Lemma exec_loop_runs_a_prefix (l : list command) :
  forall (last : option cmd_result) (m : machine world),
    l <> [] ->
    exists (n : nat) (rc : Z) (out err : string) (w' : world),
      (1 <= n <= List.length l)%nat
      /\ exec_loop env l last m
         = (inl (rc, nth (n - 1) l [], out, err),
            mkMachine w' (m_trace m ++ map EvRun (firstn n l)))
      /\ (rc = 0 -> n = List.length l).
Proof.
  induction l as [| c l IH]; intros last m Hne; [congruence |].
  cbn [exec_loop].
  erewrite bind_inl by apply run_command_eq.
  destruct (env_run_command env c (m_world m)) as [[[rc0 out0] err0] w0].
  cbv beta iota. cbn [fst snd].
  destruct (Z.eqb_spec rc0 0) as [-> | Hrc]; cbn [negb].
  - destruct l as [| c' l'].
    + exists 1%nat, 0, out0, err0, w0. cbn. repeat split; auto.
    + destruct (IH (Some (0, c, out0, err0))
                  (mkMachine w0 (m_trace m ++ [EvRun c])) ltac:(discriminate))
        as (n & rc & out & err & w' & Hn & Heq & Hall).
      exists (S n), rc, out, err, w'. rewrite Heq. cbn [m_trace].
      split; [cbn [List.length] in *; lia |].
      split.
      * destruct n as [| n']; [lia |].
        cbn [Nat.sub nth firstn map]. rewrite Nat.sub_0_r, <- app_assoc.
        reflexivity.
      * intros H0. cbn [List.length] in *. rewrite (Hall H0). reflexivity.
  - exists 1%nat, rc0, out0, err0, w0. cbn [List.length].
    split; [lia |]. split; [reflexivity | intros; contradiction].
Qed.

End ExecPrefix.

(** X5.  [exec_commands] on an empty list raises [UnboundLocalError] on
    [rc] without running anything.  On a non-empty list it always returns:
    it has run the first [n] commands of the list, in order, for some
    [n >= 1]; the command it returns is the last one it ran, and a
    returned exit code of 0 means the whole list was run. *)
Theorem X5_exec_commands_runs_a_prefix :
  forall (world : Type) (env : Env world) (m : machine world),
    exec_commands env [] m = (inr (Raised (UnboundLocalError "rc")), m)
    /\ (forall (c : command) (l : list command),
           exists (n : nat) (rc : Z) (out err : string) (w' : world),
             (1 <= n <= List.length (c :: l))%nat
             /\ exec_commands env (c :: l) m
                = (inl (rc, nth (n - 1) (c :: l) [], out, err),
                   mkMachine w'
                     (m_trace m ++ map EvRun (firstn n (c :: l))))
             /\ (rc = 0 -> n = List.length (c :: l))).
Proof.
  intros world env m. split; [reflexivity |].
  intros c l. unfold exec_commands.
  apply exec_loop_runs_a_prefix. discriminate.
Qed.

(** ** Fetching the initial keys *)

Lemma build_key_path_initial (cluster e : string) :
  In e CEPH_INITIAL_KEYS ->
  build_key_path cluster e = inr (Some (initial_key_path cluster e)).
Proof.
  unfold CEPH_INITIAL_KEYS. cbn [In].
  intros H; repeat (destruct H as [<- | H]; [reflexivity |]); contradiction.
Qed.

Section FetchLoopFacts.

Context {world : Type} (env : Env world).

Lemma lookup_returns_initial_entities (out : string) (m m' : machine world)
    (es : list string) :
  lookup_ceph_initial_entities env out m = (inl (Some es), m') ->
  Forall (fun e => In e CEPH_INITIAL_KEYS) es /\ List.length es = 7%nat.
Proof.
  intros Hl.
  destruct (lookup_cases env out m) as (x & Hx & Hcase).
  rewrite Hx in Hl. injection Hl as -> _.
  destruct Hcase as (j & dumpv & keys & _ & _ & _ & -> & Hlen).
  split; [apply LookupFacts.listed_entities_initial | exact Hlen].
Qed.

(** Entities whose key file is on disk are passed over. *)
Lemma fetch_loop_all_on_disk cluster user user_key containerized uid gid
    (entities : list string) :
  forall (cur : cmd_result) (m : machine world),
    Forall (fun e => In e CEPH_INITIAL_KEYS) entities ->
    (forall e, In e entities ->
               env_isfile env (initial_key_path cluster e) (m_world m) = true) ->
    fetch_loop env cluster user user_key containerized uid gid entities cur m
    = (inl cur, m).
Proof.
  induction entities as [| e es IH]; intros cur m Hall Hdisk; [reflexivity |].
  inversion Hall as [| ? ? He Hes]; subst.
  cbn [fetch_loop]. rewrite (build_key_path_initial cluster e He).
  cbn [lift_exn]. rewrite bind_ret_l, bind_query.
  rewrite (Hdisk e (or_introl eq_refl)).
  apply IH; [exact Hes |]. intros e' He'. apply Hdisk. right; exact He'.
Qed.

Lemma dispatch_fetch_loop (p : params) (w w2 : world) out err
    (es : list string) (uid gid : Z) :
  p_state p = "fetch_initial_keys" ->
  env_run_command env (fetch_list_cmd env p w)
    (m_world (pre_check_machine env p w)) = ((0, out, err), w2) ->
  let listed :=
    mkMachine w2 (m_trace (pre_check_machine env p w)
                    ++ [EvRun (fetch_list_cmd env p w)]) in
  lookup_ceph_initial_entities env out listed = (inl (Some es), listed) ->
  env_getpwnam_uid env "ceph" w2 = Some uid ->
  env_getgrnam_gid env "ceph" w2 = Some gid ->
  dispatch env p initial_result (pre_check_locals env p w)
    (pre_check_machine env p w)
  = fetch_loop env (p_cluster p) "mon."
      ("/var/lib/ceph/mon/" +++ p_cluster p +++ "-"
         +++ env_gethostname env (m_world (pre_check_machine env p w))
         +++ "/keyring")
      (p_containerized p) uid gid es
      (0, fetch_list_cmd env p w, out, err) listed.
Proof.
  intros Hst Hrun listed Hlook Huid Hgid. subst listed.
  unfold dispatch. rewrite Hst.
  cbn [String.eqb Ascii.eqb Bool.eqb andb].
  rewrite bind_query.
  erewrite bind_inl.
  2:{ change (list_keys (p_cluster p) "mon." ?k (p_containerized p))
        with [fetch_list_cmd env p w].
      rewrite exec_commands_single, Hrun. reflexivity. }
  cbv beta iota. cbn [fst snd Z.eqb negb].
  rewrite bind_ret_l.
  erewrite bind_inl by exact Hlook. cbv beta iota.
  rewrite bind_query. cbn [m_world]. rewrite Huid. cbv beta iota.
  rewrite bind_query. cbn [m_world]. rewrite Hgid.
  reflexivity.
Qed.

End FetchLoopFacts.

(** X6.  Every entity the look-up hands to the loop of
    [fetch_initial_keys] gets a key path from [build_key_path]: the admin
    key under [/etc/ceph], a bootstrap key under the directory of
    [/var/lib/ceph] named after the entity without its [client.] prefix.
    So neither the "Failed to build key path" error nor an [IndexError]
    can occur in that loop. *)
Theorem X6_looked_up_entities_have_key_paths :
  forall (world : Type) (env : Env world) (out : string)
         (m m' : machine world) (es : list string),
    lookup_ceph_initial_entities env out m = (inl (Some es), m') ->
    forall cluster e,
      In e es ->
      build_key_path cluster e = inr (Some (initial_key_path cluster e)).
Proof.
  intros world env out m m' es Hl cluster e He.
  destruct (lookup_returns_initial_entities env out m m' es Hl) as [Hall _].
  rewrite Forall_forall in Hall. apply build_key_path_initial. auto.
Qed.

Lemma X6_witness :
  build_key_path "prod" "client.bootstrap-rbd-mirror"
  = inr (Some "/var/lib/ceph/bootstrap-rbd-mirror/prod.keyring").
Proof.
  refine (X6_looked_up_entities_have_key_paths unit
            (demo_env 0 (inr (auth_listing CEPH_INITIAL_KEYS)) 0) ""
            (mkMachine tt []) (mkMachine tt []) CEPH_INITIAL_KEYS eq_refl
            "prod" "client.bootstrap-rbd-mirror" _).
  cbn. tauto.
Defined.

(** X7.  When the key file of every looked-up entity is already on disk,
    [fetch_initial_keys] runs nothing after the listing command and
    touches no file.  Where the captured output is a byte string
    (Python 2) it still ends in [exit_json] with [changed] true, reporting
    the listing command and its output; where it is text (Python 3),
    stripping the output raises [TypeError]. *)
Theorem X7_keys_on_disk_are_not_fetched_again :
  forall (world : Type) (env : Env world) (p : params) (w w2 : world)
         (out err : string) (es : list string) (uid gid : Z),
    p_check_mode p = false ->
    p_state p = "fetch_initial_keys" ->
    env_run_command env (fetch_list_cmd env p w)
      (m_world (pre_check_machine env p w)) = ((0, out, err), w2) ->
    let listed :=
      mkMachine w2 (m_trace (pre_check_machine env p w)
                      ++ [EvRun (fetch_list_cmd env p w)]) in
    lookup_ceph_initial_entities env out listed = (inl (Some es), listed) ->
    env_getpwnam_uid env "ceph" w2 = Some uid ->
    env_getgrnam_gid env "ceph" w2 = Some gid ->
    (forall e, In e es ->
               env_isfile env (initial_key_path (p_cluster p) e) w2 = true) ->
    invoke env p w
    = (inr (if env_output_is_text env
            then Raised (TypeError "rstrip arg must be None or str")
            else ExitJson
                   {| r_cmd := Some (fetch_list_cmd env p w);
                      r_start := Some (env_now env w);
                      r_end := Some (env_now env w2);
                      r_delta := Some (env_now env w2 - env_now env w);
                      r_rc := Some 0;
                      r_stdout := PyStr.rstrip_crlf out;
                      r_stderr := PyStr.rstrip_crlf err;
                      r_changed := true |}),
       listed).
Proof.
  intros world env p w w2 out err es uid gid Hcm Hst Hrun listed Hlook
         Huid Hgid Hdisk.
  destruct (lookup_returns_initial_entities env out _ _ es Hlook) as [Hall _].
  assert (Hd : dispatch env p initial_result (pre_check_locals env p w)
                 (pre_check_machine env p w)
               = (inl (0, fetch_list_cmd env p w, out, err), listed)).
  { rewrite (dispatch_fetch_loop env p w w2 out err es uid gid
               Hst Hrun Hlook Huid Hgid).
    apply fetch_loop_all_on_disk; [exact Hall | exact Hdisk]. }
  rewrite (invoke_completes env p w _ _ _ _ _ Hcm Hd). reflexivity.
Qed.

Lemma X7_witness :
  invoke (on_disk_env (inr (auth_listing CEPH_INITIAL_KEYS)))
    (demo_params "fetch_initial_keys" None None false) tt
  = (inr (ExitJson
            {| r_cmd := Some ["ceph"; "-n"; "mon."; "-k";
                              "/var/lib/ceph/mon/ceph-mon0/keyring";
                              "--cluster"; "ceph"; "auth"; "ls"; "-f"; "json"];
               r_start := Some 0; r_end := Some 0; r_delta := Some 0;
               r_rc := Some 0; r_stdout := ""; r_stderr := "";
               r_changed := true |}),
     mkMachine tt
       [EvRun ["ceph"; "-n"; "mon."; "-k";
               "/var/lib/ceph/mon/ceph-mon0/keyring"; "--cluster"; "ceph";
               "auth"; "ls"; "-f"; "json"]]).
Proof.
  exact (X7_keys_on_disk_are_not_fetched_again unit
           (on_disk_env (inr (auth_listing CEPH_INITIAL_KEYS)))
           (demo_params "fetch_initial_keys" None None false) tt tt "" ""
           CEPH_INITIAL_KEYS 167 167 eq_refl eq_refl eq_refl eq_refl
           eq_refl eq_refl (fun _ _ => eq_refl)).
Defined.

(** ** Key paths *)

Lemma contains_char (a : ascii) (s : string) :
  PyStr.contains (String a "") s = has_char a s.
Proof.
  unfold has_char.
  induction s as [| b s IH]; [reflexivity |].
  cbn [PyStr.contains String.prefix list_ascii_of_string existsb].
  rewrite IH.
  destruct (ascii_dec a b) as [-> | Hne].
  - rewrite Ascii.eqb_refl. destruct s; reflexivity.
  - apply Ascii.eqb_neq in Hne. rewrite Hne. reflexivity.
Qed.

Lemma split_on_from_head (sep : ascii) (s : string) :
  forall cur, exists x rest, PyStr.split_on_from sep cur s = x :: rest.
Proof.
  induction s as [| c s IH]; intros cur; cbn [PyStr.split_on_from].
  - eauto.
  - destruct (Ascii.eqb c sep); eauto.
Qed.

Lemma split_on_from_second (sep : ascii) (s : string) :
  forall cur,
    nth_error (PyStr.split_on_from sep cur s) 1 = None
    <-> has_char sep s = false.
Proof.
  unfold has_char.
  induction s as [| c s IH]; intros cur;
    cbn [PyStr.split_on_from list_ascii_of_string existsb].
  - split; reflexivity.
  - rewrite (Ascii.eqb_sym sep c).
    destruct (Ascii.eqb c sep); cbn [orb].
    + destruct (split_on_from_head sep s "") as (x & rest & ->).
      cbn. split; discriminate.
    + apply IH.
Qed.

(** X8.  [build_key_path] on an arbitrary entity name: a name containing
    [admin] always gets the path under [/etc/ceph], even when it also
    contains [bootstrap]; [None] is returned exactly for the names
    containing neither [admin] nor [bootstrap]; and an [IndexError] is
    raised exactly for the names that contain [bootstrap], do not contain
    [admin], and have no dot to split on. *)
Theorem X8_build_key_path_cases :
  forall (cluster entity : string),
    (PyStr.contains "admin" entity = true ->
     build_key_path cluster entity
     = inr (Some ("/etc/ceph/" +++ cluster +++ "." +++ entity +++ ".keyring")))
    /\ (build_key_path cluster entity = inr None
        <-> PyStr.contains "admin" entity = false
            /\ PyStr.contains "bootstrap" entity = false)
    /\ ((exists e, build_key_path cluster entity = inl e)
        <-> PyStr.contains "admin" entity = false
            /\ PyStr.contains "bootstrap" entity = true
            /\ PyStr.contains "." entity = false).
Proof.
  intros cluster entity. unfold build_key_path.
  rewrite (contains_char "."%char entity).
  pose proof (split_on_from_second "."%char entity "") as Hsplit.
  fold (PyStr.split_on "."%char entity) in Hsplit.
  destruct (PyStr.contains "admin" entity);
    [split; [reflexivity |]; split; split;
     try discriminate; try (intros [? ?]; discriminate);
     intros [e He]; discriminate |].
  destruct (PyStr.contains "bootstrap" entity).
  - destruct (nth_error (PyStr.split_on "."%char entity) 1) as [seg |].
    + split; [discriminate |]. split; split.
      * discriminate.
      * intros [_ H]; discriminate.
      * intros [e He]; discriminate.
      * intros (_ & _ & H). apply Hsplit in H. discriminate.
    + split; [discriminate |]. split; split.
      * discriminate.
      * intros [_ H]; discriminate.
      * intros _. repeat split. apply Hsplit. reflexivity.
      * intros _. eexists; reflexivity.
  - split; [discriminate |]. split; split.
    + intros _; split; reflexivity.
    + reflexivity.
    + intros [e He]; discriminate.
    + intros (_ & H & _); discriminate.
Qed.

Lemma X8_witness :
  build_key_path "ceph" "client.bootstrap-admin"
  = inr (Some "/etc/ceph/ceph.client.bootstrap-admin.keyring")
  /\ (exists e, build_key_path "ceph" "bootstrap-osd" = inl e).
Proof.
  split.
  - exact (proj1 (X8_build_key_path_cases "ceph" "client.bootstrap-admin")
             eq_refl).
  - apply (proj2 (proj2 (X8_build_key_path_cases "ceph" "bootstrap-osd"))).
    repeat split.
Defined.

(** ** The generated secret *)

Lemma b64encode_length (bs : list byte) :
  String.length (Base64.b64encode bs)
  = (4 * ((List.length bs + 2) / 3))%nat.
Proof.
  induction bs as [| x | x y | x y z l IH] using list_ind3;
    try reflexivity.
  cbn [Base64.b64encode String.length List.length]. cbv zeta.
  cbn [String.length]. rewrite IH.
  replace (S (S (S (List.length l))) + 2)%nat
    with (List.length l + 2 + 1 * 3)%nat by lia.
  rewrite Nat.div_add by lia. lia.
Qed.

Lemma pack_secret_header (ts : Z) :
  Struct.pack_hiih 1 ts 0 16
  = if ((- 2147483648 <=? ts) && (ts <=? 2147483647))%bool
    then Some (Struct.le_bytes 2 1 ++ Struct.le_bytes 4 ts
                 ++ Struct.le_bytes 4 0 ++ Struct.le_bytes 2 16)
    else None.
Proof.
  unfold Struct.pack_hiih, Struct.pack_i.
  destruct ((- 2147483648 <=? ts) && (ts <=? 2147483647))%bool; reflexivity.
Qed.

(** X9.  With sixteen random bytes at hand, [generate_secret] raises
    [struct.error] exactly when the clock is outside the signed 32-bit
    range, and every secret it does return is 40 characters long. *)
Theorem X9_generate_secret_fails_exactly_out_of_range :
  forall (world : Type) (env : Env world) (m : machine world)
         (key : list byte) (w' : world),
    env_urandom env 16 (m_world m) = (key, w') ->
    List.length key = 16%nat ->
    (generate_secret env m
     = (inr (Raised StructError), mkMachine w' (m_trace m))
     <-> ~ (- 2147483648 <= env_time env w' <= 2147483647))
    /\ (forall s m', generate_secret env m = (inl s, m') ->
                     String.length s = 40%nat).
Proof.
  intros world env m key w' Hrand Hlen.
  assert (Hgen : generate_secret env m
                 = match Struct.pack_hiih 1 (env_time env w') 0 16 with
                   | Some header =>
                       (inl (Base64.b64encode (header ++ key)),
                        mkMachine w' (m_trace m))
                   | None => (inr (Raised StructError), mkMachine w' (m_trace m))
                   end).
  { unfold generate_secret, bind, act, query. rewrite Hrand.
    cbn [m_world m_trace]. rewrite Hlen. change (Z.of_nat 16) with 16.
    destruct (Struct.pack_hiih 1 (env_time env w') 0 16); reflexivity. }
  rewrite Hgen, pack_secret_header.
  destruct (Z.leb_spec (- 2147483648) (env_time env w')) as [Hlo | Hlo];
    destruct (Z.leb_spec (env_time env w') 2147483647) as [Hhi | Hhi];
    cbn [andb]; split;
    try (split; [discriminate | intros H; exfalso; apply H; lia]);
    try (split; [intros _; lia | reflexivity]);
    try (intros s m' H; discriminate H).
  match goal with
  | |- context [Base64.b64encode ?b] => remember b as blob eqn:Hblob
  end.
  intros s m' [= <- _]. rewrite b64encode_length. subst blob.
  rewrite !length_app, Hlen.
  rewrite !StructFacts.le_bytes_2, !StructFacts.le_bytes_4. reflexivity.
Qed.

Lemma X9_witness :
  String.length "AQAA5dxbAAAAABAAAAAAAAAAAAAAAAAAAAAAAA==" = 40%nat.
Proof.
  exact (proj2 (X9_generate_secret_fails_exactly_out_of_range unit
                  (demo_env 0 (inr JNull) 1541203200) (mkMachine tt [])
                  (repeat x00 16) tt eq_refl eq_refl)
           "AQAA5dxbAAAAABAAAAAAAAAAAAAAAAAAAAAAAA==" (mkMachine tt [])
           eq_refl).
Defined.

(** ** How an invocation can end *)

Lemma rstrip_crlf_no_line_end (s : string) :
  ends_with_line_end (PyStr.rstrip_crlf s) = false.
Proof.
  induction s as [| c s IH]; [reflexivity |].
  cbn [PyStr.rstrip_crlf]. cbv zeta.
  destruct (PyStr.rstrip_crlf s) as [| c' t] eqn:Ht.
  - cbn [PyStr.is_empty]. rewrite andb_true_r.
    destruct (PyStr.is_crlf c) eqn:Hc; [reflexivity |].
    cbn [ends_with_line_end]. exact Hc.
  - cbn [PyStr.is_empty]. rewrite andb_false_r.
    cbn [ends_with_line_end] in *. exact IH.
Qed.

Section Halting.

Context {world : Type} (env : Env world).

Lemma halts_only_ret {A} (P : halt -> Prop) (a : A) :
  halts_only (world := world) P (ret a).
Proof. intros m h m' H. discriminate H. Qed.

Lemma halts_only_halt {A} (P : halt -> Prop) (h : halt) :
  P h -> halts_only (world := world) (A := A) P (halt_with h).
Proof. intros Hp m h' m' [= <- _]. exact Hp. Qed.

Lemma halts_only_bind {A B} (P : halt -> Prop) (c : M world A)
    (k : A -> M world B) :
  halts_only P c -> (forall a, halts_only P (k a)) ->
  halts_only P (bind c k).
Proof.
  intros Hc Hk m h m' H. unfold bind in H.
  destruct (c m) as [[a | h0] m0] eqn:Hcm.
  - exact (Hk a m0 h m' H).
  - injection H as <- _. exact (Hc m h0 m0 Hcm).
Qed.

Lemma halts_only_query {A} (P : halt -> Prop) (f : world -> A) :
  halts_only P (query f).
Proof. intros m h m' H. discriminate H. Qed.

Lemma halts_only_act {A} (P : halt -> Prop) (f : world -> A * world) :
  halts_only P (act f).
Proof.
  intros m h m' H. unfold act in H.
  destruct (f (m_world m)). discriminate H.
Qed.

Lemma halts_only_log (P : halt -> Prop) (ev : event) :
  halts_only (world := world) P (log ev).
Proof. intros m h m' H. discriminate H. Qed.

Lemma halts_only_raise {A} (e : pyexn) :
  halts_only (world := world) (A := A) early_halt (raise e).
Proof. apply halts_only_halt. exact I. Qed.

Lemma halts_only_fatal {A} (message : string) (module : pyobj) :
  halts_only (world := world) (A := A) early_halt (fatal message module).
Proof.
  unfold fatal. destruct (obj_truthy module).
  - apply halts_only_halt. reflexivity.
  - apply halts_only_raise.
Qed.

Lemma halts_only_lift_exn {A} (r : pyexn + A) :
  halts_only (world := world) early_halt (lift_exn r).
Proof.
  destruct r; [apply halts_only_raise | apply halts_only_ret].
Qed.

Lemma halts_only_load_name (f x : string) :
  halts_only (world := world) early_halt (load_name f x).
Proof.
  unfold load_name, load_global.
  destruct (Scope.is_local f x); [apply halts_only_raise |].
  destruct (Scope.resolve x); [apply halts_only_ret | apply halts_only_raise].
Qed.

Lemma halts_only_run_command (P : halt -> Prop) (cmd : command) :
  halts_only P (run_command env cmd).
Proof.
  unfold run_command. apply halts_only_bind;
    [apply halts_only_log | intros; apply halts_only_act].
Qed.

Lemma halts_only_exec_loop (l : list command) :
  forall last, halts_only early_halt (exec_loop env l last).
Proof.
  induction l as [| c l IH]; intros last; cbn [exec_loop].
  - destruct last; [apply halts_only_ret | apply halts_only_raise].
  - apply halts_only_bind; [apply halts_only_run_command |].
    intros [[rc out] err]. destruct (negb (rc =? 0));
      [apply halts_only_ret | apply IH].
Qed.

Lemma halts_only_exec_commands (l : list command) :
  halts_only early_halt (exec_commands env l).
Proof. apply halts_only_exec_loop. Qed.

Lemma halts_only_generate_secret :
  halts_only early_halt (generate_secret env).
Proof.
  unfold generate_secret.
  apply halts_only_bind; [apply halts_only_act | intros key].
  apply halts_only_bind; [apply halts_only_query | intros now].
  destruct (Struct.pack_hiih _ _ _ _);
    [apply halts_only_ret | apply halts_only_raise].
Qed.

Lemma halts_only_authtool_cmd cluster name secret caps auid dest containerized :
  halts_only (world := world) early_halt
    (generate_ceph_authtool_cmd cluster name secret caps auid dest
       containerized).
Proof.
  unfold generate_ceph_authtool_cmd, as_str, as_tokens.
  apply halts_only_bind;
    [destruct dest; first [apply halts_only_ret | apply halts_only_raise] |].
  intros d. apply halts_only_bind; [apply halts_only_load_name |].
  intros base_cmd. apply halts_only_bind;
    [destruct base_cmd; first [apply halts_only_ret | apply halts_only_raise] |].
  intros extra. destruct caps; [| apply halts_only_raise].
  destruct (truthy_pystr containerized); apply halts_only_ret.
Qed.

Lemma halts_only_create_key cluster name secret caps import_key auid dest
    containerized :
  halts_only early_halt
    (create_key env cluster name secret caps import_key auid dest
       containerized).
Proof.
  unfold create_key, as_str.
  apply halts_only_bind;
    [destruct dest; first [apply halts_only_ret | apply halts_only_raise] |].
  intros d. apply halts_only_bind;
    [destruct (negb (truthy_str secret));
     [apply halts_only_generate_secret | apply halts_only_ret] |].
  intros s. apply halts_only_bind; [apply halts_only_load_name |].
  intros ci. apply halts_only_bind; [apply halts_only_authtool_cmd |].
  intros cmd. destruct import_key; apply halts_only_ret.
Qed.

Lemma halts_only_lookup (out : string) :
  halts_only early_halt (lookup_ceph_initial_entities env out).
Proof.
  unfold lookup_ceph_initial_entities.
  apply halts_only_bind.
  { destruct (env_json_loads env out); [| apply halts_only_ret].
    apply halts_only_bind; [apply halts_only_load_name |].
    intros; apply halts_only_fatal. }
  intros out_dict. apply halts_only_bind; [apply halts_only_lift_exn |].
  intros present. apply halts_only_bind.
  { destruct present.
    - apply halts_only_bind; [apply halts_only_lift_exn | intros dump].
      apply halts_only_bind; [apply halts_only_lift_exn | intros keys].
      apply halts_only_lift_exn.
    - apply halts_only_bind; [apply halts_only_load_name |].
      intros; apply halts_only_fatal. }
  intros entities. destruct (negb _); apply halts_only_ret.
Qed.

Lemma halts_only_fetch_loop cluster user user_key containerized uid gid
    (entities : list string) :
  forall cur,
    halts_only early_halt
      (fetch_loop env cluster user user_key containerized uid gid entities cur).
Proof.
  induction entities as [| e es IH]; intros cur; cbn [fetch_loop].
  - apply halts_only_ret.
  - apply halts_only_bind; [apply halts_only_lift_exn | intros key_path].
    destruct key_path as [key_path |]; [| apply halts_only_fatal].
    apply halts_only_bind; [apply halts_only_query | intros on_disk].
    destruct on_disk; [apply IH |].
    apply halts_only_bind; [apply halts_only_exec_commands | intros r].
    apply halts_only_bind; [apply halts_only_log | intros _].
    apply halts_only_bind; [apply halts_only_act | intros failed].
    destruct failed; [apply halts_only_fatal |].
    apply halts_only_bind; [apply halts_only_log | intros _].
    apply halts_only_bind; [apply halts_only_act | intros failed].
    destruct failed; [apply halts_only_fatal | apply IH].
Qed.

Lemma skip_result_set_stdout_rc (msg : string) :
  skip_result (set_stdout_rc initial_result msg 0).
Proof. repeat split. Qed.

(** The dispatch on [state] ends an invocation early only by a skip, a
    user-input error or an uncaught exception. *)
Lemma halts_only_dispatch (p : params) (pre : option cmd_result) :
  halts_only early_halt (dispatch env p initial_result pre).
Proof.
  unfold dispatch, read_rc.
  destruct (String.eqb (p_state p) "present").
  { apply halts_only_bind.
    { destruct (negb _); [apply halts_only_fatal | apply halts_only_ret]. }
    intros _. apply halts_only_bind.
    { destruct (p_import_key p); [| apply halts_only_ret].
      apply halts_only_bind.
      { destruct pre as [[[[rc ?] ?] ?] |];
          [apply halts_only_ret | apply halts_only_raise]. }
      intros rc.
      destruct ((rc =? 0) && negb (truthy_str (p_secret p)))%bool eqn:Hskip;
        [| apply halts_only_ret].
      apply andb_true_iff in Hskip as [Hrc _]. apply Z.eqb_eq in Hrc.
      subst rc. apply halts_only_halt. apply skip_result_set_stdout_rc. }
    intros _. apply halts_only_bind; [apply halts_only_load_name | intros ci].
    apply halts_only_bind; [apply halts_only_create_key | intros cmd_list].
    apply halts_only_bind; [apply halts_only_exec_commands | intros r].
    apply halts_only_bind; [apply halts_only_log | intros _].
    apply halts_only_bind; [apply halts_only_act | intros _].
    apply halts_only_ret. }
  destruct (String.eqb (p_state p) "update").
  { apply halts_only_bind.
    { destruct (negb _); [apply halts_only_fatal | apply halts_only_ret]. }
    intros _. apply halts_only_bind.
    { destruct pre as [[[[rc ?] ?] ?] |];
        [apply halts_only_ret | apply halts_only_raise]. }
    intros rc. apply halts_only_bind; [| intros _; apply halts_only_exec_commands].
    destruct (negb _); [| apply halts_only_ret].
    apply halts_only_halt. apply skip_result_set_stdout_rc. }
  destruct (String.eqb (p_state p) "absent");
    [apply halts_only_exec_commands |].
  destruct (String.eqb (p_state p) "info").
  { apply halts_only_bind.
    { destruct pre as [[[[rc ?] ?] ?] |];
        [apply halts_only_ret | apply halts_only_raise]. }
    intros rc. apply halts_only_bind; [| intros _; apply halts_only_exec_commands].
    destruct (negb _); [| apply halts_only_ret].
    apply halts_only_halt. apply skip_result_set_stdout_rc. }
  destruct (String.eqb (p_state p) "list");
    [apply halts_only_exec_commands |].
  destruct (String.eqb (p_state p) "fetch_initial_keys").
  { apply halts_only_bind; [apply halts_only_query | intros hostname].
    apply halts_only_bind; [apply halts_only_exec_commands | intros r].
    destruct r as [[[rc cmd] out] err].
    apply halts_only_bind.
    { destruct (negb _); [| apply halts_only_ret].
      apply halts_only_halt. apply skip_result_set_stdout_rc. }
    intros _. apply halts_only_bind; [apply halts_only_lookup | intros es].
    destruct es as [es |]; [| apply halts_only_fatal].
    apply halts_only_bind; [apply halts_only_query | intros uid].
    destruct uid; [| apply halts_only_raise].
    apply halts_only_bind; [apply halts_only_query | intros gid].
    destruct gid; [| apply halts_only_raise].
    apply halts_only_fetch_loop. }
  apply halts_only_halt. split; reflexivity.
Qed.

End Halting.

(** X10.  How an invocation can end.  In check mode [run_module] returns
    the initial result and touches nothing.  Otherwise it never returns:
    it ends in [exit_json], [fail_json] or an uncaught exception, and
    - every [exit_json] carries return code 0, and is either a skip
      ([changed] false, no command, no timestamps) or the report of a run
      ([changed] true, a command, timestamps, output without trailing
      line ends);
    - a [fail_json] carrying a result is always "non-zero return code",
      with a non-zero return code and [changed] true;
    - every other [fail_json] carries return code 1. *)
Theorem X10_how_an_invocation_ends :
  forall (world : Type) (env : Env world) (p : params) (w : world),
    match invoke env p w with
    | (inl r, m) =>
        p_check_mode p = true /\ r = initial_result /\ m = mkMachine w []
    | (inr h, _) => p_check_mode p = false /\ final_halt h
    end.
Proof.
  intros world env p w. unfold invoke.
  destruct (p_check_mode p) eqn:Hcm.
  { unfold run_module. rewrite Hcm. repeat split. }
  pose proof (pre_check_eq env p w) as Hpre.
  destruct (dispatch env p initial_result (pre_check_locals env p w)
              (pre_check_machine env p w)) as [[r | h] m2] eqn:Hd.
  - destruct r as [[[rc cmd] out] err].
    rewrite (run_module_completes env p _ _ _ _ _ _ _ _ Hcm Hpre Hd).
    cbv zeta. split; [reflexivity |].
    destruct (env_output_is_text env); [exact I |].
    destruct (Z.eqb_spec rc 0) as [-> | Hrc]; cbn [final_halt].
    + right. repeat split; try discriminate; apply rstrip_crlf_no_line_end.
    + split; [reflexivity |]. exists rc. split; [exact Hrc |].
      repeat split; try discriminate; apply rstrip_crlf_no_line_end.
  - rewrite (run_module_early_exit env p _ _ _ _ _ Hcm Hpre Hd).
    split; [reflexivity |].
    pose proof (halts_only_dispatch env p _ _ _ _ Hd) as He.
    destruct h as [r | msg [rc | c rc | r] | e]; cbn [final_halt early_halt] in *;
      auto; contradiction.
Qed.

(** ** What an invocation does to the outside world *)

Section Tracing.

Context {world : Type} (env : Env world).

Lemma runs_only_silent {A} (Q : event -> Prop) (c : M world A) :
  (forall m, exists r, c m = (r, m)) -> runs_only Q c.
Proof.
  intros Hc m r m' H. destruct (Hc m) as [r0 Hr0]. rewrite Hr0 in H.
  injection H as _ <-. exists []. now rewrite app_nil_r.
Qed.

Lemma runs_only_ret {A} (Q : event -> Prop) (a : A) :
  runs_only (world := world) Q (ret a).
Proof. apply runs_only_silent. intros m; eexists; reflexivity. Qed.

Lemma runs_only_halt {A} (Q : event -> Prop) (h : halt) :
  runs_only (world := world) (A := A) Q (halt_with h).
Proof. apply runs_only_silent. intros m; eexists; reflexivity. Qed.

Lemma runs_only_query {A} (Q : event -> Prop) (f : world -> A) :
  runs_only Q (query f).
Proof. apply runs_only_silent. intros m; eexists; reflexivity. Qed.

Lemma runs_only_act {A} (Q : event -> Prop) (f : world -> A * world) :
  runs_only Q (act f).
Proof.
  intros m r m' H. unfold act in H. destruct (f (m_world m)).
  injection H as _ <-. exists []. now rewrite app_nil_r.
Qed.

Lemma runs_only_log (Q : event -> Prop) (ev : event) :
  Q ev -> runs_only (world := world) Q (log ev).
Proof.
  intros Hq m r m' H. injection H as _ <-. exists [ev]. auto.
Qed.

Lemma runs_only_bind {A B} (Q : event -> Prop) (c : M world A)
    (k : A -> M world B) :
  runs_only Q c ->
  (forall a m m', c m = (inl a, m') -> runs_only Q (k a)) ->
  runs_only Q (bind c k).
Proof.
  intros Hc Hk m r m' H. unfold bind in H.
  destruct (c m) as [[a | h] m0] eqn:Hcm.
  - destruct (Hc m _ _ Hcm) as (t1 & E1 & F1).
    destruct (Hk a m m0 Hcm m0 r m' H) as (t2 & E2 & F2).
    exists (t1 ++ t2). rewrite E2, E1, app_assoc.
    split; [reflexivity | apply Forall_app; auto].
  - injection H as <- <-. exact (Hc m _ _ Hcm).
Qed.

Lemma runs_only_then {A B} (Q : event -> Prop) (c : M world A)
    (k : A -> M world B) :
  runs_only Q c -> (forall a, runs_only Q (k a)) -> runs_only Q (bind c k).
Proof. intros Hc Hk. apply runs_only_bind; auto. Qed.

Lemma runs_only_fatal {A} (Q : event -> Prop) msg module :
  runs_only (world := world) (A := A) Q (fatal msg module).
Proof.
  unfold fatal, fail_json, raise.
  destruct (obj_truthy module); apply runs_only_halt.
Qed.

Lemma runs_only_lift_exn {A} (Q : event -> Prop) (r : pyexn + A) :
  runs_only (world := world) Q (lift_exn r).
Proof.
  destruct r; [apply runs_only_halt | apply runs_only_ret].
Qed.

Lemma runs_only_run_command (Q : event -> Prop) (cmd : command) :
  Q (EvRun cmd) -> runs_only Q (run_command env cmd).
Proof.
  intros Hq. unfold run_command. apply runs_only_then;
    [apply runs_only_log; exact Hq | intros; apply runs_only_act].
Qed.

Lemma runs_only_exec_loop (Q : event -> Prop) (l : list command) :
  Forall (fun c => Q (EvRun c)) l ->
  forall last, runs_only Q (exec_loop env l last).
Proof.
  induction l as [| c l IH]; intros Hall last; cbn [exec_loop].
  - destruct last; [apply runs_only_ret | apply runs_only_halt].
  - inversion Hall; subst.
    apply runs_only_then; [apply runs_only_run_command; assumption |].
    intros [[rc out] err]. destruct (negb (rc =? 0));
      [apply runs_only_ret | apply IH; assumption].
Qed.

Lemma runs_only_exec_one (Q : event -> Prop) (cmd : command) :
  Q (EvRun cmd) -> runs_only Q (exec_commands env [cmd]).
Proof.
  intros Hq. apply runs_only_exec_loop. constructor; [exact Hq | constructor].
Qed.

Lemma runs_only_lookup (Q : event -> Prop) (out : string) :
  runs_only Q (lookup_ceph_initial_entities env out).
Proof.
  apply runs_only_silent. intros m.
  destruct (lookup_cases env out m) as (x & Hx & _). eauto.
Qed.

Lemma admissible_ceph_cmd (p : params) args user user_key :
  admissible_event p
    (EvRun (generate_ceph_cmd (p_cluster p) args user user_key
              (p_containerized p))).
Proof.
  exists user, user_key, args. apply generate_ceph_cmd_shape.
Qed.

Lemma runs_only_fetch_loop (p : params) user user_key uid gid
    (entities : list string) :
  p_state p = "fetch_initial_keys" ->
  forall cur,
    runs_only (admissible_event p)
      (fetch_loop env (p_cluster p) user user_key (p_containerized p)
         uid gid entities cur).
Proof.
  intros Hst.
  induction entities as [| e es IH]; intros cur; cbn [fetch_loop].
  - apply runs_only_ret.
  - apply runs_only_then; [apply runs_only_lift_exn | intros key_path].
    destruct key_path as [key_path |]; [| apply runs_only_fatal].
    apply runs_only_then; [apply runs_only_query | intros on_disk].
    destruct on_disk; [apply IH |].
    apply runs_only_then.
    { cbn [info_key app]. apply runs_only_exec_one.
      exists user, user_key, (["get"; e; "-f"; "plain"] ++ ["-o"; key_path]).
      rewrite generate_ceph_cmd_shape, <- !app_assoc. reflexivity. }
    intros r. apply runs_only_then;
      [apply runs_only_log; exact Hst | intros _].
    apply runs_only_then; [apply runs_only_act | intros failed].
    destruct failed; [apply runs_only_fatal |].
    apply runs_only_then;
      [apply runs_only_log; split; [exact Hst | reflexivity] | intros _].
    apply runs_only_then; [apply runs_only_act | intros failed].
    destruct failed; [apply runs_only_fatal | apply IH].
Qed.

Lemma runs_only_read_rc (Q : event -> Prop) (pre : option cmd_result) :
  runs_only (world := world) Q (read_rc pre).
Proof.
  destruct pre as [[[[rc ?] ?] ?] |];
    [apply runs_only_ret | apply runs_only_halt].
Qed.

Lemma runs_only_dispatch (p : params) (pre : option cmd_result) :
  runs_only (admissible_event p) (dispatch env p initial_result pre).
Proof.
  unfold dispatch.
  destruct (String.eqb (p_state p) "present").
  { apply runs_only_then.
    { destruct (negb _); [apply runs_only_fatal | apply runs_only_ret]. }
    intros _. apply runs_only_then.
    { destruct (p_import_key p); [| apply runs_only_ret].
      apply runs_only_then; [apply runs_only_read_rc | intros rc].
      destruct (_ && _)%bool; [apply runs_only_halt | apply runs_only_ret]. }
    intros _. apply runs_only_bind.
    - apply runs_only_silent. intros m; eexists; reflexivity.
    - intros a m m' H. discriminate H. }
  destruct (String.eqb (p_state p) "update").
  { apply runs_only_then.
    { destruct (negb _); [apply runs_only_fatal | apply runs_only_ret]. }
    intros _. apply runs_only_then; [apply runs_only_read_rc | intros rc].
    apply runs_only_then.
    { destruct (negb _); [apply runs_only_halt | apply runs_only_ret]. }
    intros _. apply runs_only_exec_one, admissible_ceph_cmd. }
  destruct (String.eqb (p_state p) "absent");
    [apply runs_only_exec_one, admissible_ceph_cmd |].
  destruct (String.eqb (p_state p) "info").
  { apply runs_only_then; [apply runs_only_read_rc | intros rc].
    apply runs_only_then.
    { destruct (negb _); [apply runs_only_halt | apply runs_only_ret]. }
    intros _. apply runs_only_exec_one, admissible_ceph_cmd. }
  destruct (String.eqb (p_state p) "list");
    [apply runs_only_exec_one, admissible_ceph_cmd |].
  destruct (String.eqb_spec (p_state p) "fetch_initial_keys") as [Hst | _].
  { apply runs_only_then; [apply runs_only_query | intros hostname].
    apply runs_only_then;
      [apply runs_only_exec_one, admissible_ceph_cmd | intros r].
    destruct r as [[[rc cmd] out] err].
    apply runs_only_then.
    { destruct (negb _); [apply runs_only_halt | apply runs_only_ret]. }
    intros _. apply runs_only_then; [apply runs_only_lookup | intros es].
    destruct es as [es |]; [| apply runs_only_fatal].
    apply runs_only_then; [apply runs_only_query | intros uid].
    destruct uid; [| apply runs_only_halt].
    apply runs_only_then; [apply runs_only_query | intros gid].
    destruct gid; [| apply runs_only_halt].
    apply runs_only_fetch_loop. exact Hst. }
  apply runs_only_halt.
Qed.

Lemma runs_only_run_module (p : params) :
  runs_only (admissible_event p) (run_module env p).
Proof.
  unfold run_module.
  destruct (p_check_mode p); [apply runs_only_ret |].
  apply runs_only_then; [apply runs_only_query | intros startd].
  apply runs_only_then.
  { unfold pre_check. destruct (p_import_key p); [| apply runs_only_ret].
    apply runs_only_then; [| intros; apply runs_only_ret].
    apply runs_only_exec_one, admissible_ceph_cmd. }
  intros pre. apply runs_only_then; [apply runs_only_dispatch | intros r].
  destruct r as [[[rc cmd] out] err].
  apply runs_only_then; [apply runs_only_query | intros endd].
  assert (Hstrip : forall o, runs_only (admissible_event p)
                               (rstrip_line_ends env o)).
  { intros o. unfold rstrip_line_ends.
    destruct (env_output_is_text env);
      [apply runs_only_halt | apply runs_only_ret]. }
  apply runs_only_then; [apply Hstrip | intros stdout].
  apply runs_only_then; [apply Hstrip | intros stderr].
  apply runs_only_then; [| intros; apply runs_only_halt].
  destruct (negb _); [apply runs_only_halt | apply runs_only_ret].
Qed.

End Tracing.

(** X11.  Whatever the parameters and however the invocation ends, every
    command the module runs is a [ceph ... auth] command line behind the
    container prefix, so [ceph-authtool] is never run; the attributes of
    the written keyring are never reconciled, since the creation path
    stops before that; and the owner and mode of a file are changed in
    state [fetch_initial_keys] only, the mode always to owner-read-only. *)
Theorem X11_what_an_invocation_runs :
  forall (world : Type) (env : Env world) (p : params) (w : world),
    Forall (admissible_event p) (trace_of (invoke env p w)).
Proof.
  intros world env p w. unfold trace_of, invoke.
  destruct (run_module env p (mkMachine w [])) as [r m'] eqn:Hr.
  destruct (runs_only_run_module env p _ _ _ Hr) as (t & Et & Ht).
  cbn [snd]. rewrite Et. exact Ht.
Qed.

(** ** The loop over the initial entities *)

Section FetchSequence.

Context {world : Type} (env : Env world).

Lemma bind_log {B} (ev : event) (k : unit -> M world B) (m : machine world) :
  bind (log ev) k m = k tt (mkMachine (m_world m) (m_trace m ++ [ev])).
Proof. reflexivity. Qed.

Lemma bind_act {A B} (f : world -> A * world) (k : A -> M world B)
    (m : machine world) :
  bind (act f) k m
  = k (fst (f (m_world m))) (mkMachine (snd (f (m_world m))) (m_trace m)).
Proof.
  unfold bind, act. destruct (f (m_world m)); reflexivity.
Qed.

(** One turn of the loop on an entity whose key file is missing: the
    fetch command has run and the owner is about to be changed. *)
Lemma fetch_loop_missing cluster user user_key containerized uid gid
    (e : string) (rest : list string) (cur : cmd_result) (m : machine world) :
  In e CEPH_INITIAL_KEYS ->
  env_isfile env (initial_key_path cluster e) (m_world m) = false ->
  fetch_loop env cluster user user_key containerized uid gid (e :: rest)
    cur m
  = (let path := initial_key_path cluster e in
     let cmd := fetch_cmd cluster user user_key containerized e in
     let ran := env_run_command env cmd (m_world m) in
     let changed := env_chown env path uid gid (snd ran) in
     match fst changed with
     | Some msg =>
         (inr (FailJson ("Failed to set owner/group/permissions of "
                           +++ path +++ ": " +++ msg) (KwRc 1)),
          mkMachine (snd changed)
            (m_trace m ++ [EvRun cmd; EvChown path uid gid]))
     | None =>
         let moded := env_chmod env path 256 (snd changed) in
         match fst moded with
         | Some msg =>
             (inr (FailJson ("Failed to set owner/group/permissions of "
                               +++ path +++ ": " +++ msg) (KwRc 1)),
              mkMachine (snd moded)
                (m_trace m ++ fetch_events cluster user user_key
                                containerized uid gid e))
         | None =>
             fetch_loop env cluster user user_key containerized uid gid rest
               (fst (fst (fst ran)), cmd, snd (fst (fst ran)), snd (fst ran))
               (mkMachine (snd moded)
                  (m_trace m ++ fetch_events cluster user user_key
                                  containerized uid gid e))
         end
     end).
Proof.
  intros He Hdisk.
  cbn [fetch_loop]. rewrite (build_key_path_initial cluster e He).
  cbn [lift_exn]. rewrite bind_ret_l, bind_query, Hdisk.
  cbn [info_key app].
  erewrite bind_inl by apply exec_commands_single.
  rewrite bind_log, bind_act. cbn [m_world m_trace].
  cbv zeta. unfold fetch_cmd. cbn [info_key hd].
  destruct (env_chown env _ uid gid _) as [[msg |] w2]; cbn [fst snd].
  - unfold fatal, the_module. cbn. rewrite <- app_assoc. reflexivity.
  - rewrite bind_log, bind_act. cbn [m_world m_trace].
    destruct (env_chmod env _ 256 w2) as [[msg |] w3]; cbn [fst snd];
      unfold fetch_events, fetch_cmd; cbn [info_key hd];
      rewrite <- !app_assoc; reflexivity.
Qed.

Lemma fetch_loop_on_disk cluster user user_key containerized uid gid
    (e : string) (rest : list string) (cur : cmd_result) (m : machine world) :
  In e CEPH_INITIAL_KEYS ->
  env_isfile env (initial_key_path cluster e) (m_world m) = true ->
  fetch_loop env cluster user user_key containerized uid gid (e :: rest)
    cur m
  = fetch_loop env cluster user user_key containerized uid gid rest cur m.
Proof.
  intros He Hdisk.
  cbn [fetch_loop]. rewrite (build_key_path_initial cluster e He).
  cbn [lift_exn]. rewrite bind_ret_l, bind_query, Hdisk. reflexivity.
Qed.

Lemma fetch_loop_sequence cluster user user_key containerized uid gid
    (entities : list string) :
  Forall (fun e => In e CEPH_INITIAL_KEYS) entities ->
  forall (cur : cmd_result) (m : machine world) (fetched : list string)
         (w' : world),
    fetch_pass env cluster user user_key containerized uid gid entities
      (m_world m) = Some (fetched, w') ->
    exists r : cmd_result,
      fetch_loop env cluster user user_key containerized uid gid entities
        cur m
      = (inl r,
         mkMachine w'
           (m_trace m
              ++ flat_map (fetch_events cluster user user_key containerized
                             uid gid) fetched))
      /\ (fetched = [] -> r = cur)
      /\ (fetched <> [] ->
          snd (fst (fst r))
          = fetch_cmd cluster user user_key containerized
              (List.last fetched "")).
Proof.
  induction entities as [| e es IH]; intros Hall cur m fetched w' Hpass.
  - cbn in Hpass. injection Hpass as <- <-.
    exists cur. cbn [flat_map fetch_loop]. rewrite app_nil_r.
    destruct m; repeat split; congruence.
  - inversion Hall as [| ? ? He Hes]; subst.
    cbn [fetch_pass] in Hpass. cbv zeta in Hpass.
    destruct (env_isfile env (initial_key_path cluster e) (m_world m))
      eqn:Hdisk.
    + rewrite (fetch_loop_on_disk _ _ _ _ _ _ _ _ _ _ He Hdisk).
      apply IH; assumption.
    + rewrite (fetch_loop_missing _ _ _ _ _ _ _ _ _ _ He Hdisk).
      cbv zeta.
      destruct (env_chown env _ uid gid _) as [[msg |] w2];
        [discriminate |].
      cbn [fst snd].
      destruct (env_chmod env _ 256 w2) as [[msg |] w3]; [discriminate |].
      cbn [fst snd].
      destruct (fetch_pass env cluster user user_key containerized uid gid
                  es w3) as [[done w''] |] eqn:Hrest; [| discriminate].
      injection Hpass as <- <-.
      match goal with
      | |- context [fetch_loop _ _ _ _ _ _ _ es ?cur' ?m1] =>
          destruct (IH Hes cur' m1 done w'' Hrest) as (r & Heq & Hnil & Hlast)
      end.
      exists r. split; [| split; [discriminate |]].
      * rewrite Heq. cbn [m_trace flat_map].
        rewrite <- !app_assoc. reflexivity.
      * intros _. destruct done as [| e' done'].
        -- rewrite (Hnil eq_refl). reflexivity.
        -- rewrite (Hlast ltac:(discriminate)). reflexivity.
Qed.

End FetchSequence.

(** X12.  The loop of [fetch_initial_keys] over initial entities, followed
    on the host from the world it starts in.  (1) When changing the owner
    and the mode succeeds for every entity whose key file is missing at its
    turn, the loop returns: an entity whose file is on disk at its turn is
    passed over without any action; for every other one, in order, the
    loop runs the fetch command writing to the entity's key path, then
    changes the owner of that file, then sets its mode to owner-read-only
    (256, i.e. 0400).  The exit codes of the fetch commands play no part,
    and the result the loop returns names the fetch command of the last
    entity fetched, or is the one it was given when none was.  (2) When the
    file of the first entity is missing and changing its owner raises
    [OSError], as it does after a fetch that wrote no file, the loop ends
    the invocation right there through [fail_json] with return code 1 and a
    message naming the path and the error: the mode is not touched and no
    later entity is looked at. *)
Theorem X12_fetch_loop_processes_every_entity :
  forall (world : Type) (env : Env world)
         (cluster user user_key : string) (containerized : option pystr)
         (uid gid : Z),
    (forall (entities : list string) (cur : cmd_result) (m : machine world)
            (fetched : list string) (w' : world),
        Forall (fun e => In e CEPH_INITIAL_KEYS) entities ->
        fetch_pass env cluster user user_key containerized uid gid entities
          (m_world m) = Some (fetched, w') ->
        exists r : cmd_result,
          fetch_loop env cluster user user_key containerized uid gid
            entities cur m
          = (inl r,
             mkMachine w'
               (m_trace m
                  ++ flat_map (fetch_events cluster user user_key
                                 containerized uid gid) fetched))
          /\ (fetched = [] -> r = cur)
          /\ (fetched <> [] ->
              snd (fst (fst r))
              = fetch_cmd cluster user user_key containerized
                  (List.last fetched "")))
    /\ (forall (e : string) (rest : list string) (cur : cmd_result)
               (m : machine world) (msg : string) (w2 : world),
          In e CEPH_INITIAL_KEYS ->
          env_isfile env (initial_key_path cluster e) (m_world m) = false ->
          env_chown env (initial_key_path cluster e) uid gid
            (snd (env_run_command env
                    (fetch_cmd cluster user user_key containerized e)
                    (m_world m)))
          = (Some msg, w2) ->
          fetch_loop env cluster user user_key containerized uid gid
            (e :: rest) cur m
          = (inr (FailJson ("Failed to set owner/group/permissions of "
                              +++ initial_key_path cluster e +++ ": " +++ msg)
                    (KwRc 1)),
             mkMachine w2
               (m_trace m
                  ++ [EvRun (fetch_cmd cluster user user_key containerized e);
                      EvChown (initial_key_path cluster e) uid gid]))).
Proof.
  intros world env cluster user user_key containerized uid gid. split.
  - intros entities cur m fetched w' Hall Hpass.
    apply fetch_loop_sequence; assumption.
  - intros e rest cur m msg w2 He Hdisk Hchown.
    rewrite (fetch_loop_missing env _ _ _ _ _ _ _ _ _ _ He Hdisk).
    cbv zeta. rewrite Hchown. reflexivity.
Qed.

Lemma X12_witness :
  (exists r : cmd_result,
     fetch_loop (disk_env true) "ceph" "mon."
       "/var/lib/ceph/mon/ceph-mon0/keyring" None 167 167
       ["client.admin"; "client.bootstrap-osd"; "client.bootstrap-mds"]
       (0, [], "", "")
       (mkMachine ["/var/lib/ceph/bootstrap-osd/ceph.keyring"] [])
     = (inl r,
        mkMachine
          ["/var/lib/ceph/bootstrap-mds/ceph.keyring";
           "/etc/ceph/ceph.client.admin.keyring";
           "/var/lib/ceph/bootstrap-osd/ceph.keyring"]
          [EvRun ["ceph"; "-n"; "mon."; "-k";
                  "/var/lib/ceph/mon/ceph-mon0/keyring"; "--cluster"; "ceph";
                  "auth"; "get"; "client.admin"; "-f"; "plain"; "-o";
                  "/etc/ceph/ceph.client.admin.keyring"];
           EvChown "/etc/ceph/ceph.client.admin.keyring" 167 167;
           EvChmod "/etc/ceph/ceph.client.admin.keyring" 256;
           EvRun ["ceph"; "-n"; "mon."; "-k";
                  "/var/lib/ceph/mon/ceph-mon0/keyring"; "--cluster"; "ceph";
                  "auth"; "get"; "client.bootstrap-mds"; "-f"; "plain"; "-o";
                  "/var/lib/ceph/bootstrap-mds/ceph.keyring"];
           EvChown "/var/lib/ceph/bootstrap-mds/ceph.keyring" 167 167;
           EvChmod "/var/lib/ceph/bootstrap-mds/ceph.keyring" 256]))
  /\ fetch_loop (disk_env false) "ceph" "mon."
       "/var/lib/ceph/mon/ceph-mon0/keyring" None 167 167
       ["client.admin"; "client.bootstrap-osd"] (0, [], "", "")
       (mkMachine [] [])
     = (inr (FailJson
               ("Failed to set owner/group/permissions of "
                  +++ "/etc/ceph/ceph.client.admin.keyring: "
                  +++ "[Errno 2] No such file or directory: "
                  +++ "'/etc/ceph/ceph.client.admin.keyring'")
               (KwRc 1)),
        mkMachine []
          [EvRun ["ceph"; "-n"; "mon."; "-k";
                  "/var/lib/ceph/mon/ceph-mon0/keyring"; "--cluster"; "ceph";
                  "auth"; "get"; "client.admin"; "-f"; "plain"; "-o";
                  "/etc/ceph/ceph.client.admin.keyring"];
           EvChown "/etc/ceph/ceph.client.admin.keyring" 167 167]).
Proof.
  split.
  - destruct (proj1 (X12_fetch_loop_processes_every_entity (list string)
                       (disk_env true) "ceph" "mon."
                       "/var/lib/ceph/mon/ceph-mon0/keyring" None 167 167)
                ["client.admin"; "client.bootstrap-osd";
                 "client.bootstrap-mds"]
                (0, [], "", "")
                (mkMachine ["/var/lib/ceph/bootstrap-osd/ceph.keyring"] [])
                ["client.admin"; "client.bootstrap-mds"]
                ["/var/lib/ceph/bootstrap-mds/ceph.keyring";
                 "/etc/ceph/ceph.client.admin.keyring";
                 "/var/lib/ceph/bootstrap-osd/ceph.keyring"])
      as (r & Heq & _).
    + repeat constructor; cbn; tauto.
    + reflexivity.
    + exists r. exact Heq.
  - refine (proj2 (X12_fetch_loop_processes_every_entity (list string)
                     (disk_env false) "ceph" "mon."
                     "/var/lib/ceph/mon/ceph-mon0/keyring" None 167 167)
              "client.admin" ["client.bootstrap-osd"] (0, [], "", "")
              (mkMachine [] []) _ [] _ _ _).
    + cbn; tauto.
    + reflexivity.
    + reflexivity.
Defined.

(** ** The container prefix *)

Section Splitting.

Variable space : ascii -> bool.



Lemma is_empty_append (cur w : string) :
  PyStr.is_empty w = false -> PyStr.is_empty (cur +++ w) = false.
Proof. destruct cur; [auto | reflexivity]. Qed.







End Splitting.


